(** * news_aggregator.py: a shallow embedding and its properties

    The program pulls RSS entries from a list of configured sources, turns
    them into item records, keeps the newest items of every source, merges
    the sources (sort by [published_at], newest first, then one item per
    [id]) and writes the result.

    Conventions of the embedding.
    - A Python [str] is represented by its UTF-8 encoding, a [string] of
      bytes.  Concatenation, substring containment ([in]) and the
      lexicographic comparison of two strings agree on both views; [len]
      counts code points and is written out as [Py.len].
    - Python integers are [Z].
    - A call that may raise returns a [Py.res]; [try]/[except Exception]
      is a [match] on it.
    - The wall clock is a function of the number of readings made so far,
      threaded through the code that reads it.
    - A run ends with the rows it hands to [save_jsonl] and [save_parquet];
      the directories, the two files and the lines printed on stdout are
      left out. *)

From Stdlib Require Import String Ascii List ZArith Lia Bool.
From Stdlib Require Import Sorted Permutation.
Import ListNotations.

Set Warnings "-register-all".

Local Open Scope string_scope.
Local Open Scope list_scope.

(* ================================================================== *)
(** * Python primitives the program relies on *)
(* ================================================================== *)

Module Py.

(** ** Exceptions and fallible calls *)

Inductive exn : Type :=
| FileNotFoundError
| AttributeError
| TypeError
| ValueError
| OtherError (msg : string).

(** The text [str(e)] of an exception belongs to the environment, see
    [exn_text] in [world]. *)

Inductive res (A : Type) : Type :=
| Ok (a : A)
| Raise (e : exn).
Arguments Ok {A} a.
Arguments Raise {A} e.

Definition bind {A B : Type} (m : res A) (k : A -> res B) : res B :=
  match m with
  | Ok a => k a
  | Raise e => Raise e
  end.

Notation "x <- m ;; k" := (bind m (fun x => k))
  (at level 61, m at next level, right associativity).

Fixpoint mapM {A B : Type} (f : A -> res B) (l : list A) : res (list B) :=
  match l with
  | [] => Ok []
  | a :: l' => b <- f a ;; bs <- mapM f l' ;; Ok (b :: bs)
  end.

(** ** Values of dynamic type (what [yaml.safe_load] hands back) *)

Inductive value : Type :=
| VNone
| VBool (b : bool)
| VInt (z : Z)
| VStr (s : string)
| VList (l : list value)
| VDict (d : list (string * value)).

(** Truth value of an object, as tested by [if x:], [x or y], [not x]. *)
Definition truthy (v : value) : bool :=
  match v with
  | VNone => false
  | VBool b => b
  | VInt z => negb (z =? 0)%Z
  | VStr s => negb (s =? "")
  | VList l => match l with [] => false | _ => true end
  | VDict d => match d with [] => false | _ => true end
  end.

(** [x or y] *)
Definition or_else (x y : value) : value := if truthy x then x else y.

(** A dict is the association list of its entries in insertion order;
    a key occurs once and lookup takes its binding. *)
Fixpoint lookup (k : string) (d : list (string * value)) : option value :=
  match d with
  | [] => None
  | (k', v) :: d' => if k' =? k then Some v else lookup k d'
  end.

(** [obj.get(k, default)]: only a dict has the method. *)
Definition get (obj : value) (k : string) (default : value) : res value :=
  match obj with
  | VDict d => Ok (match lookup k d with Some v => v | None => default end)
  | _ => Raise AttributeError
  end.

(** ** Strings *)

(** A byte [10xxxxxx] continues a code point started earlier. *)
Definition continuation (c : ascii) : bool :=
  let n := N_of_ascii c in ((128 <=? n) && (n <? 192))%N.

(** [len(s)]: the number of code points. *)
Fixpoint len (s : string) : nat :=
  match s with
  | EmptyString => 0
  | String c s' => if continuation c then len s' else S (len s')
  end.

(** [w in text] *)
Fixpoint contains (w text : string) : bool :=
  String.prefix w text ||
  match text with
  | EmptyString => false
  | String _ text' => contains w text'
  end.

(** [any(w in text for w in words)] *)
Definition any_in (words : list string) (text : string) : bool :=
  existsb (fun w => contains w text) words.

(** The characters of a string, as [for c in s] yields them. *)
Fixpoint chars_from (cur : string) (s : string) : list string :=
  match s with
  | EmptyString => match cur with EmptyString => [] | _ => [cur] end
  | String c s' =>
      if continuation c then chars_from (cur ++ String c EmptyString) s'
      else match cur with
           | EmptyString => chars_from (String c EmptyString) s'
           | _ => cur :: chars_from (String c EmptyString) s'
           end
  end.
Definition chars (s : string) : list string := chars_from EmptyString s.

(** [iter(obj)] run to its end: the elements a [for] loop visits. *)
Definition iterate (obj : value) : res (list value) :=
  match obj with
  | VList l => Ok l
  | VDict d => Ok (map (fun kv => VStr (fst kv)) d)
  | VStr s => Ok (map VStr (chars s))
  | _ => Raise TypeError
  end.

(** ** Slices *)

(** [l[:n]]: a negative [n] counts from the end. *)
Definition slice_to {A : Type} (n : Z) (l : list A) : list A :=
  if (0 <=? n)%Z then firstn (Z.to_nat n) l
  else firstn (Z.to_nat (Z.of_nat (length l) + n)) l.

(** [s[:n]] for [n >= 0], on a string of one-byte characters. *)
Fixpoint str_slice_to (n : nat) (s : string) : string :=
  match n, s with
  | S n', String c s' => String c (str_slice_to n' s')
  | _, _ => EmptyString
  end.

(** ** Ordering of strings and [sorted] *)

Definition str_le (a b : string) : Prop := String.leb a b = true.
Definition str_lt (a b : string) : Prop := String.ltb a b = true.

Section Sorted.
Context {A : Type}.
Variable key : A -> string.
Variable reverse : bool.

(** [goes_first x y]: [x], which stood before [y] in the input, stays
    before it. *)
Definition goes_first (x y : A) : bool :=
  if reverse then String.leb (key y) (key x)
  else String.leb (key x) (key y).

Fixpoint insert (x : A) (l : list A) : list A :=
  match l with
  | [] => [x]
  | y :: l' => if goes_first x y then x :: l else y :: insert x l'
  end.

(** [sorted(l, key=key, reverse=reverse)], and [l.sort(...)]: the sort
    is stable, also under [reverse=True]. *)
Definition sorted (l : list A) : list A := fold_right insert [] l.

(** The order the result is in. *)
Definition in_order (x y : A) : Prop :=
  if reverse then str_le (key y) (key x) else str_le (key x) (key y).
End Sorted.

(** ** Code points and white space *)

(** UTF-8 encoding of one code point. *)
Definition utf8 (cp : N) : string :=
  let b (n : N) := String (ascii_of_N n) EmptyString in
  if (cp <? 128)%N then b cp
  else if (cp <? 2048)%N then
    b (192 + cp / 64)%N ++ b (128 + cp mod 64)%N
  else if (cp <? 65536)%N then
    b (224 + cp / 4096)%N ++ b (128 + (cp / 64) mod 64)%N ++
    b (128 + cp mod 64)%N
  else
    b (240 + cp / 262144)%N ++ b (128 + (cp / 4096) mod 64)%N ++
    b (128 + (cp / 64) mod 64)%N ++ b (128 + cp mod 64)%N.

(** The code points [str.isspace] accepts; [str.strip] and the regular
    expression class [\s] use the same set. *)
Definition whitespace : list N :=
  [9; 10; 11; 12; 13; 28; 29; 30; 31; 32; 133; 160; 5760;
   8192; 8193; 8194; 8195; 8196; 8197; 8198; 8199; 8200; 8201; 8202;
   8232; 8233; 8239; 8287; 12288]%N.

Definition isspace (ch : string) : bool :=
  existsb (fun cp => utf8 cp =? ch) whitespace.

Fixpoint dropwhile {A : Type} (p : A -> bool) (l : list A) : list A :=
  match l with
  | [] => []
  | a :: l' => if p a then dropwhile p l' else l
  end.

Definition join_chars (l : list string) : string :=
  fold_right String.append EmptyString l.

(** [s.strip()] *)
Definition strip (s : string) : string :=
  join_chars (rev (dropwhile isspace (rev (dropwhile isspace (chars s))))).

(** [sep.join(parts)] *)
Fixpoint join (sep : string) (parts : list string) : string :=
  match parts with
  | [] => EmptyString
  | [p] => p
  | p :: rest => p ++ sep ++ join sep rest
  end.

(** ** Sets, as [set()] with [add]; only membership is observable. *)
Definition set_add (x : string) (s : list string) : list string :=
  if existsb (String.eqb x) s then s else s ++ [x].

(** [d.get(k)] on a dict: [None] when the key is absent. *)
Definition dict_get (d : list (string * value)) (k : string) : value :=
  match lookup k d with
  | Some v => v
  | None => VNone
  end.

(** Decimal digits of a non-negative number, least significant first. *)
Fixpoint digits_rev (fuel : nat) (n : N) : list ascii :=
  match fuel with
  | O => []
  | S fuel' =>
      ascii_of_N (48 + n mod 10) ::
      (if (n <? 10)%N then [] else digits_rev fuel' (n / 10))
  end.

(** [str(z)] for an integer. *)
Definition str_int (z : Z) : string :=
  let n := Z.to_N (Z.abs z) in
  let ds := string_of_list_ascii (rev (digits_rev (S (N.to_nat (N.log2 n))) n)) in
  if (z <? 0)%Z then "-" ++ ds else ds.

(** [str(v)], as an f-string formats [v]; the [repr] of a container is
    left to the caller. *)
Definition str (repr : value -> string) (v : value) : string :=
  match v with
  | VNone => "None"
  | VBool true => "True"
  | VBool false => "False"
  | VInt z => str_int z
  | VStr s => s
  | VList _ | VDict _ => repr v
  end.

(** ** Code that reads the clock and may raise: the number of clock
    readings so far goes in and comes out, also when the code raises. *)
Definition io (A : Type) : Type := nat -> res A * nat.

Definition ret {A : Type} (a : A) : io A := fun n => (Ok a, n).

Definition lift {A : Type} (m : res A) : io A := fun n => (m, n).

Definition io_bind {A B : Type} (m : io A) (k : A -> io B) : io B :=
  fun n =>
    match m n with
    | (Ok a, n') => k a n'
    | (Raise e, n') => (Raise e, n')
    end.

Notation "x <~ m ;; k" := (io_bind m (fun x => k))
  (at level 61, m at next level, right associativity).

Fixpoint io_mapM {A B : Type} (f : A -> io B) (l : list A) : io (list B) :=
  match l with
  | [] => ret []
  | a :: l' => b <~ f a ;; bs <~ io_mapM f l' ;; ret (b :: bs)
  end.

End Py.

(* ================================================================== *)
(** * [hashlib.sha1]: SHA-1 as in FIPS 180-4, on 32-bit words held in [Z] *)
(* ================================================================== *)

Module Hashlib.

Local Open Scope Z_scope.

Definition w32 (x : Z) : Z := x mod 2 ^ 32.

Definition rotl (n x : Z) : Z :=
  w32 (Z.lor (Z.shiftl x n) (Z.shiftr x (32 - n))).

Definition bytes_of (s : string) : list Z :=
  map (fun c => Z.of_N (N_of_ascii c)) (list_ascii_of_string s).

(** Big-endian bytes of [x], [n] of them. *)
Fixpoint be_bytes (n : nat) (x : Z) : list Z :=
  match n with
  | O => []
  | S n' => (Z.shiftr x (8 * Z.of_nat n')) mod 256 :: be_bytes n' x
  end.

(** The message followed by [0x80], zeros up to 56 modulo 64, and the
    length in bits on 8 bytes. *)
Definition pad (msg : list Z) : list Z :=
  let l := Z.of_nat (length msg) in
  let zeros := Z.to_nat ((55 - l) mod 64) in
  msg ++ [128] ++ repeat 0 zeros ++ be_bytes 8 (8 * l).

Fixpoint words (n : nat) (bs : list Z) : list Z :=
  match n with
  | O => []
  | S n' =>
      match bs with
      | b0 :: b1 :: b2 :: b3 :: bs' =>
          (b0 * 2 ^ 24 + b1 * 2 ^ 16 + b2 * 2 ^ 8 + b3) :: words n' bs'
      | _ => []
      end
  end.

(** The message schedule, newest word first: [newest :: ... :: w0]. *)
Fixpoint schedule (n : nat) (rev_w : list Z) : list Z :=
  match n with
  | O => rev_w
  | S n' =>
      let w i := nth i rev_w 0 in
      schedule n'
        (rotl 1 (Z.lxor (Z.lxor (w 2%nat) (w 7%nat))
                        (Z.lxor (w 13%nat) (w 15%nat))) :: rev_w)
  end.

Definition state : Type := (Z * Z * Z * Z * Z)%type.

Definition round (st : state) (iw : Z * Z) : state :=
  let '(a, b, c, d, e) := st in
  let '(i, w) := iw in
  let '(f, k) :=
    if i <? 20 then
      (Z.lor (Z.land b c) (Z.land (w32 (Z.lnot b)) d), 0x5A827999)
    else if i <? 40 then
      (Z.lxor (Z.lxor b c) d, 0x6ED9EBA1)
    else if i <? 60 then
      (Z.lor (Z.lor (Z.land b c) (Z.land b d)) (Z.land c d), 0x8F1BBCDC)
    else
      (Z.lxor (Z.lxor b c) d, 0xCA62C1D6) in
  (w32 (rotl 5 a + f + e + k + w), a, rotl 30 b, c, d).

Definition block (h : state) (bs : list Z) : state :=
  let ws := rev (schedule 64 (rev (words 16 bs))) in
  let idx := map Z.of_nat (seq 0 80) in
  let '(a, b, c, d, e) := fold_left round (combine idx ws) h in
  let '(h0, h1, h2, h3, h4) := h in
  (w32 (h0 + a), w32 (h1 + b), w32 (h2 + c), w32 (h3 + d), w32 (h4 + e)).

Fixpoint blocks (n : nat) (h : state) (bs : list Z) : state :=
  match n with
  | O => h
  | S n' => blocks n' (block h (firstn 64 bs)) (skipn 64 bs)
  end.

Definition init : state :=
  (0x67452301, 0xEFCDAB89, 0x98BADCFE, 0x10325476, 0xC3D2E1F0).

Definition hexdigit (n : Z) : ascii :=
  if n <? 10 then ascii_of_N (Z.to_N (48 + n))
  else ascii_of_N (Z.to_N (87 + n)).

(** [n] lower-case hexadecimal digits of [x], most significant first. *)
Fixpoint hex (n : nat) (x : Z) : string :=
  match n with
  | O => EmptyString
  | S n' => String (hexdigit ((Z.shiftr x (4 * Z.of_nat n')) mod 16)) (hex n' x)
  end.

(** [h = hashlib.sha1(); h.update(data); h.hexdigest()] *)
Definition sha1_hexdigest (data : string) : string :=
  let bs := pad (bytes_of data) in
  let '(h0, h1, h2, h3, h4) := blocks (length bs / 64) init bs in
  (hex 8 h0 ++ hex 8 h1 ++ hex 8 h2 ++ hex 8 h3 ++ hex 8 h4)%string.

Definition is_hex (c : ascii) : bool :=
  let n := N_of_ascii c in
  (((48 <=? n) && (n <=? 57)) || ((97 <=? n) && (n <=? 102)))%N.

End Hashlib.


Notation "x <- m ;; k" := (Py.bind m (fun x => k))
  (at level 61, m at next level, right associativity).
Notation "x <~ m ;; k" := (Py.io_bind m (fun x => k))
  (at level 61, m at next level, right associativity).

(* ================================================================== *)
(** * The program *)
(* ================================================================== *)

(** A feed entry: a dict. *)
Definition entry : Type := list (string * Py.value).

(** ** Time zones

    A [timezone] is its offset to UTC, in minutes. *)

(** [timezone.utc] *)
Definition timezone_utc : Z := 0.

(** [KST = timezone(timedelta(hours=9))] *)
Definition KST : Z := 9 * 60.

(** ** What the program gets from outside

    Library calls whose results depend on data the program does not own,
    and the wall clock.  [VList] stands for any sequence, so a
    [time.struct_time] is a [VList] of integers.  The zone a call is
    given is an argument of the call. *)
Record world : Type := {
  datetime : Type;
  (** [dateutil.parser.parse(val)] *)
  dtparser_parse : Py.value -> Py.res datetime;
  (** [d.astimezone(tz)] *)
  astimezone : datetime -> Z -> Py.res datetime;
  (** [datetime( *val[:6], tzinfo=tz)] *)
  datetime_new : Py.value -> Z -> Py.res datetime;
  (** [d.isoformat()] *)
  isoformat : datetime -> string;
  (** [datetime.now(tz)] at the reading number [n] of the clock *)
  now : Z -> nat -> datetime;
  (** [feedparser.parse(url).entries] *)
  feedparser_parse : Py.value -> Py.res (list entry);
  (** [trafilatura.fetch_url(url)], for the item at position [i] *)
  trafilatura_fetch_url : nat -> string -> Py.res Py.value;
  (** [trafilatura.extract(downloaded, ...)] *)
  trafilatura_extract : Py.value -> Py.res Py.value;
  (** [repr(v)] of a container and [str(e)] of an exception *)
  repr : Py.value -> string;
  exn_text : Py.exn -> string
}.

(** ** Utilities *)

Definition now_kst (w : world) : Py.io (datetime w) :=
  fun n => (Py.Ok (now w KST n), S n).

(** One [for key in (...)] loop of [parse_time]: the first key whose value
    is true and whose conversion does not raise decides; [None] when the
    loop falls through. *)
Fixpoint parse_time_loop (w : world)
    (convert : Py.value -> Py.res (datetime w))
    (e : entry) (keys : list string) : option (datetime w) :=
  match keys with
  | [] => None
  | key :: keys' =>
      let val := Py.dict_get e key in
      if Py.truthy val then
        match convert val with
        | Py.Ok t => Some t
        | Py.Raise _ => parse_time_loop w convert e keys'
        end
      else parse_time_loop w convert e keys'
  end.

Definition parse_time (w : world) (e : entry) : Py.io (datetime w) :=
  match parse_time_loop w
          (fun val => d <- dtparser_parse w val ;; astimezone w d KST)
          e ["published"; "updated"; "pubDate"] with
  | Some t => Py.ret t
  | None =>
      match parse_time_loop w
              (fun val =>
                 d <- datetime_new w val timezone_utc ;; astimezone w d KST)
              e ["published_parsed"; "updated_parsed"] with
      | Some t => Py.ret t
      | None => now_kst w
      end
  end.

Definition newline : string := String (ascii_of_N 10) EmptyString.

(** [re.sub(r"<.*?>", "", s)] on the characters of [s]: from a ["<"] up to
    the nearest [">"] is dropped, unless a line break comes first ([.]
    does not match it) or the text ends; [open] holds the characters read
    since a ["<"] that has not found its [">"] yet. *)
Fixpoint sub_tags (open : option (list string)) (l : list string)
  : list string :=
  match l with
  | [] => match open with Some held => held | None => [] end
  | c :: l' =>
      match open with
      | None =>
          if c =? "<" then sub_tags (Some [c]) l' else c :: sub_tags None l'
      | Some held =>
          if c =? ">" then sub_tags None l'
          else if c =? newline then held ++ c :: sub_tags None l'
          else sub_tags (Some (held ++ [c])) l'
      end
  end.

(** [re.sub(r"\s+", " ", s)] on the characters of [s]. *)
Fixpoint sub_spaces (in_run : bool) (l : list string) : list string :=
  match l with
  | [] => []
  | c :: l' =>
      if Py.isspace c then
        if in_run then sub_spaces true l' else " " :: sub_spaces true l'
      else c :: sub_spaces false l'
  end.

Definition clean_text (html_or_text : Py.value) : Py.res string :=
  if negb (Py.truthy html_or_text) then Py.Ok ""
  else
    match html_or_text with
    | Py.VStr s =>
        let text := Py.join_chars (sub_tags None (Py.chars s)) in
        Py.Ok (Py.strip (Py.join_chars (sub_spaces false (Py.chars text))))
    | _ => Py.Raise Py.TypeError
    end.

Definition sha1 (parts : list string) : string :=
  Hashlib.sha1_hexdigest (Py.join "|" parts).

(** ** Labelling *)

Definition POLITICS_KW : list string :=
  ["정치"; "대통령"; "국회"; "총선"; "장관"; "여당"; "야당"; "청와대"; "외교"; "안보"; "북한"].
Definition ECONOMY_KW : list string :=
  ["경제"; "증시"; "코스피"; "환율"; "금리"; "물가"; "수출"; "무역"; "부동산"; "채권"; "원달러"].
Definition SOCIETY_KW : list string :=
  ["사회"; "사건"; "사고"; "치안"; "노동"; "교육"; "복지"; "보건"; "의료"; "법원"; "검찰"].
Definition CULTURE_KW : list string :=
  ["문화"; "영화"; "음악"; "공연"; "전시"; "문학"; "예술"; "드라마"; "방송"; "연예"].
Definition ITSCI_KW : list string :=
  ["IT"; "과학"; "AI"; "인공지능"; "반도체"; "스타트업"; "클라우드"; "보안"; "게임"; "통신"; "소프트웨어"].
Definition SPORTS_KW : list string :=
  ["스포츠"; "축구"; "야구"; "농구"; "배구"; "골프"; "올림픽"; "대표팀"; "K리그"; "KBO"; "NBA"].

Definition guess_category (title summary : string) (src_category : Py.value)
  : Py.value :=
  if Py.truthy src_category then src_category
  else
    let text := (title ++ " " ++ summary)%string in
    let hit words := Py.any_in words text in
    if hit POLITICS_KW then Py.VStr "politics"
    else if hit ECONOMY_KW then Py.VStr "economy"
    else if hit SOCIETY_KW then Py.VStr "society"
    else if hit CULTURE_KW then Py.VStr "culture"
    else if hit ITSCI_KW then Py.VStr "it_science"
    else if hit SPORTS_KW then Py.VStr "sports"
    else Py.VStr "general".

Definition make_tags (title summary : string) : list string :=
  let tags := [] in
  let t := (title ++ " " ++ summary)%string in
  let tags :=
    if Py.any_in ["속보"; "단독"; "긴급"] t then Py.set_add "breaking" tags
    else tags in
  let tags :=
    if Py.any_in ["해설"; "분석"; "심층"] t then Py.set_add "analysis" tags
    else tags in
  let tags :=
    if Py.any_in ["사설"; "칼럼"; "오피니언"] t then Py.set_add "opinion" tags
    else tags in
  let tags :=
    if (Py.len title <=? 25)%nat then Py.set_add "short_title" tags
    else tags in
  Py.sorted (fun tag => tag) false tags.

(** ** Collecting *)

Record source : Type := {
  name : Py.value;
  url : Py.value;
  category : Py.value
}.

(** The file at [path]: absent, or the document [yaml.safe_load] makes of
    its text ([VNone] for an empty text). *)
Definition load_sources (file : option Py.value) : Py.res (list source) :=
  match file with
  | None => Py.Raise Py.FileNotFoundError
  | Some doc =>
      let data := Py.or_else doc (Py.VDict []) in
      listed <- Py.get data "sources" (Py.VList []) ;;
      elems <- Py.iterate listed ;;
      Py.mapM (fun s =>
                 n <- Py.get s "name" Py.VNone ;;
                 u <- Py.get s "url" Py.VNone ;;
                 c <- Py.get s "category" Py.VNone ;;
                 Py.Ok {| name := n; url := u; category := c |})
              elems
  end.

Record item : Type := {
  id : string;
  source_name : Py.value;
  source_url : Py.value;
  item_url : string;
  title : string;
  summary : string;
  published_at : string;
  fetched_at : string;
  language : string;
  item_category : Py.value;
  tags : list string;
  content : option string
}.

(** [(v or "").strip()] *)
Definition or_empty_strip (v : Py.value) : Py.res string :=
  match Py.or_else v (Py.VStr "") with
  | Py.VStr s => Py.Ok (Py.strip s)
  | _ => Py.Raise Py.AttributeError
  end.

(** The body of the loop of [fetch_rss]. *)
Definition fetch_rss_entry (w : world) (src : source) (e : entry)
  : Py.io item :=
  title <~ Py.lift (or_empty_strip (Py.dict_get e "title")) ;;
  link <~ Py.lift (or_empty_strip (Py.dict_get e "link")) ;;
  summary <~ Py.lift
    (clean_text (Py.or_else (Py.dict_get e "summary")
                   (Py.or_else (Py.dict_get e "description") (Py.VStr "")))) ;;
  published_at <~ parse_time w e ;;
  fetched <~ now_kst w ;;
  Py.ret {| id := Py.str_slice_to 16 (sha1 [title; link]);
            source_name := name src;
            source_url := url src;
            item_url := link;
            title := title;
            summary := summary;
            published_at := isoformat w published_at;
            fetched_at := isoformat w fetched;
            language := "ko";
            item_category := guess_category title summary (category src);
            tags := make_tags title summary;
            content := None |}.

Definition fetch_rss (w : world) (src : source) : Py.io (list item) :=
  entries <~ Py.lift (feedparser_parse w (url src)) ;;
  Py.io_mapM (fetch_rss_entry w src) entries.

Definition fetch_fulltext (w : world) (ENABLE_FULLTEXT : bool)
    (i : nat) (url : string) : option string :=
  if negb ENABLE_FULLTEXT then None
  else
    match
      (downloaded <- trafilatura_fetch_url w i url ;;
       if negb (Py.truthy downloaded) then Py.Ok None
       else
         text <- trafilatura_extract w downloaded ;;
         body <- or_empty_strip text ;;
         Py.Ok (if body =? "" then None else Some body))
    with
    | Py.Ok r => r
    | Py.Raise _ => None
    end.

Definition set_content (it : item) (body : string) : item :=
  {| id := id it; source_name := source_name it;
     source_url := source_url it; item_url := item_url it;
     title := title it; summary := summary it;
     published_at := published_at it; fetched_at := fetched_at it;
     language := language it; item_category := item_category it;
     tags := tags it; content := Some body |}.

(** [enrich_fulltext]: the loop from position [i] on. *)
Fixpoint enrich_from (w : world) (ENABLE_FULLTEXT : bool) (limit : Z)
    (i : nat) (items : list item) : list item :=
  match items with
  | [] => []
  | it :: rest =>
      if (limit <=? Z.of_nat i)%Z then items
      else
        let it' :=
          if negb (item_url it =? "") then
            match fetch_fulltext w ENABLE_FULLTEXT i (item_url it) with
            | Some body => set_content it body
            | None => it
            end
          else it in
        it' :: enrich_from w ENABLE_FULLTEXT limit (S i) rest
  end.

Definition enrich_fulltext (w : world) (ENABLE_FULLTEXT : bool)
    (FULLTEXT_LIMIT : Z) (items : list item) : list item :=
  enrich_from w ENABLE_FULLTEXT FULLTEXT_LIMIT 0 items.

(** ** Saving *)

(** [df.drop_duplicates(subset=["id"])]: of the rows with one [id] the
    first stays. *)
Fixpoint drop_duplicates (seen : list string) (rows : list item)
  : list item :=
  match rows with
  | [] => []
  | r :: rows' =>
      if existsb (String.eqb (id r)) seen then drop_duplicates seen rows'
      else r :: drop_duplicates (id r :: seen) rows'
  end.

(** The rows of the frame; every item already has [content] and [tags]. *)
Definition to_frame (items : list item) : list item :=
  drop_duplicates [] items.

(** ** Main *)

(** The environment as the run reads it, the three limits after [int()].
    A value that [int()] rejects makes the run raise [ValueError] at line
    188 or 189, before the sources are loaded, or at line 140 when the
    full text is enabled; such a run has no [config]. *)
Record config : Type := {
  PER_SOURCE_LIMIT : Z;
  TOTAL_LIMIT : Z;
  FETCH_FULLTEXT : bool;
  FULLTEXT_LIMIT : Z
}.

(** How a run ends: [sys.exit(code)], an exception nobody caught, or the
    rows of the frame with which it comes to the saving steps of lines
    217 to 220 ([ensure_dirs], [to_frame], [save_jsonl], [save_parquet]).
    The steps on the file system are not run here: [ensure_dirs] and
    either writer may still raise.  What the interpreter itself prints
    for an uncaught exception is not part of [stderr]. *)
Inductive ending : Type :=
| Exited (code : Z)
| Uncaught (e : Py.exn)
| Saved (rows : list item).

Record run : Type := {
  stderr : list string;
  outcome : ending
}.

(** The exit status of a run that ends before the saving steps: an
    exception nobody caught ends the interpreter with status 1.  A run
    that comes to the saving steps has its status from them (the
    directories and the two files may still fail), which is not decided
    here. *)
Definition exit_status (r : run) : option Z :=
  match outcome r with
  | Exited code => Some code
  | Uncaught _ => Some 1%Z
  | Saved _ => None
  end.

Definition by_published_at (x : item) : string := published_at x.

(** [uniq.setdefault(k, it)] on a dict in insertion order. *)
Fixpoint setdefault (k : string) (it : item) (uniq : list (string * item))
  : list (string * item) :=
  match uniq with
  | [] => [(k, it)]
  | (k', it') :: uniq' =>
      if k' =? k then uniq else (k', it') :: setdefault k it uniq'
  end.

(** The loop over the sources: [all_items] and the lines printed on
    stderr so far go through it, with the clock. *)
Fixpoint collect (w : world) (per_source_limit : Z) (sources : list source)
    (all_items : list item) (err : list string) (n : nat)
  : list item * list string * nat :=
  match sources with
  | [] => (all_items, err, n)
  | src :: sources' =>
      match fetch_rss w src n with
      | (Py.Ok items, n') =>
          let items := Py.sorted by_published_at true items in
          collect w per_source_limit sources'
            (all_items ++ Py.slice_to per_source_limit items) err n'
      | (Py.Raise e, n') =>
          collect w per_source_limit sources' all_items
            (err ++ ["[WARN] " ++ Py.str (repr w) (name src)
                       ++ " fetch failed: " ++ exn_text w e]%string)
            n'
      end
  end.

(** Lines 206-210: the newest first, one item per [id], at most
    [total_limit] of them. *)
Definition merge (total_limit : Z) (all_items : list item) : list item :=
  let uniq :=
    fold_left (fun uniq it => setdefault (id it) it uniq)
              (Py.sorted by_published_at true all_items) [] in
  Py.slice_to total_limit (map snd uniq).

Definition main (w : world) (cfg : config) (file : option Py.value)
    (n : nat) : run :=
  match load_sources file with
  | Py.Raise e => {| stderr := []; outcome := Uncaught e |}
  | Py.Ok sources =>
      match sources with
      | [] => {| stderr := ["No sources in sources.yaml"];
                 outcome := Exited 1 |}
      | _ =>
          let '(all_items, err, _) :=
            collect w (PER_SOURCE_LIMIT cfg) sources [] [] n in
          let items := merge (TOTAL_LIMIT cfg) all_items in
          let items :=
            if FETCH_FULLTEXT cfg
            then enrich_fulltext w true (FULLTEXT_LIMIT cfg) items
            else items in
          {| stderr := err; outcome := Saved (to_frame items) |}
      end
  end.

(* ================================================================== *)
(** * Vocabulary of the statements *)
(* ================================================================== *)

(** What every source handed back during a run, in the order of the run. *)
Fixpoint fetch_all (w : world) (sources : list source) (n : nat)
  : list (source * Py.res (list item)) :=
  match sources with
  | [] => []
  | src :: sources' =>
      let '(r, n') := fetch_rss w src n in
      (src, r) :: fetch_all w sources' n'
  end.

(** The items fetched from a source: none when the fetch raised. *)
Definition fetched (r : Py.res (list item)) : list item :=
  match r with
  | Py.Ok items => items
  | Py.Raise _ => []
  end.

(** The items of a source that enter [all_items]. *)
Definition kept (per_source_limit : Z) (r : Py.res (list item)) : list item :=
  match r with
  | Py.Ok items =>
      Py.slice_to per_source_limit (Py.sorted by_published_at true items)
  | Py.Raise _ => []
  end.

Definition warning (w : world) (src : source) (e : Py.exn) : string :=
  "[WARN] " ++ Py.str (repr w) (name src) ++ " fetch failed: " ++ exn_text w e.

(** The warnings of a run, one for every source that raised. *)
Fixpoint warnings (w : world) (trace : list (source * Py.res (list item)))
  : list string :=
  match trace with
  | [] => []
  | (src, Py.Raise e) :: trace' => warning w src e :: warnings w trace'
  | (_, Py.Ok _) :: trace' => warnings w trace'
  end.

(** All the items that enter [all_items] during a run. *)
Definition kept_all (per_source_limit : Z)
    (trace : list (source * Py.res (list item))) : list item :=
  concat (map (fun sr => kept per_source_limit (snd sr)) trace).

(** The items after the optional enrichment. *)
Definition enriched (w : world) (cfg : config) (items : list item)
  : list item :=
  if FETCH_FULLTEXT cfg
  then enrich_fulltext w true (FULLTEXT_LIMIT cfg) items
  else items.

(** The sources that did not raise. *)
Definition succeeded (trace : list (source * Py.res (list item)))
  : list (source * Py.res (list item)) :=
  filter (fun sr => match snd sr with Py.Ok _ => true | Py.Raise _ => false end)
         trace.

(** [min(total_limit, sum over the sources of min(per_source_limit,
    number of items fetched))]. *)
Definition count_bound (cfg : config)
    (trace : list (source * Py.res (list item))) : Z :=
  Z.min (TOTAL_LIMIT cfg)
    (fold_right Z.add 0%Z
       (map (fun sr => Z.min (PER_SOURCE_LIMIT cfg)
                             (Z.of_nat (length (fetched (snd sr)))))
            trace)).

(** Of the items with one [id], the first of the list. *)
Fixpoint first_per_id (seen : list string) (l : list item) : list item :=
  match l with
  | [] => []
  | x :: l' =>
      if existsb (String.eqb (id x)) seen then first_per_id seen l'
      else x :: first_per_id (id x :: seen) l'
  end.

(** Sorted by [published_at], the greatest first. *)
Definition newest_first (l : list item) : Prop :=
  StronglySorted (Py.in_order by_published_at true) l.

(** Ascending without repetition. *)
Definition strictly_ascending (l : list string) : Prop :=
  StronglySorted Py.str_lt l.

(** The number of items of [l] whose id is [i]. *)
Definition count_id (i : string) (l : list item) : nat :=
  length (filter (fun x => id x =? i) l).

Definition rows_of (r : run) : list item :=
  match outcome r with
  | Saved rows => rows
  | _ => []
  end.

Definition all_hex (s : string) : Prop :=
  Forall (fun c => Hashlib.is_hex c = true) (list_ascii_of_string s).

(** The keyword groups in the order [guess_category] tries them. *)
Definition GROUPS : list (list string * string) :=
  [(POLITICS_KW, "politics"); (ECONOMY_KW, "economy");
   (SOCIETY_KW, "society"); (CULTURE_KW, "culture");
   (ITSCI_KW, "it_science"); (SPORTS_KW, "sports")].

(** The label of the first group of [groups] with a keyword in [text]. *)
Fixpoint first_group (groups : list (list string * string)) (text : string)
  : string :=
  match groups with
  | [] => "general"
  | (words, label) :: groups' =>
      if Py.any_in words text then label else first_group groups' text
  end.

(** The timestamp the resolution order of the time resolver arrives at:
    the candidates in order, each a value and its conversion. *)
Fixpoint first_success {T : Type}
    (candidates : list (Py.value * (Py.value -> Py.res T))) : option T :=
  match candidates with
  | [] => None
  | (val, convert) :: rest =>
      if Py.truthy val then
        match convert val with
        | Py.Ok t => Some t
        | Py.Raise _ => first_success rest
        end
      else first_success rest
  end.

(** [kw] is a substring of [text]. *)
Definition occurs (kw text : string) : Prop :=
  exists pre post, text = (pre ++ kw ++ post)%string.

(** A candidate of the time resolver gives the timestamp [t]: its value
    is true and its conversion returns [t]. *)
Definition usable {T : Type} (convert : Py.value -> Py.res T)
    (val : Py.value) (t : T) : Prop :=
  Py.truthy val = true /\ convert val = Py.Ok t.

(** A candidate gives nothing: its value is false (absent, [None],
    empty) or its conversion raises. *)
Definition unusable {T : Type} (convert : Py.value -> Py.res T)
    (val : Py.value) : Prop :=
  Py.truthy val = false \/ exists e, convert val = Py.Raise e.

(* ================================================================== *)
(** * A small world to run the program in *)
(* ================================================================== *)

Module Sample.

(** A timestamp of the sample clock: the text the parser read, taken to
    be at the offset of [KST] already, or wall-clock fields with their
    offset to UTC in minutes. *)
Inductive stamp : Type :=
| Text (s : string)
| Wall (y mo d h mi s : Z) (offset : Z).

(** The parser accepts a text that starts with a digit. *)
Definition parse (val : Py.value) : Py.res stamp :=
  match val with
  | Py.VStr (String c s) =>
      if Hashlib.is_hex c && negb (Py.continuation c) && (N_of_ascii c <? 58)%N
      then Py.Ok (Text (String c s)) else Py.Raise Py.ValueError
  | _ => Py.Raise Py.TypeError
  end.

Definition int_or (default : Z) (v : option Py.value) : option Z :=
  match v with
  | None => Some default
  | Some (Py.VInt z) => Some z
  | Some _ => None
  end.

(** [datetime( *val[:6], tzinfo=tz)]: year, month and day are needed,
    hour, minute and second default to 0, the fields beyond the sixth are
    not read. *)
Definition from_tuple (val : Py.value) (tz : Z) : Py.res stamp :=
  match val with
  | Py.VList (Py.VInt y :: Py.VInt mo :: Py.VInt d :: rest) =>
      match int_or 0 (nth_error rest 0), int_or 0 (nth_error rest 1),
            int_or 0 (nth_error rest 2) with
      | Some h, Some mi, Some s =>
          if ((1 <=? y) && (y <=? 9999) && (1 <=? mo) && (mo <=? 12)
              && (1 <=? d) && (d <=? 31) && (0 <=? h) && (h <? 24)
              && (0 <=? mi) && (mi <? 60) && (0 <=? s) && (s <? 60))%Z
          then Py.Ok (Wall y mo d h mi s tz)
          else Py.Raise Py.ValueError
      | _, _, _ => Py.Raise Py.TypeError
      end
  | _ => Py.Raise Py.TypeError
  end.

(** [d.astimezone(tz)]; the sample clock moves the hour within the day
    and gives up when the day would change. *)
Definition to_zone (d : stamp) (tz : Z) : Py.res stamp :=
  match d with
  | Text s => Py.Ok (Text s)
  | Wall y mo dd h mi s offset =>
      let h' := (h + (tz - offset) / 60)%Z in
      if (((tz - offset) mod 60 =? 0) && (0 <=? h') && (h' <? 24))%Z
      then Py.Ok (Wall y mo dd h' mi s tz)
      else Py.Raise (Py.OtherError "day change")
  end.

Definition pad (width : nat) (z : Z) : string :=
  let digits := Py.str_int z in
  string_of_list_ascii
    (repeat "0"%char (width - String.length digits)) ++ digits.

Definition offset_text (tz : Z) : string :=
  ((if tz <? 0 then "-" else "+")%Z
   ++ pad 2 (Z.abs tz / 60) ++ ":" ++ pad 2 (Z.abs tz mod 60))%string.

Definition iso (d : stamp) : string :=
  match d with
  | Text s => s
  | Wall y mo dd h mi s offset =>
      (pad 4 y ++ "-" ++ pad 2 mo ++ "-" ++ pad 2 dd ++ "T"
       ++ pad 2 h ++ ":" ++ pad 2 mi ++ ":" ++ pad 2 s
       ++ offset_text offset)%string
  end.

Definition entry_of (title link summary published : string) : entry :=
  [("title", Py.VStr title); ("link", Py.VStr link);
   ("summary", Py.VStr summary); ("published", Py.VStr published)].

Definition feeds : list (string * Py.res (list entry)) :=
  [("http://a.example/rss",
    Py.Ok [entry_of "코스피 상승 마감" "http://news.example/2" "증시 <b>분석</b>"
             "2024-05-01T09:00:00+09:00";
           entry_of " 대통령, 국회 연설 " "http://news.example/1" "<p>속보</p>"
             "2024-05-02T09:00:00+09:00"]);
   ("http://b.example/rss",
    Py.Ok [entry_of "대통령, 국회 연설" "http://news.example/1" "다른 요약"
             "2024-05-03T09:00:00+09:00"]);
   ("http://c.example/rss",
    Py.Ok [entry_of "대통령, 국회 연설" "http://news.example/1" "요약"
             "2024-05-02T21:00:00+09:00"]);
   ("http://down.example/rss", Py.Raise (Py.OtherError "timed out"));
   ("http://odd.example/rss",
    Py.Ok [entry_of "야구 개막" "http://news.example/3" "" "2024-05-04T09:00:00+09:00";
           [("title", Py.VInt 7)]]);
   ("http://p.example/rss",
    Py.Ok [entry_of "a|b" "c" "" "2024-05-05T09:00:00+09:00"]);
   ("http://q.example/rss",
    Py.Ok [entry_of "a" "b|c" "" "2024-05-06T09:00:00+09:00"])].

Fixpoint feed_at (u : string) (table : list (string * Py.res (list entry)))
  : Py.res (list entry) :=
  match table with
  | [] => Py.Raise (Py.OtherError "unknown host")
  | (u', r) :: table' => if u' =? u then r else feed_at u table'
  end.

Definition w : world :=
  {| datetime := stamp;
     dtparser_parse := parse;
     astimezone := to_zone;
     datetime_new := from_tuple;
     isoformat := iso;
     now := fun tz n =>
              Text ("2024-06-01T00:00:00" ++ offset_text tz ++ " #"
                    ++ Py.str_int (Z.of_nat n));
     feedparser_parse :=
       fun u => match u with
                | Py.VStr u => feed_at u feeds
                | _ => Py.Raise Py.TypeError
                end;
     trafilatura_fetch_url := fun _ _ => Py.Ok Py.VNone;
     trafilatura_extract := fun _ => Py.Ok Py.VNone;
     repr := fun _ => "<container>";
     exn_text := fun e => match e with
                          | Py.OtherError msg => msg
                          | _ => "error"
                          end |}.

Definition source_doc (n u : string) : Py.value :=
  Py.VDict [("name", Py.VStr n); ("url", Py.VStr u)].

(** The parsed [sources.yaml] listing the given (name, url) pairs. *)
Definition sources_yaml (l : list (string * string)) : option Py.value :=
  Some (Py.VDict
          [("sources", Py.VList (map (fun nu => source_doc (fst nu) (snd nu)) l))]).

Definition src (n u : string) : source :=
  {| name := Py.VStr n; url := Py.VStr u; category := Py.VNone |}.

Definition defaults : config :=
  {| PER_SOURCE_LIMIT := 20; TOTAL_LIMIT := 200;
     FETCH_FULLTEXT := false; FULLTEXT_LIMIT := 40 |}.

Definition with_limits (per_source total : Z) : config :=
  {| PER_SOURCE_LIMIT := per_source; TOTAL_LIMIT := total;
     FETCH_FULLTEXT := false; FULLTEXT_LIMIT := 40 |}.

(** The items a feed of the table turns into. *)
Definition items_of (n u : string) (clock : nat) : list item :=
  fetched (fst (fetch_rss w (src n u) clock)).

(** The items of some feeds, at the clock readings the examples use. *)
Definition from_p : list item :=
  Eval vm_compute in items_of "P" "http://p.example/rss" 0.
Definition from_q : list item :=
  Eval vm_compute in items_of "Q" "http://q.example/rss" 1.

End Sample.

(* ================================================================== *)
(** * Vocabulary of the further statements *)
(* ================================================================== *)

(** The source that a mapping of the document stands for. *)
Definition source_of_mapping (d : list (string * Py.value)) : source :=
  {| name := Py.dict_get d "name";
     url := Py.dict_get d "url";
     category := Py.dict_get d "category" |}.

Definition is_mapping (v : Py.value) : bool :=
  match v with
  | Py.VDict _ => true
  | _ => false
  end.

Definition is_str (v : Py.value) : bool :=
  match v with
  | Py.VStr _ => true
  | _ => false
  end.

(** The sources of a run whose fetch raised. *)
Definition failed (trace : list (source * Py.res (list item)))
  : list (source * Py.res (list item)) :=
  filter (fun sr => match snd sr with Py.Ok _ => false | Py.Raise _ => true end)
         trace.

(** The labels [guess_category] infers and the tags [make_tags] gives. *)
Definition LABELS : list string :=
  ["politics"; "economy"; "society"; "culture"; "it_science"; "sports";
   "general"].

Definition TAGS : list string :=
  ["analysis"; "breaking"; "opinion"; "short_title"].

(** All the fields of an item but [content]. *)
Definition but_content (it : item) :=
  (id it, source_name it, source_url it, item_url it, title it, summary it,
   published_at it, fetched_at it, language it, item_category it, tags it).

(** An entry on which the loop of [fetch_rss] raises before it builds an
    item: its title or its link is a true value that is no string, or so
    are its summary, or its description when the summary is false. *)
Definition malformed (e : entry) : bool :=
  let odd v := Py.truthy v && negb (is_str v) in
  odd (Py.dict_get e "title") || odd (Py.dict_get e "link") ||
  odd (Py.or_else (Py.dict_get e "summary") (Py.dict_get e "description")).

(** ** Characters *)

Definition all_continuation (s : string) : bool :=
  forallb Py.continuation (list_ascii_of_string s).

(** One code point: a first byte that continues nothing, then
    continuation bytes. *)
Definition is_char (c : string) : bool :=
  match c with
  | String b r => negb (Py.continuation b) && all_continuation r
  | EmptyString => false
  end.

(** What [Py.chars] may also yield in front of a text that starts in the
    middle of a code point. *)
Definition is_head_char (c : string) : bool :=
  match c with
  | String _ r => all_continuation r
  | EmptyString => false
  end.

(** The list of the characters of some text. *)
Definition char_list (l : list string) : bool :=
  match l with
  | [] => true
  | c :: l' => is_head_char c && forallb is_char l'
  end.

(** A list of characters without the white space at its two ends. *)
Definition trim (l : list string) : list string :=
  rev (Py.dropwhile Py.isspace (rev (Py.dropwhile Py.isspace l))).

(** No white space at either end. *)
Definition clean_ends (l : list string) : Prop :=
  (forall c, hd_error l = Some c -> Py.isspace c = false)
  /\ (forall c, hd_error (rev l) = Some c -> Py.isspace c = false).

(** No two white-space characters in a row. *)
Fixpoint single_spaced (l : list string) : Prop :=
  match l with
  | c1 :: ((c2 :: _) as l') =>
      ~ (Py.isspace c1 = true /\ Py.isspace c2 = true) /\ single_spaced l'
  | _ => True
  end.

(** The characters [sub_tags] holds back. *)
Definition held_of (open : option (list string)) : list string :=
  match open with
  | Some held => held
  | None => []
  end.

(** ** A world in which the body of some pages can be read *)

Module Fulltext.

Definition w : world :=
  {| datetime := datetime Sample.w;
     dtparser_parse := dtparser_parse Sample.w;
     astimezone := astimezone Sample.w;
     datetime_new := datetime_new Sample.w;
     isoformat := isoformat Sample.w;
     now := now Sample.w;
     feedparser_parse := feedparser_parse Sample.w;
     trafilatura_fetch_url :=
       fun _ u =>
         if u =? "http://news.example/1" then Py.Ok (Py.VStr "<html>1</html>")
         else if u =? "http://news.example/2" then Py.Ok Py.VNone
         else Py.Raise (Py.OtherError "404");
     trafilatura_extract := fun _ => Py.Ok (Py.VStr "  본문 전체  ");
     repr := repr Sample.w;
     exn_text := exn_text Sample.w |}.

Definition reading (limit : Z) : config :=
  {| PER_SOURCE_LIMIT := 20; TOTAL_LIMIT := 200;
     FETCH_FULLTEXT := true; FULLTEXT_LIMIT := limit |}.

End Fulltext.

(** Membership in a list of literals, and its refutation. *)
Ltac in_tags := repeat (first [left; reflexivity | right]).
Ltac not_in_tags H :=
  repeat (destruct H as [H | H]; [discriminate H|]); try contradiction.

(* ================================================================== *)
(** * Facts about the primitives *)
(* ================================================================== *)

Section StringOrder.

Lemma ascii_compare_refl (c : ascii) : Ascii.compare c c = Eq.
Proof. unfold Ascii.compare. apply N.compare_refl. Qed.

Lemma ascii_compare_lt_trans (a b c : ascii) :
  Ascii.compare a b = Lt -> Ascii.compare b c = Lt -> Ascii.compare a c = Lt.
Proof.
  unfold Ascii.compare. rewrite !N.compare_lt_iff. apply N.lt_trans.
Qed.

Lemma str_compare_refl (s : string) : String.compare s s = Eq.
Proof.
  induction s as [|c s IH]; simpl; [reflexivity|].
  now rewrite ascii_compare_refl.
Qed.

Lemma str_compare_lt_trans (a : string) :
  forall b c, String.compare a b = Lt -> String.compare b c = Lt ->
              String.compare a c = Lt.
Proof.
  induction a as [|x a IH]; intros [|y b] [|z c]; simpl; try congruence.
  destruct (Ascii.compare x y) eqn:Hxy; try discriminate;
    destruct (Ascii.compare y z) eqn:Hyz; try discriminate; intros Hab Hbc.
  - apply Ascii.compare_eq_iff in Hxy, Hyz. subst.
    rewrite ascii_compare_refl. eauto.
  - apply Ascii.compare_eq_iff in Hxy. subst. now rewrite Hyz.
  - apply Ascii.compare_eq_iff in Hyz. subst. now rewrite Hxy.
  - now rewrite (ascii_compare_lt_trans _ _ _ Hxy Hyz).
Qed.

Lemma str_le_refl (s : string) : Py.str_le s s.
Proof. unfold Py.str_le, String.leb. now rewrite str_compare_refl. Qed.

Lemma str_lt_trans (a b c : string) :
  Py.str_lt a b -> Py.str_lt b c -> Py.str_lt a c.
Proof.
  unfold Py.str_lt, String.ltb. intros Hab Hbc.
  destruct (String.compare a b) eqn:E1; try discriminate.
  destruct (String.compare b c) eqn:E2; try discriminate.
  now rewrite (str_compare_lt_trans _ _ _ E1 E2).
Qed.

Lemma str_le_cases (a b : string) : Py.str_le a b <-> Py.str_lt a b \/ a = b.
Proof.
  unfold Py.str_le, Py.str_lt, String.leb, String.ltb. split.
  - destruct (String.compare a b) eqn:E; intros H; try discriminate.
    + right. now apply String.compare_eq_iff.
    + now left.
  - intros [H | ->].
    + now destruct (String.compare a b).
    + now rewrite str_compare_refl.
Qed.

Lemma str_le_trans (a b c : string) :
  Py.str_le a b -> Py.str_le b c -> Py.str_le a c.
Proof.
  rewrite !str_le_cases. intros [Hab | ->] [Hbc | ->]; auto.
  left. eapply str_lt_trans; eauto.
Qed.


Lemma str_not_le_lt (a b : string) : String.leb a b = false -> Py.str_lt b a.
Proof.
  unfold Py.str_lt, String.ltb, String.leb.
  rewrite (String.compare_antisym b a).
  destruct (String.compare a b); simpl; congruence.
Qed.

Lemma str_lt_irrefl (a : string) : ~ Py.str_lt a a.
Proof.
  unfold Py.str_lt, String.ltb. now rewrite str_compare_refl.
Qed.

End StringOrder.

(** ** [sorted] *)

Section SortedFacts.
Context {A : Type}.
Variable key : A -> string.
Variable reverse : bool.

Local Abbreviation R := (Py.in_order key reverse).
Local Abbreviation ins := (Py.insert key reverse).
Local Abbreviation srt := (Py.sorted key reverse).

Lemma goes_first_in_order (x y : A) :
  Py.goes_first key reverse x y = true -> R x y.
Proof. unfold Py.goes_first, Py.in_order, Py.str_le. now destruct reverse. Qed.

Lemma not_goes_first_in_order (x y : A) :
  Py.goes_first key reverse x y = false -> R y x.
Proof.
  unfold Py.goes_first, Py.in_order. destruct reverse; intros H;
    apply str_not_le_lt in H; apply str_le_cases; now left.
Qed.

Lemma in_order_trans (x y z : A) : R x y -> R y z -> R x z.
Proof.
  unfold Py.in_order. destruct reverse; intros; eapply str_le_trans; eauto.
Qed.

Lemma insert_perm (x : A) (l : list A) : Permutation (ins x l) (x :: l).
Proof.
  induction l as [|y l IH]; simpl; [reflexivity|].
  destruct (Py.goes_first key reverse x y); [reflexivity|].
  rewrite perm_swap. now constructor.
Qed.

Lemma sorted_perm (l : list A) : Permutation (srt l) l.
Proof.
  induction l as [|x l IH]; simpl; [constructor|].
  etransitivity; [apply insert_perm|]. now constructor.
Qed.

Lemma sorted_length (l : list A) : length (srt l) = length l.
Proof. apply Permutation_length, sorted_perm. Qed.

Lemma sorted_In (x : A) (l : list A) : In x (srt l) <-> In x l.
Proof.
  split; apply Permutation_in; [|symmetry]; apply sorted_perm.
Qed.

Lemma insert_sorted (x : A) (l : list A) :
  StronglySorted R l -> StronglySorted R (ins x l).
Proof.
  induction 1 as [|y l Hs IH Hy]; simpl.
  - repeat constructor.
  - destruct (Py.goes_first key reverse x y) eqn:E.
    + constructor; [now constructor|].
      apply goes_first_in_order in E. constructor; [exact E|].
      eapply Forall_impl; [|exact Hy]. intros z. now apply in_order_trans.
    + constructor; [exact IH|].
      apply not_goes_first_in_order in E.
      eapply Permutation_Forall; [symmetry; apply insert_perm|].
      now constructor.
Qed.

Lemma sorted_sorted (l : list A) : StronglySorted R (srt l).
Proof.
  induction l as [|x l IH]; simpl; [constructor|]. now apply insert_sorted.
Qed.

End SortedFacts.

Section Stability.
Context {A : Type}.
Variable key : A -> string.
Variable reverse : bool.

Lemma goes_first_same_key (x y : A) :
  key x = key y -> Py.goes_first key reverse x y = true.
Proof.
  unfold Py.goes_first. intros ->. destruct reverse; apply str_le_refl.
Qed.

(** Items with one key leave [sorted] in the order they came in. *)
Lemma sorted_stable (k : string) (l : list A) :
  filter (fun y => key y =? k) (Py.sorted key reverse l)
  = filter (fun y => key y =? k) l.
Proof.
  induction l as [|x l IH]; simpl; [reflexivity|].
  rewrite <- IH. clear IH.
  induction (Py.sorted key reverse l) as [|y s IHs]; simpl; [reflexivity|].
  destruct (Py.goes_first key reverse x y) eqn:E; simpl; [reflexivity|].
  rewrite IHs. simpl.
  destruct (key x =? k) eqn:Ex, (key y =? k) eqn:Ey; try reflexivity.
  apply String.eqb_eq in Ex, Ey.
  rewrite goes_first_same_key in E by congruence. discriminate.
Qed.

End Stability.

(** ** Slices *)

Section Slices.
Context {A : Type}.

Lemma slice_to_prefix (n : Z) (l : list A) :
  exists rest, l = Py.slice_to n l ++ rest.
Proof.
  unfold Py.slice_to.
  destruct (0 <=? n)%Z; eexists; symmetry; apply firstn_skipn.
Qed.

Lemma slice_to_In (n : Z) (l : list A) (x : A) :
  In x (Py.slice_to n l) -> In x l.
Proof.
  destruct (slice_to_prefix n l) as [rest E]. intros H.
  rewrite E. apply in_or_app. now left.
Qed.

Lemma slice_to_length (n : Z) (l : list A) :
  (0 <= n)%Z ->
  length (Py.slice_to n l) = Nat.min (Z.to_nat n) (length l).
Proof.
  intros Hn. unfold Py.slice_to.
  destruct (0 <=? n)%Z eqn:E; [apply length_firstn|].
  apply Z.leb_gt in E. lia.
Qed.

Lemma slice_to_length_le (n : Z) (l : list A) :
  (length (Py.slice_to n l) <= length l)%nat.
Proof.
  destruct (slice_to_prefix n l) as [rest E].
  rewrite E at 2. rewrite length_app. lia.
Qed.

Lemma slice_to_all (n : Z) (l : list A) :
  (Z.of_nat (length l) <= n)%Z -> Py.slice_to n l = l.
Proof.
  intros H. unfold Py.slice_to.
  destruct (0 <=? n)%Z eqn:E; [|apply Z.leb_gt in E; lia].
  apply firstn_all2. lia.
Qed.

Lemma slice_to_sorted (R : A -> A -> Prop) (n : Z) (l : list A) :
  StronglySorted R l -> StronglySorted R (Py.slice_to n l).
Proof.
  destruct (slice_to_prefix n l) as [rest E]. intros H.
  rewrite E in H. clear E.
  induction (Py.slice_to n l) as [|a p IH]; [constructor|].
  simpl in H. apply StronglySorted_inv in H as [Hs Ha].
  constructor; [now apply IH|].
  apply Forall_app in Ha. tauto.
Qed.

Lemma slice_to_map {B : Type} (f : A -> B) (n : Z) (l : list A) :
  map f (Py.slice_to n l) = Py.slice_to n (map f l).
Proof.
  unfold Py.slice_to. rewrite length_map.
  destruct (0 <=? n)%Z; symmetry; apply firstn_map.
Qed.

Lemma slice_to_NoDup (n : Z) (l : list A) :
  NoDup l -> NoDup (Py.slice_to n l).
Proof.
  destruct (slice_to_prefix n l) as [rest E]. intros H.
  rewrite E in H. now apply NoDup_app_remove_r in H.
Qed.

End Slices.

(** ** One item per id *)

Section Dedup.

Lemma seen_spec (k : string) (seen : list string) :
  existsb (String.eqb k) seen = true <-> In k seen.
Proof.
  rewrite existsb_exists. split.
  - intros [y [Hy E]]. apply String.eqb_eq in E. now subst.
  - intros H. exists k. split; [exact H|apply String.eqb_refl].
Qed.

Lemma seen_ext (k : string) (seen seen' : list string) :
  (forall i, In i seen <-> In i seen') ->
  existsb (String.eqb k) seen = existsb (String.eqb k) seen'.
Proof.
  intros H. apply eq_true_iff_eq. rewrite !seen_spec. apply H.
Qed.

Lemma first_per_id_ext (l : list item) :
  forall seen seen', (forall i, In i seen <-> In i seen') ->
  first_per_id seen l = first_per_id seen' l.
Proof.
  induction l as [|x l IH]; intros seen seen' H; simpl; [reflexivity|].
  rewrite (seen_ext _ _ _ H).
  destruct (existsb _ seen'); [now apply IH|].
  f_equal. apply IH. intros i. simpl. now rewrite H.
Qed.

Lemma first_per_id_In (l : list item) :
  forall seen x, In x (first_per_id seen l) -> In x l /\ ~ In (id x) seen.
Proof.
  induction l as [|a l IH]; intros seen x; simpl; [tauto|].
  destruct (existsb _ seen) eqn:E.
  - intros H. apply IH in H. tauto.
  - intros [<- | H].
    + split; [now left|]. rewrite <- seen_spec. congruence.
    + apply IH in H. simpl in H. tauto.
Qed.

Lemma first_per_id_NoDup (l : list item) :
  forall seen, NoDup (map id (first_per_id seen l)).
Proof.
  induction l as [|a l IH]; intros seen; simpl; [constructor|].
  destruct (existsb _ seen); [apply IH|].
  simpl. constructor; [|apply IH].
  rewrite in_map_iff. intros [y [Ey Hy]].
  apply first_per_id_In in Hy as [_ Hy]. apply Hy. rewrite Ey. now left.
Qed.

Lemma first_per_id_length (l : list item) :
  forall seen, (length (first_per_id seen l) <= length l)%nat.
Proof.
  induction l as [|a l IH]; intros seen; simpl; [lia|].
  destruct (existsb _ seen); simpl.
  - specialize (IH seen). lia.
  - specialize (IH (id a :: seen)). lia.
Qed.

Lemma first_per_id_sorted (R : item -> item -> Prop) (l : list item) :
  StronglySorted R l -> forall seen, StronglySorted R (first_per_id seen l).
Proof.
  induction 1 as [|a l Hs IH Ha]; intros seen; simpl; [constructor|].
  destruct (existsb _ seen); [apply IH|].
  constructor; [apply IH|].
  rewrite Forall_forall in *. intros y Hy.
  apply first_per_id_In in Hy. now apply Ha.
Qed.

(** Every id that is not in [seen] keeps an item. *)
Lemma first_per_id_complete (l : list item) :
  forall seen x, In x l -> ~ In (id x) seen ->
  exists y, In y (first_per_id seen l) /\ id y = id x.
Proof.
  induction l as [|a l IH]; intros seen x; simpl; [tauto|].
  intros Hx Hseen. destruct (existsb _ seen) eqn:E.
  - destruct Hx as [-> | Hx]; [apply seen_spec in E; tauto|]. now apply IH.
  - destruct (String.eqb_spec (id a) (id x)) as [Eid | Nid].
    + exists a. split; [now left|exact Eid].
    + destruct Hx as [-> | Hx]; [congruence|].
      destruct (IH (id a :: seen) x Hx) as [y [Hy Ey]].
      * simpl. intros [H | H]; congruence.
      * exists y. split; [now right|exact Ey].
Qed.

(** The item an id keeps stands, in a sorted list, before every item of
    that id. *)
Lemma first_per_id_first (R : item -> item -> Prop) (l : list item) :
  (forall x, R x x) -> StronglySorted R l ->
  forall seen y x, In y (first_per_id seen l) -> In x l -> id x = id y ->
  R y x.
Proof.
  intros Hrefl. induction 1 as [|a l Hs IH Ha]; intros seen y x; simpl;
    [tauto|].
  rewrite Forall_forall in Ha.
  destruct (existsb _ seen) eqn:E; intros Hy Hx Eid.
  - destruct Hx as [-> | Hx]; [|now apply (IH seen)].
    apply first_per_id_In in Hy as [_ Hy].
    apply seen_spec in E. congruence.
  - destruct Hy as [<- | Hy].
    + destruct Hx as [-> | Hx]; [apply Hrefl|now apply Ha].
    + destruct Hx as [-> | Hx]; [|now apply (IH (id a :: seen))].
      apply first_per_id_In in Hy as [_ Hy]. simpl in Hy.
      exfalso. apply Hy. left. exact Eid.
Qed.

Lemma first_per_id_id (l : list item) :
  forall seen, NoDup (map id l) -> (forall x, In x l -> ~ In (id x) seen) ->
  first_per_id seen l = l.
Proof.
  induction l as [|a l IH]; intros seen Hnd Hseen; simpl; [reflexivity|].
  inversion Hnd as [|? ? Ha Hnd']; subst.
  destruct (existsb _ seen) eqn:E.
  - apply seen_spec in E. exfalso. apply (Hseen a); [now left|exact E].
  - f_equal. apply IH; [exact Hnd'|].
    intros x Hx [H | H].
    + apply Ha. rewrite H. now apply in_map.
    + apply (Hseen x); [now right|exact H].
Qed.

Lemma drop_duplicates_first_per_id (rows : list item) :
  forall seen, drop_duplicates seen rows = first_per_id seen rows.
Proof.
  induction rows as [|r rows IH]; intros seen; simpl; [reflexivity|].
  now rewrite !IH.
Qed.

Lemma setdefault_spec (k : string) (it : item) (uniq : list (string * item)) :
  setdefault k it uniq
  = if existsb (String.eqb k) (map fst uniq) then uniq else uniq ++ [(k, it)].
Proof.
  induction uniq as [|[k' it'] uniq IH]; simpl; [reflexivity|].
  rewrite (String.eqb_sym k k').
  destruct (k' =? k); simpl; [reflexivity|].
  rewrite IH. now destruct (existsb _ (map fst uniq)).
Qed.

(** The dict built with [setdefault] holds, in insertion order, the first
    item of every id. *)
Lemma uniq_values (l : list item) :
  forall uniq,
  map snd (fold_left (fun uniq it => setdefault (id it) it uniq) l uniq)
  = map snd uniq ++ first_per_id (map fst uniq) l.
Proof.
  induction l as [|x l IH]; intros uniq; simpl; [now rewrite app_nil_r|].
  rewrite IH, setdefault_spec.
  destruct (existsb _ (map fst uniq)); [reflexivity|].
  rewrite !map_app, <- app_assoc. simpl. do 2 f_equal.
  apply first_per_id_ext. intros i. rewrite in_app_iff. simpl. tauto.
Qed.

Lemma merge_spec (total_limit : Z) (all_items : list item) :
  merge total_limit all_items
  = Py.slice_to total_limit
      (first_per_id [] (Py.sorted by_published_at true all_items)).
Proof. unfold merge. now rewrite uniq_values. Qed.

End Dedup.

(** ** The run, source by source *)

Section Run.
Variable w : world.

Lemma collect_spec (per_source_limit : Z) (sources : list source) :
  forall all_items err n,
  fst (collect w per_source_limit sources all_items err n)
  = (all_items ++ kept_all per_source_limit (fetch_all w sources n),
     err ++ warnings w (fetch_all w sources n)).
Proof.
  unfold kept_all.
  induction sources as [|src sources IH]; intros all_items err n; simpl.
  - now rewrite !app_nil_r.
  - destruct (fetch_rss w src n) as [[items | e] n']; simpl; rewrite IH.
    + now rewrite <- app_assoc.
    + unfold warning. now rewrite <- app_assoc.
Qed.

Lemma enrich_from_map {B : Type} (f : item -> B) (enable : bool) (limit : Z) :
  (forall it body, f (set_content it body) = f it) ->
  forall items i, map f (enrich_from w enable limit i items) = map f items.
Proof.
  intros Hf. induction items as [|it rest IH]; intros i; simpl;
    [reflexivity|].
  destruct (limit <=? Z.of_nat i)%Z; [reflexivity|].
  simpl. rewrite IH. f_equal.
  destruct (negb (item_url it =? "")); [|reflexivity].
  destruct (fetch_fulltext w enable i (item_url it)); [apply Hf|reflexivity].
Qed.

Lemma enrich_fulltext_id (enable : bool) (limit : Z) (items : list item) :
  map id (enrich_fulltext w enable limit items) = map id items.
Proof. now apply enrich_from_map. Qed.

Lemma enrich_fulltext_published_at (enable : bool) (limit : Z)
    (items : list item) :
  map published_at (enrich_fulltext w enable limit items)
  = map published_at items.
Proof. now apply enrich_from_map. Qed.

Lemma enrich_fulltext_length (enable : bool) (limit : Z) (items : list item) :
  length (enrich_fulltext w enable limit items) = length items.
Proof.
  rewrite <- (length_map id), enrich_fulltext_id. apply length_map.
Qed.

Lemma enriched_id (cfg : config) (items : list item) :
  map id (enriched w cfg items) = map id items.
Proof.
  unfold enriched. destruct (FETCH_FULLTEXT cfg);
    [apply enrich_fulltext_id|reflexivity].
Qed.

Lemma enriched_published_at (cfg : config) (items : list item) :
  map published_at (enriched w cfg items) = map published_at items.
Proof.
  unfold enriched. destruct (FETCH_FULLTEXT cfg);
    [apply enrich_fulltext_published_at|reflexivity].
Qed.

(** A run with sources ends with the rows saved, whatever the sources did. *)
Lemma main_with_sources (cfg : config) (file : option Py.value) (n : nat)
    (sources : list source) :
  load_sources file = Py.Ok sources -> sources <> [] ->
  main w cfg file n =
  {| stderr := warnings w (fetch_all w sources n);
     outcome :=
       Saved (to_frame (enriched w cfg
         (merge (TOTAL_LIMIT cfg)
            (kept_all (PER_SOURCE_LIMIT cfg) (fetch_all w sources n))))) |}.
Proof.
  intros Hload Hne. unfold main. rewrite Hload.
  destruct sources as [|src sources]; [congruence|].
  pose proof (collect_spec (PER_SOURCE_LIMIT cfg) (src :: sources) [] [] n)
    as H.
  destruct (collect w (PER_SOURCE_LIMIT cfg) (src :: sources) [] [] n)
    as [[all_items err] n'].
  simpl in H. injection H as -> ->. reflexivity.
Qed.

Lemma merge_NoDup (total_limit : Z) (all_items : list item) :
  NoDup (map id (merge total_limit all_items)).
Proof.
  rewrite merge_spec, slice_to_map.
  apply slice_to_NoDup, first_per_id_NoDup.
Qed.

Lemma merge_newest_first (total_limit : Z) (all_items : list item) :
  newest_first (merge total_limit all_items).
Proof.
  rewrite merge_spec. apply slice_to_sorted, first_per_id_sorted.
  apply sorted_sorted.
Qed.

Lemma to_frame_NoDup (items : list item) :
  NoDup (map id items) -> to_frame items = items.
Proof.
  intros H. unfold to_frame. rewrite drop_duplicates_first_per_id.
  apply first_per_id_id; [exact H|]. intros x _ [].
Qed.

Lemma newest_first_map (l l' : list item) :
  map published_at l = map published_at l' ->
  newest_first l -> newest_first l'.
Proof.
  unfold newest_first. intros E H. revert l' E.
  induction H as [|a l Hs IH Ha]; intros [|a' l'] E; try discriminate;
    [constructor|].
  simpl in E. injection E as Ea El.
  constructor; [now apply IH|].
  rewrite Forall_forall in *. intros y' Hy'.
  assert (In (published_at y') (map published_at l)) as Hy.
  { rewrite El. now apply in_map. }
  apply in_map_iff in Hy as [y [Ey Hy]].
  specialize (Ha y Hy). unfold Py.in_order, by_published_at in *.
  now rewrite <- Ea, <- Ey.
Qed.

(** The rows saved are the merged items, enriched or not. *)
Lemma saved_rows (cfg : config) (all_items : list item) :
  to_frame (enriched w cfg (merge (TOTAL_LIMIT cfg) all_items))
  = enriched w cfg (merge (TOTAL_LIMIT cfg) all_items).
Proof.
  apply to_frame_NoDup. rewrite enriched_id. apply merge_NoDup.
Qed.

End Run.

(** ** Counting *)

Section Counting.

Lemma count_id_map (i : string) (l l' : list item) :
  map id l = map id l' -> count_id i l = count_id i l'.
Proof.
  unfold count_id. revert l'.
  induction l as [|x l IH]; intros [|x' l'] E; try discriminate;
    [reflexivity|].
  simpl in E. injection E as Ex El. simpl. rewrite Ex.
  destruct (id x' =? i); simpl; erewrite IH; eauto.
Qed.

Lemma count_id_absent (i : string) (l : list item) :
  ~ In i (map id l) -> count_id i l = 0%nat.
Proof.
  unfold count_id. induction l as [|x l IH]; simpl; [reflexivity|].
  intros H. destruct (String.eqb_spec (id x) i) as [E | _]; [tauto|].
  apply IH. tauto.
Qed.

Lemma count_id_NoDup (i : string) (l : list item) :
  NoDup (map id l) -> (count_id i l <= 1)%nat.
Proof.
  induction l as [|x l IH]; simpl; intros H; [unfold count_id; simpl; lia|].
  inversion H as [|? ? Hx Hl]; subst. unfold count_id in *. simpl.
  destruct (String.eqb_spec (id x) i) as [E | _]; [|now apply IH].
  simpl. subst i. fold (count_id (id x) l).
  rewrite count_id_absent by exact Hx. lia.
Qed.

Lemma kept_length (per_source_limit : Z) (r : Py.res (list item)) :
  (0 <= per_source_limit)%Z ->
  Z.of_nat (length (kept per_source_limit r))
  = Z.min per_source_limit (Z.of_nat (length (fetched r))).
Proof.
  intros H. destruct r as [items | e]; simpl; [|lia].
  rewrite slice_to_length by exact H. rewrite sorted_length. lia.
Qed.

Lemma kept_all_length (per_source_limit : Z)
    (trace : list (source * Py.res (list item))) :
  (0 <= per_source_limit)%Z ->
  Z.of_nat (length (kept_all per_source_limit trace))
  = fold_right Z.add 0%Z
      (map (fun sr => Z.min per_source_limit
                            (Z.of_nat (length (fetched (snd sr)))))
           trace).
Proof.
  intros H. unfold kept_all.
  induction trace as [|[src r] trace IH]; simpl; [reflexivity|].
  rewrite length_app, Nat2Z.inj_add, IH, kept_length by exact H.
  reflexivity.
Qed.

Lemma merge_length (total_limit : Z) (all_items : list item) :
  (0 <= total_limit)%Z ->
  (Z.of_nat (length (merge total_limit all_items))
   <= Z.min total_limit (Z.of_nat (length all_items)))%Z.
Proof.
  intros H. rewrite merge_spec, slice_to_length by exact H.
  pose proof (first_per_id_length
                (Py.sorted by_published_at true all_items) []) as L.
  rewrite sorted_length in L. lia.
Qed.

Lemma kept_all_succeeded (per_source_limit : Z)
    (trace : list (source * Py.res (list item))) :
  kept_all per_source_limit (succeeded trace)
  = kept_all per_source_limit trace.
Proof.
  unfold kept_all, succeeded.
  induction trace as [|[src [items | e]] trace IH]; simpl;
    [reflexivity| |exact IH].
  now rewrite IH.
Qed.

Lemma warnings_In (w : world) (src : source) (e : Py.exn)
    (trace : list (source * Py.res (list item))) :
  In (src, Py.Raise e) trace -> In (warning w src e) (warnings w trace).
Proof.
  induction trace as [|[src' [items | e']] trace IH]; simpl; [tauto| |].
  - intros [H | H]; [discriminate|auto].
  - intros [H | H]; [injection H as -> ->; now left|right; auto].
Qed.


End Counting.

(** ** The primitives on some inputs *)

Example sha1_abc :
  Hashlib.sha1_hexdigest "abc" = "a9993e364706816aba3e25717850c26c9cd0d89d".
Proof. vm_compute. reflexivity. Qed.

Example sha1_empty :
  Hashlib.sha1_hexdigest "" = "da39a3ee5e6b4b0d3255bfef95601890afd80709".
Proof. vm_compute. reflexivity. Qed.

Example sha1_two_blocks :
  Hashlib.sha1_hexdigest
    "abcdbcdecdefdefgefghfghighijhijkijkljklmklmnlmnomnopnopq"
  = "84983e441c3bd26ebaae4aa1f95129e5e54670f1".
Proof. vm_compute. reflexivity. Qed.

Example sha1_utf8 :
  Py.str_slice_to 16 (sha1 ["코스피 상승 마감"; "http://news.example/2"])
  = "211993299179bf20".
Proof. vm_compute. reflexivity. Qed.

Example strip_unicode_space :
  Py.strip (Py.utf8 12288 ++ " 대통령, 국회 연설 " ++ Py.utf8 160)
  = "대통령, 국회 연설".
Proof. vm_compute. reflexivity. Qed.

Example clean_text_tags :
  clean_text (Py.VStr ("<p>Hello   <b>wor" ++ newline ++ "ld</b> a < b > c <open"
                         ++ newline ++ " x>  </p>"))
  = Py.Ok "Hello wor ld a c <open x>".
Proof. vm_compute. reflexivity. Qed.

Example clean_text_absent :
  clean_text Py.VNone = Py.Ok "" /\ clean_text (Py.VInt 3) = Py.Raise Py.TypeError.
Proof. split; reflexivity. Qed.

Example len_code_points :
  Py.len "대통령, 국회 연설" = 10%nat
  /\ String.length "대통령, 국회 연설" = 24%nat.
Proof. split; reflexivity. Qed.

Example sorted_reverse_is_stable :
  Py.sorted fst true [("b", 1); ("a", 2); ("b", 3); ("c", 4); ("a", 5)]%nat
  = [("c", 4); ("b", 1); ("b", 3); ("a", 2); ("a", 5)]%nat.
Proof. reflexivity. Qed.

Example slice_to_negative :
  Py.slice_to (-1) [1; 2; 3]%nat = [1; 2]%nat
  /\ Py.slice_to (-5) [1; 2; 3]%nat = []
  /\ Py.slice_to 2 [1; 2; 3]%nat = [1; 2]%nat
  /\ Py.slice_to 0 [1; 2; 3]%nat = [].
Proof. repeat split. Qed.

(* ================================================================== *)
(** * The aggregation pipeline *)
(* ================================================================== *)

Lemma newest_first_published_at (l : list item) :
  newest_first l ->
  StronglySorted
    (fun x y => String.leb (published_at y) (published_at x) = true) l.
Proof. intros H. exact H. Qed.

(** C2.  Whenever a run saves rows, every row has a [published_at] at
    least that of every row after it (the ISO texts compared as strings,
    as the sort does), and no two rows share an [id]. *)
Theorem output_newest_first_unique_ids
    (w : world) (cfg : config) (file : option Py.value) (n : nat)
    (rows : list item) :
  outcome (main w cfg file n) = Saved rows ->
  StronglySorted
    (fun x y => String.leb (published_at y) (published_at x) = true) rows
  /\ NoDup (map id rows).
Proof.
  intros H.
  destruct (load_sources file) as [sources | e] eqn:Hload;
    [|unfold main in H; rewrite Hload in H; discriminate].
  destruct sources as [|src sources];
    [unfold main in H; rewrite Hload in H; discriminate|].
  rewrite (main_with_sources w cfg file n (src :: sources)) in H
    by (exact Hload || discriminate).
  simpl in H. injection H as <-. rewrite saved_rows. split.
  - apply newest_first_published_at.
    eapply newest_first_map; [symmetry; apply enriched_published_at|].
    apply merge_newest_first.
  - rewrite enriched_id. apply merge_NoDup.
Qed.

Lemma output_newest_first_unique_ids_witness :
  let file := Sample.sources_yaml
                [("A", "http://a.example/rss"); ("B", "http://b.example/rss")] in
  let rows := rows_of (main Sample.w Sample.defaults file 0) in
  outcome (main Sample.w Sample.defaults file 0) = Saved rows /\
  (* fetched: A 05-01 and 05-02, B 05-03 with the id of A's second *)
  map published_at rows
  = ["2024-05-03T09:00:00+09:00"; "2024-05-01T09:00:00+09:00"] /\
  map source_name rows = [Py.VStr "B"; Py.VStr "A"] /\
  StronglySorted
    (fun x y => String.leb (published_at y) (published_at x) = true) rows /\
  NoDup (map id rows).
Proof.
  intros file rows.
  split; [vm_compute; reflexivity|].
  split; [vm_compute; reflexivity|].
  split; [vm_compute; reflexivity|].
  apply (output_newest_first_unique_ids Sample.w Sample.defaults file 0 rows).
  vm_compute. reflexivity.
Defined.

(** C3, as the code has it.  With limits that are not negative, the number
    of rows of a run is at most [min(total_limit, sum over the sources of
    min(per_source_limit, number of items fetched))], where a source whose
    fetch raised counts for no item. *)
Theorem output_count_bound
    (w : world) (cfg : config) (file : option Py.value) (n : nat)
    (sources : list source) :
  load_sources file = Py.Ok sources ->
  (0 <= PER_SOURCE_LIMIT cfg)%Z -> (0 <= TOTAL_LIMIT cfg)%Z ->
  (Z.of_nat (length (rows_of (main w cfg file n)))
   <= count_bound cfg (fetch_all w sources n))%Z.
Proof.
  intros Hload Hp Ht. unfold count_bound.
  destruct sources as [|src sources].
  - unfold main, rows_of. rewrite Hload. simpl. lia.
  - rewrite (main_with_sources w cfg file n (src :: sources))
      by (exact Hload || discriminate).
    unfold rows_of. cbn [outcome]. rewrite saved_rows.
    rewrite <- (length_map id), enriched_id, length_map.
    rewrite <- kept_all_length by exact Hp.
    now apply merge_length.
Qed.

Lemma output_count_bound_witness :
  let file := Sample.sources_yaml
                [("A", "http://a.example/rss"); ("B", "http://b.example/rss");
                 ("down", "http://down.example/rss")] in
  let cfg := Sample.with_limits 1 5 in
  let sources := [Sample.src "A" "http://a.example/rss";
                  Sample.src "B" "http://b.example/rss";
                  Sample.src "down" "http://down.example/rss"] in
  load_sources file = Py.Ok sources /\
  count_bound cfg (fetch_all Sample.w sources 0) = 2%Z /\
  (Z.of_nat (length (rows_of (main Sample.w cfg file 0)))
   <= count_bound cfg (fetch_all Sample.w sources 0))%Z.
Proof.
  intros file cfg sources.
  split; [vm_compute; reflexivity|].
  split; [vm_compute; reflexivity|].
  apply (output_count_bound Sample.w cfg file 0 sources).
  - vm_compute. reflexivity.
  - vm_compute. discriminate.
  - vm_compute. discriminate.
Defined.

(** C3, as stated, fails for a negative limit: with [TOTAL_LIMIT = -1] the
    slice [[:-1]] drops the last item only.  Two sources hand back two
    items and one item, of two ids between them; one row is left, more
    than [min(-1, 2 + 1) = -1]. *)
Lemma negative_total_limit_exceeds_bound :
  let file := Sample.sources_yaml
                [("A", "http://a.example/rss"); ("B", "http://b.example/rss")] in
  let cfg := Sample.with_limits 20 (-1) in
  let sources := [Sample.src "A" "http://a.example/rss";
                  Sample.src "B" "http://b.example/rss"] in
  load_sources file = Py.Ok sources /\
  map (fun sr => length (fetched (snd sr))) (fetch_all Sample.w sources 0)
  = [2%nat; 1%nat] /\
  length (rows_of (main Sample.w cfg file 0)) = 1%nat /\
  count_bound cfg (fetch_all Sample.w sources 0) = (-1)%Z /\
  ~ (Z.of_nat (length (rows_of (main Sample.w cfg file 0)))
     <= count_bound cfg (fetch_all Sample.w sources 0))%Z.
Proof.
  intros file cfg sources.
  assert (length (rows_of (main Sample.w cfg file 0)) = 1%nat) as L
    by (vm_compute; reflexivity).
  assert (count_bound cfg (fetch_all Sample.w sources 0) = (-1)%Z) as B
    by (vm_compute; reflexivity).
  repeat split; try (vm_compute; reflexivity).
  rewrite L, B. lia.
Qed.




(** C8.  When the fetch of a configured source raises, the run prints the
    warning [[WARN] <name> fetch failed: <error>] with the name of that
    source on stderr, nothing of that source enters [all_items] (the items
    collected are those of the sources that did not raise), and the run
    goes on to save the rows made of the other sources' items. *)
Theorem failing_source_is_skipped
    (w : world) (cfg : config) (file : option Py.value) (n : nat)
    (sources : list source) (src : source) (e : Py.exn) :
  load_sources file = Py.Ok sources ->
  In (src, Py.Raise e) (fetch_all w sources n) ->
  In ("[WARN] " ++ Py.str (repr w) (name src) ++ " fetch failed: "
        ++ exn_text w e)%string
     (stderr (main w cfg file n))
  /\ fst (fst (collect w (PER_SOURCE_LIMIT cfg) sources [] [] n))
     = kept_all (PER_SOURCE_LIMIT cfg) (succeeded (fetch_all w sources n))
  /\ outcome (main w cfg file n)
     = Saved (enriched w cfg
                (merge (TOTAL_LIMIT cfg)
                   (kept_all (PER_SOURCE_LIMIT cfg)
                      (succeeded (fetch_all w sources n))))).
Proof.
  intros Hload Hin.
  assert (sources <> []) as Hne by (intros ->; exact Hin).
  rewrite (main_with_sources w cfg file n sources Hload Hne).
  cbn [stderr outcome]. rewrite saved_rows, kept_all_succeeded.
  repeat split.
  - now apply warnings_In.
  - now rewrite collect_spec.
Qed.

Lemma failing_source_is_skipped_witness :
  let file := Sample.sources_yaml
                [("down", "http://down.example/rss");
                 ("odd", "http://odd.example/rss");
                 ("B", "http://b.example/rss")] in
  let sources := [Sample.src "down" "http://down.example/rss";
                  Sample.src "odd" "http://odd.example/rss";
                  Sample.src "B" "http://b.example/rss"] in
  let r := main Sample.w Sample.defaults file 0 in
  load_sources file = Py.Ok sources /\
  (* the second entry of the feed raises, the first one is lost with it *)
  fetch_rss_entry Sample.w (Sample.src "odd" "http://odd.example/rss")
    (Sample.entry_of "야구 개막" "http://news.example/3" ""
       "2024-05-04T09:00:00+09:00") 0
  <> (Py.Raise Py.AttributeError, 0%nat) /\
  In (Sample.src "odd" "http://odd.example/rss", Py.Raise Py.AttributeError)
     (fetch_all Sample.w sources 0) /\
  In "[WARN] odd fetch failed: error" (stderr r) /\
  stderr r = ["[WARN] down fetch failed: timed out";
              "[WARN] odd fetch failed: error"] /\
  map source_name (rows_of r) = [Py.VStr "B"].
Proof.
  intros file sources r.
  assert (load_sources file = Py.Ok sources) as Hl by (vm_compute; reflexivity).
  assert (In (Sample.src "odd" "http://odd.example/rss",
              Py.Raise Py.AttributeError)
             (fetch_all Sample.w sources 0)) as Hin
    by (vm_compute; tauto).
  destruct (failing_source_is_skipped Sample.w Sample.defaults file 0
              sources _ _ Hl Hin) as [Hwarn [_ Hout]].
  repeat split; try assumption; try (vm_compute; reflexivity).
  vm_compute. discriminate.
Defined.

(* ================================================================== *)
(** * Loading the sources *)
(* ================================================================== *)

(** C4, as the code has it.  When the document of the sources is empty
    (it parses to a false value, as an empty file does), the loader returns
    the empty list and the run prints [No sources in sources.yaml] on
    stderr and exits with status 1.  When the file is missing, the loader
    raises [FileNotFoundError] and returns no list; the run ends on that
    exception, with no line of its own on stderr and status 1. *)
Theorem empty_document_no_sources
    (w : world) (cfg : config) (doc : Py.value) (n : nat) :
  Py.truthy doc = false ->
  (load_sources (Some doc) = Py.Ok []
   /\ main w cfg (Some doc) n
      = {| stderr := ["No sources in sources.yaml"]; outcome := Exited 1 |}
   /\ exit_status (main w cfg (Some doc) n) = Some 1%Z)
  /\ (load_sources None = Py.Raise Py.FileNotFoundError
      /\ main w cfg None n
         = {| stderr := []; outcome := Uncaught Py.FileNotFoundError |}
      /\ exit_status (main w cfg None n) = Some 1%Z).
Proof.
  intros Hdoc.
  assert (load_sources (Some doc) = Py.Ok []) as Hload.
  { unfold load_sources, Py.or_else. rewrite Hdoc. reflexivity. }
  split; split; try reflexivity.
  - exact Hload.
  - unfold exit_status, main. rewrite Hload.
    split; reflexivity.
  - split; reflexivity.
Qed.

Lemma empty_document_no_sources_witness :
  Py.truthy Py.VNone = false /\
  load_sources (Some Py.VNone) = Py.Ok [] /\
  stderr (main Sample.w Sample.defaults (Some Py.VNone) 0)
  = ["No sources in sources.yaml"] /\
  exit_status (main Sample.w Sample.defaults (Some Py.VNone) 0) = Some 1%Z.
Proof.
  destruct (empty_document_no_sources Sample.w Sample.defaults Py.VNone 0
              eq_refl) as [[Hload [Hmain _]] _].
  split; [reflexivity|]. split; [exact Hload|].
  rewrite Hmain. split; reflexivity.
Defined.

(** C4, as stated, fails for a missing document: the loader does not
    return the empty list, it raises. *)
Lemma missing_document_raises :
  load_sources None = Py.Raise Py.FileNotFoundError /\
  load_sources None <> Py.Ok [] /\
  stderr (main Sample.w Sample.defaults None 0) = [].
Proof. repeat split. discriminate. Qed.

(** What else the loader makes of a document. *)
Lemma load_sources_without_key (d : list (string * Py.value)) :
  Py.lookup "sources" d = None -> load_sources (Some (Py.VDict d)) = Py.Ok [].
Proof.
  intros H. unfold load_sources, Py.or_else.
  destruct d as [|kv d]; [reflexivity|].
  cbn [Py.truthy Py.get Py.bind]. now rewrite H.
Qed.

Example load_sources_two :
  load_sources
    (Sample.sources_yaml [("A", "http://a.example/rss"); ("B", "http://b.example/rss")])
  = Py.Ok [Sample.src "A" "http://a.example/rss";
           Sample.src "B" "http://b.example/rss"].
Proof. reflexivity. Qed.

Example load_sources_null_list :
  load_sources (Some (Py.VDict [("sources", Py.VNone)])) = Py.Raise Py.TypeError.
Proof. reflexivity. Qed.

(* ================================================================== *)
(** * The time resolver *)
(* ================================================================== *)

Lemma parse_time_loop_first_success (w : world)
    (convert : Py.value -> Py.res (datetime w)) (e : entry)
    (keys : list string) :
  parse_time_loop w convert e keys
  = first_success (map (fun key => (Py.dict_get e key, convert)) keys).
Proof.
  induction keys as [|key keys IH]; simpl; [reflexivity|].
  destruct (Py.truthy (Py.dict_get e key)); [|exact IH].
  destruct (convert (Py.dict_get e key)); [reflexivity|exact IH].
Qed.

Lemma first_success_app {T : Type}
    (l1 l2 : list (Py.value * (Py.value -> Py.res T))) :
  first_success (l1 ++ l2)
  = match first_success l1 with
    | Some t => Some t
    | None => first_success l2
    end.
Proof.
  induction l1 as [|[val convert] l1 IH]; simpl; [reflexivity|].
  destruct (Py.truthy val); [|exact IH].
  destruct (convert val); [reflexivity|exact IH].
Qed.

Section Resolution.
Variable w : world.
Variable e : entry.

Lemma parse_time_loop_hit
    (convert : Py.value -> Py.res (datetime w)) (key : string)
    (keys : list string) (t : datetime w) :
  usable convert (Py.dict_get e key) t ->
  parse_time_loop w convert e (key :: keys) = Some t.
Proof. intros [Hv Hc]. cbn [parse_time_loop]. now rewrite Hv, Hc. Qed.

Lemma parse_time_loop_skip
    (convert : Py.value -> Py.res (datetime w)) (key : string)
    (keys : list string) :
  unusable convert (Py.dict_get e key) ->
  parse_time_loop w convert e (key :: keys) = parse_time_loop w convert e keys.
Proof.
  intros [Hv | [err Hc]]; cbn [parse_time_loop]; [now rewrite Hv|].
  rewrite Hc. now destruct (Py.truthy _).
Qed.

Lemma usable_or_not
    (convert : Py.value -> Py.res (datetime w)) (val : Py.value) :
  (exists t, usable convert val t) \/ unusable convert val.
Proof.
  unfold usable, unusable. destruct (Py.truthy val); [|now right; left].
  destruct (convert val) as [t | err]; [left | right; right]; eauto.
Qed.

Lemma lookup_bound (key : string) (v : Py.value) :
  In (key, v) e -> (forall v', In (key, v') e -> v' = v) ->
  Py.lookup key e = Some v.
Proof.
  induction e as [|[k' v'] d IH]; simpl; [tauto|].
  intros Hin Huniq. destruct (String.eqb_spec k' key) as [-> | Hk].
  - f_equal. apply Huniq. now left.
  - destruct Hin as [H | H]; [congruence|].
    apply IH; [exact H|]. intros v0 H0. apply Huniq. now right.
Qed.

Lemma lookup_absent (key : string) :
  (forall v, ~ In (key, v) e) -> Py.lookup key e = None.
Proof.
  induction e as [|[k' v'] d IH]; simpl; [reflexivity|].
  intros H. destruct (String.eqb_spec k' key) as [-> | Hk].
  - exfalso. apply (H v'). now left.
  - apply IH. intros v Hv. apply (H v). now right.
Qed.

End Resolution.

(** C5.  The time resolver reads the fields of the entry ([None] for a
    field that is absent) and tries, in this order, [published],
    [updated], [pubDate] with the string parser, then [published_parsed]
    and [updated_parsed] built with [tzinfo] UTC, every result brought to
    the zone of 9 hours east of UTC.  The first candidate whose value is
    true and whose conversion returns decides; a candidate that is false
    or whose conversion raises gives way to the next; when none is left
    the result is the clock read in that zone.  A timestamp is returned
    in every case, an exception in none; the clock is read only in the
    last case. *)
Theorem parse_time_resolution (w : world) (e : entry) (n : nat) :
  let from_string val := d <- dtparser_parse w val ;; astimezone w d KST in
  let from_tuple val :=
    d <- datetime_new w val timezone_utc ;; astimezone w d KST in
  let field key := Py.dict_get e key in
  (timezone_utc = 0%Z /\ KST = (9 * 60)%Z)
  /\ (forall key v, In (key, v) e -> (forall v', In (key, v') e -> v' = v) ->
        field key = v)
  /\ (forall key, (forall v, ~ In (key, v) e) -> field key = Py.VNone)
  /\ (forall t, usable from_string (field "published") t ->
        parse_time w e n = (Py.Ok t, n))
  /\ (forall t, unusable from_string (field "published") ->
        usable from_string (field "updated") t ->
        parse_time w e n = (Py.Ok t, n))
  /\ (forall t, unusable from_string (field "published") ->
        unusable from_string (field "updated") ->
        usable from_string (field "pubDate") t ->
        parse_time w e n = (Py.Ok t, n))
  /\ (forall t, unusable from_string (field "published") ->
        unusable from_string (field "updated") ->
        unusable from_string (field "pubDate") ->
        usable from_tuple (field "published_parsed") t ->
        parse_time w e n = (Py.Ok t, n))
  /\ (forall t, unusable from_string (field "published") ->
        unusable from_string (field "updated") ->
        unusable from_string (field "pubDate") ->
        unusable from_tuple (field "published_parsed") ->
        usable from_tuple (field "updated_parsed") t ->
        parse_time w e n = (Py.Ok t, n))
  /\ (unusable from_string (field "published") ->
      unusable from_string (field "updated") ->
      unusable from_string (field "pubDate") ->
      unusable from_tuple (field "published_parsed") ->
      unusable from_tuple (field "updated_parsed") ->
      parse_time w e n = (Py.Ok (now w KST n), S n))
  /\ (exists t n', parse_time w e n = (Py.Ok t, n')).
Proof.
  intros from_string from_tuple field. unfold parse_time.
  fold from_string. fold from_tuple.
  split; [split; reflexivity|].
  split; [intros key v H1 H2; unfold field, Py.dict_get;
          now rewrite (lookup_bound e key v H1 H2)|].
  split; [intros key H; unfold field, Py.dict_get;
          now rewrite (lookup_absent e key H)|].
  split.
  { intros t H1. now rewrite (parse_time_loop_hit w e _ _ _ _ H1). }
  split.
  { intros t H1 H2. rewrite (parse_time_loop_skip w e _ _ _ H1).
    now rewrite (parse_time_loop_hit w e _ _ _ _ H2). }
  split.
  { intros t H1 H2 H3. rewrite (parse_time_loop_skip w e _ _ _ H1).
    rewrite (parse_time_loop_skip w e _ _ _ H2).
    now rewrite (parse_time_loop_hit w e _ _ _ _ H3). }
  split.
  { intros t H1 H2 H3 H4. rewrite (parse_time_loop_skip w e _ _ _ H1).
    rewrite (parse_time_loop_skip w e _ _ _ H2).
    rewrite (parse_time_loop_skip w e _ _ _ H3).
    simpl (parse_time_loop w from_string e []). cbv beta iota.
    now rewrite (parse_time_loop_hit w e _ _ _ _ H4). }
  split.
  { intros t H1 H2 H3 H4 H5. rewrite (parse_time_loop_skip w e _ _ _ H1).
    rewrite (parse_time_loop_skip w e _ _ _ H2).
    rewrite (parse_time_loop_skip w e _ _ _ H3).
    simpl (parse_time_loop w from_string e []). cbv beta iota.
    rewrite (parse_time_loop_skip w e _ _ _ H4).
    now rewrite (parse_time_loop_hit w e _ _ _ _ H5). }
  split.
  { intros H1 H2 H3 H4 H5. rewrite (parse_time_loop_skip w e _ _ _ H1).
    rewrite (parse_time_loop_skip w e _ _ _ H2).
    rewrite (parse_time_loop_skip w e _ _ _ H3).
    simpl (parse_time_loop w from_string e []). cbv beta iota.
    rewrite (parse_time_loop_skip w e _ _ _ H4).
    rewrite (parse_time_loop_skip w e _ _ _ H5). reflexivity. }
  unfold Py.ret, now_kst.
  destruct (parse_time_loop w from_string e _) as [t|]; [eauto|].
  destruct (parse_time_loop w from_tuple e _) as [t|]; eauto.
Qed.

Lemma parse_time_resolution_witness :
  let stamp := "2024-05-01T09:00:00+09:00" in
  let struct_time :=
    Py.VList [Py.VInt 2024; Py.VInt 5; Py.VInt 1; Py.VInt 0; Py.VInt 30;
              Py.VInt 0; Py.VInt 2; Py.VInt 122; Py.VInt 0] in
  (* [published] is no date, [updated] is one: [updated] decides, the
     tuple is not looked at *)
  (let e := [("published", Py.VStr "soon"); ("updated", Py.VStr stamp);
             ("published_parsed", struct_time)] in
   exists t, parse_time Sample.w e 3 = (Py.Ok t, 3%nat)
             /\ isoformat Sample.w t = stamp)
  (* no string converts: the tuple is read as UTC and comes out nine
     hours later, in the zone *)
  /\ (let e := [("published", Py.VStr "soon"); ("updated", Py.VStr "");
                ("updated_parsed", struct_time)] in
      exists t, parse_time Sample.w e 3 = (Py.Ok t, 3%nat)
                /\ isoformat Sample.w t = "2024-05-01T09:30:00+09:00")
  (* nothing converts: the clock is read, in the zone *)
  /\ (let e := [("published", Py.VStr "soon");
                ("published_parsed", Py.VList [Py.VInt 2024])] in
      exists t, parse_time Sample.w e 3 = (Py.Ok t, 4%nat)
                /\ isoformat Sample.w t = "2024-06-01T00:00:00+09:00 #3").
Proof.
  intros stamp struct_time. split; [|split].
  - intros e.
    destruct (parse_time_resolution Sample.w e 3)
      as [_ [_ [_ [_ [H [_ _]]]]]].
    eexists. split.
    + apply H; [right; eexists; reflexivity|split; reflexivity].
    + reflexivity.
  - intros e.
    destruct (parse_time_resolution Sample.w e 3)
      as [_ [_ [_ [_ [_ [_ [_ [H _]]]]]]]].
    eexists. split.
    + apply H; [right; eexists; reflexivity|now left|now left|now left|].
      split; reflexivity.
    + reflexivity.
  - intros e.
    destruct (parse_time_resolution Sample.w e 3)
      as [_ [_ [_ [_ [_ [_ [_ [_ [H _]]]]]]]]].
    eexists. split.
    + apply H; [right; eexists; reflexivity|now left|now left| |now left].
      right. eexists. reflexivity.
    + reflexivity.
Defined.

(* ================================================================== *)
(** * Labelling *)
(* ================================================================== *)

Lemma first_group_split (pre post : list (list string * string))
    (g : list string * string) (text : string) :
  Py.any_in (fst g) text = true ->
  In (first_group (pre ++ g :: post) text) (map snd (pre ++ [g])).
Proof.
  intros Hg. induction pre as [|[words label] pre IH]; simpl.
  - destruct g as [words label]. simpl in Hg. rewrite Hg. now left.
  - destruct (Py.any_in words text); [now left|right; exact IH].
Qed.

Lemma first_group_none (groups : list (list string * string))
    (text : string) :
  (forall g, In g groups -> Py.any_in (fst g) text = false) ->
  first_group groups text = "general".
Proof.
  induction groups as [|[words label] groups IH]; simpl; [reflexivity|].
  intros Hnone. pose proof (Hnone (words, label) (or_introl eq_refl)) as H.
  simpl in H. rewrite H. apply IH. intros g Hg. apply Hnone. now right.
Qed.

Section Substrings.

Lemma prefix_occurs (text : string) :
  forall kw, String.prefix kw text = true <->
             exists post, text = (kw ++ post)%string.
Proof.
  induction text as [|c text IH]; intros [|k kw]; simpl.
  - split; [exists ""; reflexivity|reflexivity].
  - split; [discriminate|]. intros [post H]. discriminate.
  - split; [eexists; reflexivity|reflexivity].
  - destruct (ascii_dec k c) as [-> | Hkc].
    + rewrite IH. split; intros [post H]; exists post.
      * now rewrite H.
      * now injection H.
    + split; [discriminate|]. intros [post H]. injection H as H _.
      congruence.
Qed.

Lemma contains_occurs (kw text : string) :
  Py.contains kw text = true <-> occurs kw text.
Proof.
  unfold occurs. induction text as [|c text IH].
  - cbn [Py.contains]. rewrite orb_false_r, prefix_occurs. split.
    + intros [post H]. now exists "", post.
    + intros [[|x pre] [post H]]; [now exists post|discriminate].
  - cbn [Py.contains]. rewrite orb_true_iff, prefix_occurs, IH. split.
    + intros [[post H] | [pre [post H]]].
      * now exists "", post.
      * exists (String c pre), post. simpl. now rewrite H.
    + intros [[|x pre] [post H]].
      * left. now exists post.
      * right. exists pre, post. simpl in H. now injection H.
Qed.

Lemma any_in_occurs (words : list string) (text : string) :
  Py.any_in words text = true <->
  exists kw, In kw words /\ occurs kw text.
Proof.
  unfold Py.any_in. rewrite existsb_exists.
  split; intros [kw [H1 H2]]; exists kw; split; try exact H1;
    now apply contains_occurs.
Qed.

Lemma any_in_none (words : list string) (text : string) :
  Py.any_in words text = false <->
  forall kw, In kw words -> ~ occurs kw text.
Proof.
  split.
  - intros H kw Hin Hocc.
    assert (Py.any_in words text = true) as Ht
      by (apply any_in_occurs; eauto).
    congruence.
  - intros H. destruct (Py.any_in words text) eqn:E; [|reflexivity].
    apply any_in_occurs in E as [kw [H1 H2]]. now apply H in H2.
Qed.

End Substrings.

Lemma first_group_first (pre post : list (list string * string))
    (g : list string * string) (text : string) :
  Py.any_in (fst g) text = true ->
  (forall g', In g' pre -> Py.any_in (fst g') text = false) ->
  first_group (pre ++ g :: post) text = snd g.
Proof.
  intros Hg. induction pre as [|[words label] pre IH]; simpl; intros Hpre.
  - destruct g as [words label]. simpl in *. now rewrite Hg.
  - pose proof (Hpre (words, label) (or_introl eq_refl)) as H.
    simpl in H. rewrite H. apply IH. intros g' Hg'. apply Hpre. now right.
Qed.

Lemma guess_category_inferred (title summary : string)
    (src_category : Py.value) :
  Py.truthy src_category = false ->
  guess_category title summary src_category
  = Py.VStr (first_group GROUPS (title ++ " " ++ summary)).
Proof.
  intros Hc. unfold guess_category. rewrite Hc.
  cbn [first_group GROUPS].
  repeat match goal with
         | |- context [if ?c then _ else _] => destruct c
         end; reflexivity.
Qed.

(** C6, as the code has it.  An override that is a true value (a text
    that is not empty, for one) is returned as it is, whatever it is.
    Without one ([None], the empty text or another false value) the label
    is that of the first group, in the order politics, economy, society,
    culture, it_science, sports, one of whose keywords is a substring of
    [title + " " + summary], and [general] when no keyword of any group
    is one; so a text with keywords of two groups gets the label of the
    earlier group. *)
Theorem guess_category_rule
    (title summary : string) (src_category : Py.value) :
  let text := (title ++ " " ++ summary)%string in
  (Py.truthy src_category = true ->
   guess_category title summary src_category = src_category)
  /\ (forall s, src_category = Py.VStr s -> s <> "" ->
        guess_category title summary src_category = Py.VStr s)
  /\ (GROUPS
      = [(POLITICS_KW, "politics"); (ECONOMY_KW, "economy");
         (SOCIETY_KW, "society"); (CULTURE_KW, "culture");
         (ITSCI_KW, "it_science"); (SPORTS_KW, "sports")])
  /\ (Py.truthy src_category = false ->
      forall pre g post kw,
        GROUPS = pre ++ g :: post -> In kw (fst g) -> occurs kw text ->
        (forall g' kw', In g' pre -> In kw' (fst g') -> ~ occurs kw' text) ->
        guess_category title summary src_category = Py.VStr (snd g))
  /\ (Py.truthy src_category = false ->
      (forall g kw, In g GROUPS -> In kw (fst g) -> ~ occurs kw text) ->
      guess_category title summary src_category = Py.VStr "general")
  /\ (Py.truthy src_category = false ->
      forall pre g post kw,
        GROUPS = pre ++ g :: post -> In kw (fst g) -> occurs kw text ->
        exists label,
          guess_category title summary src_category = Py.VStr label
          /\ In label (map snd (pre ++ [g]))
          /\ ~ In label (map snd post)).
Proof.
  intros text.
  split; [intros Hc; unfold guess_category; now rewrite Hc|].
  split.
  { intros s -> Hs. unfold guess_category. cbn [Py.truthy].
    destruct (String.eqb_spec s "") as [E | _]; [contradiction|reflexivity]. }
  split; [reflexivity|].
  split.
  { intros Hc pre g post kw Hsplit Hkw Hocc Hpre.
    rewrite (guess_category_inferred _ _ _ Hc). fold text. rewrite Hsplit.
    f_equal. apply first_group_first.
    - apply any_in_occurs. eauto.
    - intros g' Hg'. apply any_in_none. intros kw'. now apply Hpre. }
  split.
  { intros Hc Hnone. rewrite (guess_category_inferred _ _ _ Hc). fold text.
    f_equal. apply first_group_none. intros g Hg.
    apply any_in_none. intros kw. now apply Hnone. }
  intros Hc pre g post kw Hsplit Hkw Hocc.
  rewrite (guess_category_inferred _ _ _ Hc). fold text.
  exists (first_group GROUPS text). split; [reflexivity|].
  assert (Py.any_in (fst g) text = true) as Hany
    by (apply any_in_occurs; eauto).
  assert (In (first_group GROUPS text) (map snd (pre ++ [g]))) as Hin.
  { rewrite Hsplit. now apply first_group_split. }
  split; [exact Hin|]. intros Hpost.
  assert (NoDup (map snd GROUPS)) as Hnd.
  { cbn. repeat constructor; cbn; intuition discriminate. }
  rewrite Hsplit in Hnd.
  replace (pre ++ g :: post) with ((pre ++ [g]) ++ post) in Hnd
    by (rewrite <- app_assoc; reflexivity).
  rewrite map_app in Hnd.
  revert Hin Hpost Hnd.
  generalize (first_group GROUPS text).
  generalize (map snd (pre ++ [g])), (map snd post).
  intros l1 l2 x H1 H2 Hnd.
  induction l1 as [|y l1 IH]; simpl in *; [tauto|].
  inversion Hnd as [|? ? Hy Hnd']; subst.
  destruct H1 as [-> | H1]; [|now apply IH].
  apply Hy. apply in_or_app. now right.
Qed.

Lemma guess_category_rule_witness :
  (* an override that is a text *)
  guess_category "KBO 개막전" "야구 시즌이 시작됐다" (Py.VStr "world")
  = Py.VStr "world"
  (* keywords of sports only: 야구 is in the text *)
  /\ guess_category "KBO 개막전" "야구 시즌이 시작됐다" Py.VNone
     = Py.VStr "sports"
  (* keywords of politics (국회) and of sports (축구): the earlier group *)
  /\ guess_category "대표팀 감독, 국회 출석" "축구 대표팀 감독이 국회에 나왔다"
       Py.VNone
     = Py.VStr "politics"
  (* no keyword at all *)
  /\ guess_category "오늘의 날씨" "맑음" Py.VNone = Py.VStr "general".
Proof.
  split; [|split; [|split]].
  - destruct (guess_category_rule "KBO 개막전" "야구 시즌이 시작됐다"
                (Py.VStr "world")) as [_ [H _]].
    apply H; [reflexivity|discriminate].
  - destruct (guess_category_rule "KBO 개막전" "야구 시즌이 시작됐다" Py.VNone)
      as [_ [_ [_ [H _]]]].
    apply (H eq_refl
             [(POLITICS_KW, "politics"); (ECONOMY_KW, "economy");
              (SOCIETY_KW, "society"); (CULTURE_KW, "culture");
              (ITSCI_KW, "it_science")]
             (SPORTS_KW, "sports") [] "야구"); [reflexivity| | |].
    + cbn. tauto.
    + exists "KBO 개막전 ", " 시즌이 시작됐다". reflexivity.
    + intros g' kw' Hg'. revert kw'. apply any_in_none.
      repeat (destruct Hg' as [<- | Hg']; [vm_compute; reflexivity|]).
      destruct Hg'.
  - destruct (guess_category_rule "대표팀 감독, 국회 출석"
                "축구 대표팀 감독이 국회에 나왔다" Py.VNone)
      as [_ [_ [_ [H _]]]].
    apply (H eq_refl [] (POLITICS_KW, "politics") (tl GROUPS) "국회");
      [reflexivity| | |].
    + cbn. tauto.
    + exists "대표팀 감독, ", " 출석 축구 대표팀 감독이 국회에 나왔다". reflexivity.
    + intros g' kw' [].
  - destruct (guess_category_rule "오늘의 날씨" "맑음" Py.VNone)
      as [_ [_ [_ [_ [H _]]]]].
    apply (H eq_refl). intros g kw Hg. revert kw. apply any_in_none.
    unfold GROUPS in Hg.
    repeat (destruct Hg as [<- | Hg]; [vm_compute; reflexivity|]).
    destruct Hg.
Defined.

(** C6, as stated, fails for an override that is present but false: the
    source says [category: ""] and the empty text is not returned, the
    label is inferred. *)
Lemma empty_override_is_not_returned :
  guess_category "KBO 개막전" "야구 시즌이 시작됐다" (Py.VStr "")
  = Py.VStr "sports"
  /\ guess_category "KBO 개막전" "야구 시즌이 시작됐다" (Py.VStr "")
     <> Py.VStr "".
Proof. split; [vm_compute; reflexivity|vm_compute; discriminate]. Qed.

Example guess_category_general :
  guess_category "오늘의 날씨" "맑음" Py.VNone = Py.VStr "general".
Proof. vm_compute. reflexivity. Qed.

Lemma strictly_ascending_NoDup (l : list string) :
  strictly_ascending l -> NoDup l.
Proof.
  induction 1 as [|a l Hs IH Ha]; constructor; [|exact IH].
  intros Hin. rewrite Forall_forall in Ha.
  apply (str_lt_irrefl a). now apply Ha.
Qed.

(** C7.  The tags of every title and summary come out in ascending
    lexicographic order with no tag twice, and [short_title] is among them
    exactly when the title has at most 25 characters. *)
Theorem make_tags_sorted_unique (title summary : string) :
  strictly_ascending (make_tags title summary)
  /\ NoDup (make_tags title summary)
  /\ (In "short_title" (make_tags title summary) <-> (Py.len title <= 25)%nat)
  /\ (Py.len title = 25%nat -> In "short_title" (make_tags title summary))
  /\ (Py.len title = 26%nat -> ~ In "short_title" (make_tags title summary)).
Proof.
  assert (strictly_ascending (make_tags title summary)) as Hasc.
  { unfold make_tags, strictly_ascending.
    destruct (Py.any_in _ _), (Py.any_in _ _), (Py.any_in _ _),
      (Py.len title <=? 25)%nat; cbn; repeat constructor. }
  assert (In "short_title" (make_tags title summary)
          <-> (Py.len title <= 25)%nat) as Hshort.
  { rewrite <- Nat.leb_le. unfold make_tags.
    destruct (Py.any_in _ _), (Py.any_in _ _), (Py.any_in _ _),
      (Py.len title <=? 25)%nat; cbn;
      (split; [intros H; first [reflexivity | not_in_tags H]
              |intros H; first [discriminate H | in_tags]]). }
  split; [exact Hasc|]. split; [now apply strictly_ascending_NoDup|].
  split; [exact Hshort|]. split.
  - intros H. apply Hshort. lia.
  - intros H. rewrite Hshort. lia.
Qed.

Lemma make_tags_sorted_unique_witness :
  let t25 := "국회, 내년도 예산안 본회의 통과…여야 합의안" in
  let t26 := "국회, 내년도 예산안 본회의 통과…여야 합의안!" in
  Py.len t25 = 25%nat /\ String.length t25 = 63%nat /\
  Py.len t26 = 26%nat /\
  make_tags t25 "단독 심층 분석 칼럼"
  = ["analysis"; "breaking"; "opinion"; "short_title"] /\
  make_tags t26 "단독 심층 분석 칼럼" = ["analysis"; "breaking"; "opinion"] /\
  In "short_title" (make_tags t25 "") /\
  ~ In "short_title" (make_tags t26 "").
Proof.
  intros t25 t26.
  destruct (make_tags_sorted_unique t25 "") as [_ [_ [_ [H25 _]]]].
  destruct (make_tags_sorted_unique t26 "") as [_ [_ [_ [_ H26]]]].
  split; [vm_compute; reflexivity|]. split; [vm_compute; reflexivity|].
  split; [vm_compute; reflexivity|]. split; [vm_compute; reflexivity|].
  split; [vm_compute; reflexivity|]. split.
  - apply H25. vm_compute. reflexivity.
  - apply H26. vm_compute. reflexivity.
Defined.

(* ================================================================== *)
(** * The id of an item *)
(* ================================================================== *)

Section Fingerprint.

Lemma hex_length (n : nat) (x : Z) : String.length (Hashlib.hex n x) = n.
Proof. induction n as [|n IH]; simpl; [reflexivity|now rewrite IH]. Qed.

Lemma hexdigit_is_hex (v : Z) :
  (0 <= v < 16)%Z -> Hashlib.is_hex (Hashlib.hexdigit v) = true.
Proof.
  intros H.
  assert (v = 0 \/ v = 1 \/ v = 2 \/ v = 3 \/ v = 4 \/ v = 5 \/ v = 6 \/
          v = 7 \/ v = 8 \/ v = 9 \/ v = 10 \/ v = 11 \/ v = 12 \/
          v = 13 \/ v = 14 \/ v = 15)%Z as Hv by lia.
  repeat (destruct Hv as [-> | Hv]; [reflexivity|]). now subst.
Qed.

Lemma hex_all_hex (n : nat) (x : Z) : all_hex (Hashlib.hex n x).
Proof.
  unfold all_hex. induction n as [|n IH]; simpl; constructor; [|exact IH].
  apply hexdigit_is_hex. apply Z.mod_pos_bound. lia.
Qed.

Lemma length_append (a b : string) :
  String.length (a ++ b) = (String.length a + String.length b)%nat.
Proof. induction a as [|c a IH]; simpl; [reflexivity|now rewrite IH]. Qed.

Lemma all_hex_append (a b : string) :
  all_hex a -> all_hex b -> all_hex (a ++ b).
Proof.
  unfold all_hex. induction a as [|c a IH]; simpl; [auto|].
  intros Ha Hb. inversion Ha; subst. constructor; auto.
Qed.

Lemma sha1_hexdigest_length (data : string) :
  String.length (Hashlib.sha1_hexdigest data) = 40%nat.
Proof.
  unfold Hashlib.sha1_hexdigest.
  destruct (Hashlib.blocks _ _ _) as [[[[h0 h1] h2] h3] h4].
  now rewrite !length_append, !hex_length.
Qed.

Lemma sha1_hexdigest_all_hex (data : string) :
  all_hex (Hashlib.sha1_hexdigest data).
Proof.
  unfold Hashlib.sha1_hexdigest.
  destruct (Hashlib.blocks _ _ _) as [[[[h0 h1] h2] h3] h4].
  repeat apply all_hex_append; apply hex_all_hex.
Qed.

Lemma str_slice_to_length (n : nat) (s : string) :
  String.length (Py.str_slice_to n s) = Nat.min n (String.length s).
Proof.
  revert s. induction n as [|n IH]; intros [|c s]; simpl; auto.
Qed.

Lemma str_slice_to_all_hex (n : nat) (s : string) :
  all_hex s -> all_hex (Py.str_slice_to n s).
Proof.
  unfold all_hex. revert s.
  induction n as [|n IH]; intros [|c s]; simpl; try constructor;
    inversion H; subst; auto.
Qed.

(** The id of an item that [fetch_rss] built is the first 16 characters
    of the SHA-1 of its title, ["|"] and its url; the title and the url of
    the item are those of the entry, trimmed. *)
Lemma fetch_rss_entry_id (w : world) (src : source) (e : entry)
    (n n' : nat) (it : item) :
  fetch_rss_entry w src e n = (Py.Ok it, n') ->
  id it = Py.str_slice_to 16 (sha1 [title it; item_url it])
  /\ or_empty_strip (Py.dict_get e "title") = Py.Ok (title it)
  /\ or_empty_strip (Py.dict_get e "link") = Py.Ok (item_url it).
Proof.
  unfold fetch_rss_entry, Py.io_bind, Py.lift, Py.ret, now_kst.
  destruct (or_empty_strip (Py.dict_get e "title")) as [t|]; [|discriminate].
  destruct (or_empty_strip (Py.dict_get e "link")) as [l|]; [|discriminate].
  destruct (clean_text _) as [s|]; [|discriminate].
  destruct (parse_time w e n) as [[p|] m]; [|discriminate].
  intros H. injection H as <- _. simpl. auto.
Qed.

End Fingerprint.

(** C9.  The id of an item is a function of its trimmed title and url
    alone: two items built from any entries, of any sources, at any time,
    in any world, have one id as soon as their titles and their urls are
    the same; the id has 16 characters, all hexadecimal digits. *)
Theorem id_determined_by_title_and_url
    (w1 w2 : world) (src1 src2 : source) (e1 e2 : entry)
    (n1 n2 m1 m2 : nat) (it1 it2 : item) :
  fetch_rss_entry w1 src1 e1 n1 = (Py.Ok it1, m1) ->
  fetch_rss_entry w2 src2 e2 n2 = (Py.Ok it2, m2) ->
  title it1 = title it2 -> item_url it1 = item_url it2 ->
  id it1 = id it2
  /\ String.length (id it1) = 16%nat
  /\ all_hex (id it1).
Proof.
  intros F1 F2 Et Eu.
  apply fetch_rss_entry_id in F1 as [I1 _].
  apply fetch_rss_entry_id in F2 as [I2 _].
  rewrite I1, I2, Et, Eu. repeat split.
  - rewrite str_slice_to_length. unfold sha1.
    now rewrite sha1_hexdigest_length.
  - apply str_slice_to_all_hex, sha1_hexdigest_all_hex.
Qed.

Lemma id_determined_by_title_and_url_witness :
  let e1 := Sample.entry_of " 대통령, 국회 연설 " "http://news.example/1"
              "<p>속보</p>" "2024-05-02T09:00:00+09:00" in
  let e2 := Sample.entry_of "대통령, 국회 연설" "http://news.example/1 "
              "다른 요약" "tomorrow" in
  exists it1 it2,
    fetch_rss_entry Sample.w (Sample.src "A" "http://a.example/rss") e1 0
    = (Py.Ok it1, 1%nat) /\
    fetch_rss_entry Sample.w
      {| name := Py.VStr "B"; url := Py.VStr "http://b.example/rss";
         category := Py.VStr "world" |} e2 7
    = (Py.Ok it2, 9%nat) /\
    title it1 = title it2 /\ item_url it1 = item_url it2 /\
    summary it1 <> summary it2 /\
    published_at it1 <> published_at it2 /\
    item_category it1 <> item_category it2 /\
    id it1 = "ce1a6f5764b52288" /\
    id it1 = id it2 /\ String.length (id it1) = 16%nat /\ all_hex (id it1).
Proof.
  intros e1 e2.
  destruct (fetch_rss_entry Sample.w (Sample.src "A" "http://a.example/rss")
              e1 0) as [[it1|] k1] eqn:F1; [|vm_compute in F1; discriminate].
  destruct (fetch_rss_entry Sample.w
              {| name := Py.VStr "B"; url := Py.VStr "http://b.example/rss";
                 category := Py.VStr "world" |} e2 7)
    as [[it2|] k2] eqn:F2; [|vm_compute in F2; discriminate].
  exists it1, it2.
  pose proof F1 as G1. pose proof F2 as G2.
  vm_compute in G1. vm_compute in G2.
  injection G1 as <- <-. injection G2 as <- <-.
  destruct (id_determined_by_title_and_url _ _ _ _ _ _ _ _ _ _ _ _ F1 F2)
    as [Hid [Hlen Hhex]]; [reflexivity|reflexivity|].
  split; [reflexivity|]. split; [reflexivity|].
  split; [reflexivity|]. split; [reflexivity|].
  split; [discriminate|]. split; [discriminate|]. split; [discriminate|].
  split; [reflexivity|]. split; [exact Hid|]. split; [exact Hlen|exact Hhex].
Defined.

(** C10.  The id depends on the title and the url only through
    [title + "|" + url]: two items whose joined strings are equal have one
    id, and of the items of one id a merge keeps at most one.  So the
    pairs [("a|b", "c")] and [("a", "b|c")], which differ, collide and are
    merged. *)
Theorem id_determined_by_joined_string
    (w1 w2 : world) (src1 src2 : source) (e1 e2 : entry)
    (n1 n2 m1 m2 : nat) (it1 it2 : item)
    (total_limit : Z) (all_items : list item) :
  fetch_rss_entry w1 src1 e1 n1 = (Py.Ok it1, m1) ->
  fetch_rss_entry w2 src2 e2 n2 = (Py.Ok it2, m2) ->
  (title it1 ++ "|" ++ item_url it1 = title it2 ++ "|" ++ item_url it2)%string ->
  id it1 = id it2
  /\ id it1
     = Py.str_slice_to 16
         (Hashlib.sha1_hexdigest (title it1 ++ "|" ++ item_url it1))
  /\ (count_id (id it1) (merge total_limit all_items) <= 1)%nat
  /\ sha1 ["a|b"; "c"] = sha1 ["a"; "b|c"].
Proof.
  intros F1 F2 E.
  apply fetch_rss_entry_id in F1 as [I1 _].
  apply fetch_rss_entry_id in F2 as [I2 _].
  unfold sha1 in I1, I2. cbn [Py.join] in I1, I2.
  split; [|split; [|split]].
  - rewrite I1, I2. now rewrite E.
  - exact I1.
  - apply count_id_NoDup, merge_NoDup.
  - vm_compute. reflexivity.
Qed.

Lemma id_determined_by_joined_string_witness :
  let file := Sample.sources_yaml
                [("P", "http://p.example/rss"); ("Q", "http://q.example/rss")] in
  let r := main Sample.w Sample.defaults file 0 in
  exists it1 it2,
    fetch_rss_entry Sample.w (Sample.src "P" "http://p.example/rss")
      (Sample.entry_of "a|b" "c" "" "2024-05-05T09:00:00+09:00") 0
    = (Py.Ok it1, 1%nat) /\
    fetch_rss_entry Sample.w (Sample.src "Q" "http://q.example/rss")
      (Sample.entry_of "a" "b|c" "" "2024-05-06T09:00:00+09:00") 1
    = (Py.Ok it2, 2%nat) /\
    (title it1, item_url it1) = ("a|b", "c") /\
    (title it2, item_url it2) = ("a", "b|c") /\
    (title it1 ++ "|" ++ item_url it1 = title it2 ++ "|" ++ item_url it2)%string /\
    id it1 = id it2 /\
    Sample.from_p = [it1] /\ Sample.from_q = [it2] /\
    rows_of r = [it2] /\
    (count_id (id it1) (rows_of r) <= 1)%nat.
Proof.
  intros file r.
  destruct (fetch_rss_entry Sample.w (Sample.src "P" "http://p.example/rss")
              (Sample.entry_of "a|b" "c" "" "2024-05-05T09:00:00+09:00") 0)
    as [[it1|] k1] eqn:F1; [|vm_compute in F1; discriminate].
  destruct (fetch_rss_entry Sample.w (Sample.src "Q" "http://q.example/rss")
              (Sample.entry_of "a" "b|c" "" "2024-05-06T09:00:00+09:00") 1)
    as [[it2|] k2] eqn:F2; [|vm_compute in F2; discriminate].
  exists it1, it2.
  pose proof F1 as G1. pose proof F2 as G2.
  vm_compute in G1. vm_compute in G2.
  injection G1 as <- <-. injection G2 as <- <-.
  match goal with
  | |- context [rows_of r = ?l] =>
      assert (rows_of r = l) as Hr by (vm_compute; reflexivity)
  end.
  destruct (id_determined_by_joined_string _ _ _ _ _ _ _ _ _ _ _ _
              (TOTAL_LIMIT Sample.defaults) (Sample.from_p ++ Sample.from_q)
              F1 F2)
    as [Hid [_ [Hcount _]]]; [reflexivity|].
  assert (rows_of r
          = merge (TOTAL_LIMIT Sample.defaults)
              (Sample.from_p ++ Sample.from_q)) as Hm
    by (vm_compute; reflexivity).
  pose proof Hcount as Hcount'. rewrite <- Hm in Hcount'.
  split; [reflexivity|]. split; [reflexivity|].
  split; [reflexivity|]. split; [reflexivity|].
  split; [reflexivity|]. split; [exact Hid|].
  split; [reflexivity|]. split; [reflexivity|].
  split; [exact Hr|].
  exact Hcount'.
Defined.
(* ================================================================== *)
(** * Further properties: the loader and the ending of a run *)
(* ================================================================== *)

Section Loader.

Lemma mapM_mappings (ds : list (list (string * Py.value))) :
  Py.mapM (fun s =>
             n <- Py.get s "name" Py.VNone ;;
             u <- Py.get s "url" Py.VNone ;;
             c <- Py.get s "category" Py.VNone ;;
             Py.Ok {| name := n; url := u; category := c |})
          (map Py.VDict ds)
  = Py.Ok (map source_of_mapping ds).
Proof.
  induction ds as [|d ds IH]; [reflexivity|].
  cbn [map Py.mapM]. rewrite IH. reflexivity.
Qed.

Lemma mapM_not_mapping (l : list Py.value) :
  existsb (fun v => negb (is_mapping v)) l = true ->
  Py.mapM (fun s =>
             n <- Py.get s "name" Py.VNone ;;
             u <- Py.get s "url" Py.VNone ;;
             c <- Py.get s "category" Py.VNone ;;
             Py.Ok {| name := n; url := u; category := c |})
          l
  = Py.Raise Py.AttributeError.
Proof.
  induction l as [|v l IH]; [discriminate|].
  cbn [existsb Py.mapM]. destruct v; cbn; try reflexivity.
  intros H. now rewrite (IH H).
Qed.

Lemma lookup_some_truthy (k : string) (d : list (string * Py.value))
    (v : Py.value) :
  Py.lookup k d = Some v -> Py.truthy (Py.VDict d) = true.
Proof. destruct d; [discriminate|reflexivity]. Qed.

End Loader.

(** X1.  A document that is a mapping whose [sources] lists mappings
    gives one source for every listed mapping, in the order of the list,
    with the values found under [name], [url] and [category], [None] for
    a key that is missing; other keys are not looked at.  A mapping with
    no [sources] gives no source. *)
Theorem load_sources_lists_mappings
    (d : list (string * Py.value)) (ds : list (list (string * Py.value))) :
  (Py.lookup "sources" d = Some (Py.VList (map Py.VDict ds)) ->
   load_sources (Some (Py.VDict d)) = Py.Ok (map source_of_mapping ds))
  /\ (Py.lookup "sources" d = None ->
      load_sources (Some (Py.VDict d)) = Py.Ok []).
Proof.
  split; [|apply load_sources_without_key].
  intros H. unfold load_sources, Py.or_else.
  rewrite (lookup_some_truthy _ _ _ H).
  cbn [Py.get Py.bind]. rewrite H. cbn [Py.iterate Py.bind].
  apply mapM_mappings.
Qed.

Lemma load_sources_lists_mappings_witness :
  let d := [("version", Py.VInt 1);
            ("sources",
             Py.VList [Py.VDict [("url", Py.VStr "http://a.example/rss");
                                 ("name", Py.VStr "A");
                                 ("lang", Py.VStr "ko")];
                       Py.VDict [("name", Py.VStr "B");
                                 ("category", Py.VStr "world")]])] in
  load_sources (Some (Py.VDict d))
  = Py.Ok [{| name := Py.VStr "A"; url := Py.VStr "http://a.example/rss";
              category := Py.VNone |};
           {| name := Py.VStr "B"; url := Py.VNone;
              category := Py.VStr "world" |}].
Proof.
  intros d.
  exact (proj1 (load_sources_lists_mappings d
                  [[("url", Py.VStr "http://a.example/rss");
                    ("name", Py.VStr "A"); ("lang", Py.VStr "ko")];
                   [("name", Py.VStr "B"); ("category", Py.VStr "world")]])
               eq_refl).
Defined.

(** X2.  One listed source that is no mapping (a bare string, a number,
    a list, [None]) makes the loader raise [AttributeError]: no source of
    the document is returned, the well-formed ones neither. *)
Theorem load_sources_entry_not_mapping
    (d : list (string * Py.value)) (l : list Py.value) :
  Py.lookup "sources" d = Some (Py.VList l) ->
  existsb (fun v => negb (is_mapping v)) l = true ->
  load_sources (Some (Py.VDict d)) = Py.Raise Py.AttributeError.
Proof.
  intros H Hbad. unfold load_sources, Py.or_else.
  rewrite (lookup_some_truthy _ _ _ H).
  cbn [Py.get Py.bind]. rewrite H. cbn [Py.iterate Py.bind].
  now apply mapM_not_mapping.
Qed.

Lemma load_sources_entry_not_mapping_witness :
  let l := [Sample.source_doc "A" "http://a.example/rss";
            Py.VStr "http://b.example/rss"] in
  existsb (fun v => negb (is_mapping v)) l = true /\
  load_sources (Some (Py.VDict [("sources", Py.VList l)]))
  = Py.Raise Py.AttributeError.
Proof.
  intros l. split; [reflexivity|].
  apply (load_sources_entry_not_mapping [("sources", Py.VList l)] l);
    reflexivity.
Defined.

(** X21.  A document that is a true value but no mapping (a list, a
    text, a number) makes the loader raise [AttributeError]; a mapping
    whose [sources] is [None], a number or a truth value makes it raise
    [TypeError]; in neither case is a list of sources returned. *)
Theorem load_sources_ill_typed_document (doc : Py.value) :
  (Py.truthy doc = true -> is_mapping doc = false ->
   load_sources (Some doc) = Py.Raise Py.AttributeError)
  /\ (forall d v,
        doc = Py.VDict d -> Py.lookup "sources" d = Some v ->
        v = Py.VNone \/ (exists z, v = Py.VInt z) \/ (exists b, v = Py.VBool b) ->
        load_sources (Some doc) = Py.Raise Py.TypeError).
Proof.
  split.
  - intros Ht Hm. unfold load_sources, Py.or_else. rewrite Ht.
    destruct doc; try reflexivity; discriminate.
  - intros d v -> Hl Hv. unfold load_sources, Py.or_else.
    rewrite (lookup_some_truthy _ _ _ Hl). cbn [Py.get Py.bind]. rewrite Hl.
    destruct Hv as [-> | [[z ->] | [b ->]]]; reflexivity.
Qed.

Section Ending.
Variable w : world.

Lemma fetch_all_sources (sources : list source) :
  forall n, map fst (fetch_all w sources n) = sources.
Proof.
  induction sources as [|src sources IH]; intros n; simpl; [reflexivity|].
  destruct (fetch_rss w src n) as [r n']. simpl. now rewrite IH.
Qed.

Lemma fetch_all_length (sources : list source) (n : nat) :
  length (fetch_all w sources n) = length sources.
Proof. rewrite <- (fetch_all_sources sources n) at 2. now rewrite length_map. Qed.

Lemma warnings_length (trace : list (source * Py.res (list item))) :
  length (warnings w trace) = length (failed trace).
Proof.
  induction trace as [|[src [items | e]] trace IH]; simpl; auto.
Qed.

Lemma kept_all_failed (per_source_limit : Z)
    (trace : list (source * Py.res (list item))) :
  succeeded trace = [] -> kept_all per_source_limit trace = [].
Proof.
  intros H. rewrite <- kept_all_succeeded, H. reflexivity.
Qed.

Lemma all_failed (trace : list (source * Py.res (list item))) :
  succeeded trace = [] -> failed trace = trace.
Proof.
  induction trace as [|[src [items | e]] trace IH]; simpl;
    [reflexivity|discriminate|].
  intros H. now rewrite IH.
Qed.

Lemma merge_nil (total_limit : Z) : merge total_limit [] = [].
Proof.
  rewrite merge_spec. simpl. unfold Py.slice_to.
  destruct (0 <=? total_limit)%Z; apply firstn_nil.
Qed.

Lemma enriched_nil (cfg : config) : enriched w cfg [] = [].
Proof. unfold enriched. now destruct (FETCH_FULLTEXT cfg). Qed.

End Ending.

(** X3.  A run whose limits are integers comes to the saving steps
    exactly when the loader returned at least one source, whatever the
    sources then do.  Otherwise (no source, or the loader raised) it ends
    at once with status 1: nothing is fetched, the clock is not read, and
    the ending does not depend on the world or on the limits. *)
Theorem run_reaches_saving_iff_sources
    (w : world) (cfg : config) (file : option Py.value) (n : nat) :
  ((exists rows, outcome (main w cfg file n) = Saved rows)
   <-> exists src sources, load_sources file = Py.Ok (src :: sources))
  /\ ((forall src sources, load_sources file <> Py.Ok (src :: sources)) ->
      exit_status (main w cfg file n) = Some 1%Z
      /\ forall w' cfg' n', main w' cfg' file n' = main w cfg file n).
Proof.
  destruct (load_sources file) as [[|src sources] | e] eqn:Hload.
  - split.
    + unfold main. rewrite Hload. cbn. split.
      * intros [rows H]. discriminate.
      * intros [src [sources H]]. discriminate.
    + intros _. unfold exit_status, main. rewrite Hload. split; reflexivity.
  - split.
    + rewrite (main_with_sources w cfg file n (src :: sources))
        by (exact Hload || discriminate).
      cbn. split; eauto.
    + intros H. exfalso. now apply (H src sources).
  - split.
    + unfold main. rewrite Hload. cbn. split.
      * intros [rows H]. discriminate.
      * intros [src [sources H]]. discriminate.
    + intros _. unfold exit_status, main. rewrite Hload. split; reflexivity.
Qed.

Lemma run_reaches_saving_iff_sources_witness :
  (* the well-formed sources all raise: rows, none, are still saved *)
  (exists rows,
     outcome (main Sample.w Sample.defaults
                (Sample.sources_yaml [("down", "http://down.example/rss")]) 0)
     = Saved rows)
  (* an empty list of sources, and a listed source that is no mapping *)
  /\ main Sample.w Sample.defaults
       (Some (Py.VDict [("sources", Py.VList [])])) 0
     = {| stderr := ["No sources in sources.yaml"]; outcome := Exited 1 |}
  /\ main Sample.w Sample.defaults
       (Some (Py.VDict [("sources", Py.VList [Py.VStr "http://a.example/rss"])]))
       0
     = {| stderr := []; outcome := Uncaught Py.AttributeError |}
  /\ exit_status
       (main Sample.w Sample.defaults
          (Some (Py.VDict [("sources",
                            Py.VList [Py.VStr "http://a.example/rss"])])) 0)
     = Some 1%Z.
Proof.
  split.
  - apply (proj1 (run_reaches_saving_iff_sources Sample.w Sample.defaults
                    (Sample.sources_yaml [("down", "http://down.example/rss")])
                    0)).
    eexists. eexists. vm_compute. reflexivity.
  - split; [reflexivity|]. split; [reflexivity|].
    apply (proj2 (run_reaches_saving_iff_sources Sample.w Sample.defaults
                    (Some (Py.VDict
                             [("sources",
                               Py.VList [Py.VStr "http://a.example/rss"])]))
                    0)).
    intros src sources. vm_compute. discriminate.
Defined.

(** X4.  A run whose limits are integers and all of whose sources raise
    is not stopped by them: it comes to the saving steps with no row at
    all, and it has printed one warning for every source. *)
Theorem all_sources_failing_saves_nothing
    (w : world) (cfg : config) (file : option Py.value) (n : nat)
    (sources : list source) :
  load_sources file = Py.Ok sources -> sources <> [] ->
  succeeded (fetch_all w sources n) = [] ->
  outcome (main w cfg file n) = Saved []
  /\ length (stderr (main w cfg file n)) = length sources.
Proof.
  intros Hload Hne Hall.
  rewrite (main_with_sources w cfg file n sources Hload Hne).
  cbn [outcome stderr].
  rewrite (kept_all_failed _ _ Hall), merge_nil, enriched_nil.
  rewrite warnings_length, (all_failed _ Hall), fetch_all_length.
  split; reflexivity.
Qed.

Lemma all_sources_failing_saves_nothing_witness :
  let file := Sample.sources_yaml
                [("down", "http://down.example/rss");
                 ("odd", "http://odd.example/rss");
                 ("nowhere", "http://nowhere.example/rss")] in
  let sources := [Sample.src "down" "http://down.example/rss";
                  Sample.src "odd" "http://odd.example/rss";
                  Sample.src "nowhere" "http://nowhere.example/rss"] in
  load_sources file = Py.Ok sources /\
  succeeded (fetch_all Sample.w sources 0) = [] /\
  outcome (main Sample.w Sample.defaults file 0) = Saved [] /\
  length (stderr (main Sample.w Sample.defaults file 0)) = 3%nat /\
  stderr (main Sample.w Sample.defaults file 0)
  = ["[WARN] down fetch failed: timed out";
     "[WARN] odd fetch failed: error";
     "[WARN] nowhere fetch failed: unknown host"].
Proof.
  intros file sources.
  assert (load_sources file = Py.Ok sources) as Hl by (vm_compute; reflexivity).
  assert (succeeded (fetch_all Sample.w sources 0) = []) as Hs
    by (vm_compute; reflexivity).
  destruct (all_sources_failing_saves_nothing Sample.w Sample.defaults file 0
              sources Hl) as [Hout Hlen]; [discriminate|exact Hs|].
  split; [exact Hl|]. split; [exact Hs|]. split; [exact Hout|].
  split; [exact Hlen|]. vm_compute. reflexivity.
Defined.

(** X5.  A run with sources prints on stderr the warnings of the sources
    that raised, in the order of the sources, and nothing else: as many
    lines as sources that raised, none when every fetch returned. *)
Theorem one_warning_per_failing_source
    (w : world) (cfg : config) (file : option Py.value) (n : nat)
    (sources : list source) :
  load_sources file = Py.Ok sources -> sources <> [] ->
  stderr (main w cfg file n) = warnings w (fetch_all w sources n)
  /\ length (stderr (main w cfg file n))
     = length (failed (fetch_all w sources n))
  /\ (failed (fetch_all w sources n) = [] -> stderr (main w cfg file n) = [])
  /\ (forall line, In line (stderr (main w cfg file n)) ->
        exists src e, In (src, Py.Raise e) (fetch_all w sources n)
                      /\ line = warning w src e).
Proof.
  intros Hload Hne.
  rewrite (main_with_sources w cfg file n sources Hload Hne).
  cbn [stderr]. split; [reflexivity|]. split; [apply warnings_length|].
  split.
  - intros H. apply length_zero_iff_nil. now rewrite warnings_length, H.
  - generalize (fetch_all w sources n). intros trace line.
    induction trace as [|[src [items | e]] trace IH]; simpl; [tauto| |].
    + intros H. destruct (IH H) as [s [e [Hin E]]]. eauto.
    + intros [<- | H]; [eauto|].
      destruct (IH H) as [s [e' [Hin E]]]. eauto.
Qed.

Lemma one_warning_per_failing_source_witness :
  let file := Sample.sources_yaml
                [("A", "http://a.example/rss");
                 ("down", "http://down.example/rss");
                 ("B", "http://b.example/rss")] in
  let sources := [Sample.src "A" "http://a.example/rss";
                  Sample.src "down" "http://down.example/rss";
                  Sample.src "B" "http://b.example/rss"] in
  load_sources file = Py.Ok sources /\
  length (failed (fetch_all Sample.w sources 0)) = 1%nat /\
  stderr (main Sample.w Sample.defaults file 0)
  = ["[WARN] down fetch failed: timed out"] /\
  length (stderr (main Sample.w Sample.defaults file 0)) = 1%nat.
Proof.
  intros file sources.
  assert (load_sources file = Py.Ok sources) as Hl by (vm_compute; reflexivity).
  destruct (one_warning_per_failing_source Sample.w Sample.defaults file 0
              sources Hl) as [_ [Hlen _]]; [discriminate|].
  split; [exact Hl|]. split; [vm_compute; reflexivity|].
  split; [vm_compute; reflexivity|].
  rewrite Hlen. vm_compute. reflexivity.
Defined.

(* ================================================================== *)
(** * Further properties: fetching a source *)
(* ================================================================== *)

Section Fetching.
Variable w : world.

Lemma io_mapM_Ok {A B : Type} (f : A -> Py.io B) (l : list A) :
  forall n bs n', Py.io_mapM f l n = (Py.Ok bs, n') ->
  Forall2 (fun a b => exists k k', f a k = (Py.Ok b, k')) l bs.
Proof.
  induction l as [|a l IH]; intros n bs n'; simpl.
  - unfold Py.ret. intros H. injection H as <- _. constructor.
  - unfold Py.io_bind. destruct (f a n) as [[b | e] k] eqn:Fa; [|discriminate].
    destruct (Py.io_mapM f l k) as [[bs' | e] k'] eqn:Fl; [|discriminate].
    unfold Py.ret. intros H. injection H as <- _.
    constructor; [eauto|]. eapply IH. exact Fl.
Qed.

Lemma io_mapM_Raise {A B : Type} (f : A -> Py.io B) (l : list A) :
  Exists (fun a => forall k, exists e k', f a k = (Py.Raise e, k')) l ->
  forall n, exists e n', Py.io_mapM f l n = (Py.Raise e, n').
Proof.
  induction 1 as [a l Ha | a l Hl IH]; intros n; simpl; unfold Py.io_bind.
  - destruct (Ha n) as [e [k' ->]]. eauto.
  - destruct (f a n) as [[b | e] k]; [|eauto].
    destruct (IH k) as [e [n' ->]]. eauto.
Qed.

Lemma io_mapM_all_Ok {A B : Type} (f : A -> Py.io B) (l : list A) :
  Forall (fun a => forall k, exists b k', f a k = (Py.Ok b, k')) l ->
  forall n, exists bs n', Py.io_mapM f l n = (Py.Ok bs, n').
Proof.
  induction 1 as [|a l Ha Hl IH]; intros n; simpl; unfold Py.io_bind, Py.ret.
  - eauto.
  - destruct (Ha n) as [b [k ->]]. destruct (IH k) as [bs [n' ->]]. eauto.
Qed.

Lemma or_empty_strip_raises (v : Py.value) :
  Py.truthy v && negb (is_str v) = true ->
  or_empty_strip v = Py.Raise Py.AttributeError.
Proof.
  unfold or_empty_strip, Py.or_else.
  destruct v as [|b|z|s|l|d]; simpl; intros H.
  - discriminate.
  - destruct b; [reflexivity|discriminate].
  - destruct (z =? 0)%Z; [discriminate|reflexivity].
  - rewrite andb_false_r in H. discriminate.
  - destruct l; [discriminate|reflexivity].
  - destruct d; [discriminate|reflexivity].
Qed.

Lemma or_empty_strip_returns (v : Py.value) :
  Py.truthy v && negb (is_str v) = false ->
  exists s, or_empty_strip v = Py.Ok s.
Proof.
  unfold or_empty_strip, Py.or_else.
  destruct v as [|b|z|s|l|d]; cbn [Py.truthy is_str]; intros H.
  - eexists. reflexivity.
  - destruct b; [discriminate|eexists; reflexivity].
  - destruct (z =? 0)%Z; [eexists; reflexivity|discriminate].
  - destruct (s =? ""); eexists; reflexivity.
  - destruct l; [eexists; reflexivity|discriminate].
  - destruct d; [eexists; reflexivity|discriminate].
Qed.

Lemma clean_text_raises (v : Py.value) :
  Py.truthy v && negb (is_str v) = true ->
  clean_text v = Py.Raise Py.TypeError.
Proof.
  unfold clean_text. destruct (Py.truthy v); [|discriminate].
  destruct v as [|b|z|s|l|d]; simpl; intros H; try reflexivity.
  discriminate.
Qed.

Lemma clean_text_returns (v : Py.value) :
  Py.truthy v && negb (is_str v) = false ->
  exists s, clean_text v = Py.Ok s.
Proof.
  unfold clean_text. destruct (Py.truthy v); simpl; [|eauto].
  destruct v as [|b|z|s|l|d]; simpl; intros H; try discriminate. eauto.
Qed.

Lemma summary_value (e : entry) :
  let v := Py.or_else (Py.dict_get e "summary")
             (Py.or_else (Py.dict_get e "description") (Py.VStr "")) in
  Py.truthy v && negb (is_str v)
  = (let u := Py.or_else (Py.dict_get e "summary")
                (Py.dict_get e "description") in
     Py.truthy u && negb (is_str u)).
Proof.
  unfold Py.or_else.
  destruct (Py.truthy (Py.dict_get e "summary")) eqn:Hs; simpl;
    [now rewrite Hs|].
  destruct (Py.truthy (Py.dict_get e "description")) eqn:Hd; simpl;
    now rewrite ?Hd.
Qed.

Lemma parse_time_returns (e : entry) (n : nat) :
  exists t n', parse_time w e n = (Py.Ok t, n') /\ (n' = n \/ n' = S n).
Proof.
  unfold parse_time, Py.ret, now_kst.
  destruct (parse_time_loop _ _ _ _); [eauto|].
  destruct (parse_time_loop _ _ _ _); eauto.
Qed.

(** The loop body raises on a malformed entry, whatever the clock. *)
Lemma fetch_rss_entry_malformed (src : source) (e : entry) (n : nat) :
  malformed e = true ->
  exists err, fetch_rss_entry w src e n = (Py.Raise err, n).
Proof.
  unfold malformed, fetch_rss_entry, Py.io_bind, Py.lift. intros H.
  destruct (Py.truthy (Py.dict_get e "title")
            && negb (is_str (Py.dict_get e "title"))) eqn:Ht.
  { rewrite (or_empty_strip_raises _ Ht). eauto. }
  destruct (or_empty_strip_returns _ Ht) as [t ->].
  destruct (Py.truthy (Py.dict_get e "link")
            && negb (is_str (Py.dict_get e "link"))) eqn:Hl.
  { rewrite (or_empty_strip_raises _ Hl). eauto. }
  destruct (or_empty_strip_returns _ Hl) as [l ->].
  simpl in H. rewrite <- summary_value in H.
  rewrite (clean_text_raises _ H). eauto.
Qed.

(** On any other entry it builds an item, reading the clock once or
    twice. *)
Lemma fetch_rss_entry_well_formed (src : source) (e : entry) (n : nat) :
  malformed e = false ->
  exists it n', fetch_rss_entry w src e n = (Py.Ok it, n')
                /\ (n' = S n \/ n' = S (S n)).
Proof.
  unfold malformed, fetch_rss_entry, Py.io_bind, Py.lift. intros H.
  apply orb_false_elim in H as [H Hs]. apply orb_false_elim in H as [Ht Hl].
  destruct (or_empty_strip_returns _ Ht) as [t ->].
  destruct (or_empty_strip_returns _ Hl) as [l ->].
  rewrite <- summary_value in Hs.
  destruct (clean_text_returns _ Hs) as [s ->].
  destruct (parse_time_returns e n) as [p [n' [-> Hn]]].
  unfold now_kst, Py.ret. eexists. eexists. split; [reflexivity|].
  destruct Hn as [-> | ->]; auto.
Qed.

(** What the loop body puts in the item. *)
Lemma fetch_rss_entry_fields (src : source) (e : entry) (n n' : nat)
    (it : item) :
  fetch_rss_entry w src e n = (Py.Ok it, n') ->
  source_name it = name src /\ source_url it = url src
  /\ language it = "ko" /\ content it = None
  /\ item_category it = guess_category (title it) (summary it) (category src)
  /\ tags it = make_tags (title it) (summary it)
  /\ clean_text (Py.or_else (Py.dict_get e "summary")
                   (Py.or_else (Py.dict_get e "description") (Py.VStr "")))
     = Py.Ok (summary it)
  /\ fetched_at it = isoformat w (now w KST (pred n')).
Proof.
  unfold fetch_rss_entry, Py.io_bind, Py.lift, Py.ret, now_kst.
  destruct (or_empty_strip (Py.dict_get e "title")) as [t|]; [|discriminate].
  destruct (or_empty_strip (Py.dict_get e "link")) as [l|]; [|discriminate].
  destruct (clean_text _) as [s|]; [|discriminate].
  destruct (parse_time w e n) as [[p|] m]; [|discriminate].
  intros H. injection H as <- <-. simpl. repeat split.
Qed.

Lemma fetch_all_In (sources : list source) :
  forall n src r, In (src, r) (fetch_all w sources n) ->
  exists k k', fetch_rss w src k = (r, k').
Proof.
  induction sources as [|s sources IH]; intros n src r; simpl; [tauto|].
  destruct (fetch_rss w s n) as [r0 n'] eqn:F. simpl.
  intros [H | H]; [injection H as <- <-; eauto|eauto].
Qed.

Lemma kept_all_In (per_source_limit : Z)
    (trace : list (source * Py.res (list item))) (it : item) :
  In it (kept_all per_source_limit trace) ->
  exists src items, In (src, Py.Ok items) trace /\ In it items.
Proof.
  unfold kept_all. induction trace as [|[src r] trace IH]; simpl; [tauto|].
  rewrite in_app_iff. intros [H | H].
  - destruct r as [items | e]; simpl in H; [|tauto].
    apply slice_to_In in H. apply sorted_In in H. eauto.
  - destruct (IH H) as [s [items [Hin Hit]]]. eauto.
Qed.

End Fetching.

(** X6.  When [fetch_rss] returns, the feed was parsed and there is one
    item for every entry, in the order of the feed; the item has the
    trimmed title and link of its entry, the name and the url of the
    source, the language [ko] and no content. *)
Theorem fetch_rss_one_item_per_entry
    (w : world) (src : source) (n n' : nat) (items : list item) :
  fetch_rss w src n = (Py.Ok items, n') ->
  exists entries,
    feedparser_parse w (url src) = Py.Ok entries
    /\ length items = length entries
    /\ Forall2 (fun e it =>
                  or_empty_strip (Py.dict_get e "title") = Py.Ok (title it)
                  /\ or_empty_strip (Py.dict_get e "link")
                     = Py.Ok (item_url it)
                  /\ source_name it = name src /\ source_url it = url src
                  /\ language it = "ko" /\ content it = None)
               entries items.
Proof.
  unfold fetch_rss, Py.io_bind, Py.lift.
  destruct (feedparser_parse w (url src)) as [entries | e]; [|discriminate].
  intros H. exists entries. split; [reflexivity|].
  apply io_mapM_Ok in H.
  split; [symmetry; eapply Forall2_length; exact H|].
  eapply Forall2_impl; [|exact H].
  intros e it [k [k' F]].
  destruct (fetch_rss_entry_id _ _ _ _ _ _ F) as [_ [Ht Hl]].
  destruct (fetch_rss_entry_fields _ _ _ _ _ _ F) as [Hn [Hu [Hg [Hc _]]]].
  auto 10.
Qed.

Lemma fetch_rss_one_item_per_entry_witness :
  exists items entries,
    fetch_rss Sample.w (Sample.src "A" "http://a.example/rss") 0
    = (Py.Ok items, 2%nat) /\
    feedparser_parse Sample.w (Py.VStr "http://a.example/rss")
    = Py.Ok entries /\
    length items = length entries /\
    map title items = ["코스피 상승 마감"; "대통령, 국회 연설"] /\
    map source_name items = [Py.VStr "A"; Py.VStr "A"].
Proof.
  destruct (fetch_rss Sample.w (Sample.src "A" "http://a.example/rss") 0)
    as [[items | e] k] eqn:F; [|vm_compute in F; discriminate].
  destruct (fetch_rss_one_item_per_entry _ _ _ _ _ F)
    as [entries [Hp [Hlen _]]].
  exists items, entries.
  vm_compute in F. injection F as <- <-.
  split; [reflexivity|]. split; [exact Hp|]. split; [exact Hlen|].
  split; reflexivity.
Defined.

(** X7.  [fetch_rss] returns all the items of a feed or none.  When the
    parser raises, it raises that exception without reading the clock.
    When the feed holds an entry whose title, link or summary is a true
    value that is no string, it raises, whatever the other entries are;
    when no entry is of that kind it returns. *)
Theorem fetch_rss_all_or_nothing (w : world) (src : source) (n : nat) :
  (forall e, feedparser_parse w (url src) = Py.Raise e ->
     fetch_rss w src n = (Py.Raise e, n))
  /\ (forall entries,
        feedparser_parse w (url src) = Py.Ok entries ->
        existsb malformed entries = true ->
        exists e n', fetch_rss w src n = (Py.Raise e, n'))
  /\ (forall entries,
        feedparser_parse w (url src) = Py.Ok entries ->
        existsb malformed entries = false ->
        exists items n', fetch_rss w src n = (Py.Ok items, n')).
Proof.
  unfold fetch_rss, Py.io_bind, Py.lift. split; [|split].
  - intros e ->. reflexivity.
  - intros entries -> H. apply io_mapM_Raise.
    apply existsb_exists in H as [e [He Hm]].
    apply Exists_exists. exists e. split; [exact He|].
    intros k. destruct (fetch_rss_entry_malformed w src e k Hm) as [err E].
    eauto.
  - intros entries -> H. apply io_mapM_all_Ok.
    apply Forall_forall. intros e He k.
    assert (malformed e = false) as Hm.
    { destruct (malformed e) eqn:E; [|reflexivity].
      rewrite <- H. symmetry. apply existsb_exists. eauto. }
    destruct (fetch_rss_entry_well_formed w src e k Hm) as [it [k' [E _]]].
    eauto.
Qed.

Lemma fetch_rss_all_or_nothing_witness :
  exists entries,
    feedparser_parse Sample.w (Py.VStr "http://odd.example/rss")
    = Py.Ok entries /\
    map malformed entries = [false; true] /\
    (exists e n',
       fetch_rss Sample.w (Sample.src "odd" "http://odd.example/rss") 0
       = (Py.Raise e, n')) /\
    fetch_rss Sample.w (Sample.src "odd" "http://odd.example/rss") 0
    = (Py.Raise Py.AttributeError, 1%nat).
Proof.
  destruct (feedparser_parse Sample.w (Py.VStr "http://odd.example/rss"))
    as [entries | e] eqn:P; [|vm_compute in P; discriminate].
  exists entries. split; [reflexivity|].
  destruct (fetch_rss_all_or_nothing Sample.w
              (Sample.src "odd" "http://odd.example/rss") 0)
    as [_ [Hbad _]].
  vm_compute in P. injection P as <-.
  split; [reflexivity|]. split; [exact (Hbad _ eq_refl eq_refl)|].
  vm_compute. reflexivity.
Defined.

(** X8.  Every item fetched from a source that has a category (a true
    value under [category]) carries that category, whatever its title and
    summary say. *)
Theorem source_category_on_every_item
    (w : world) (src : source) (n n' : nat) (items : list item) :
  Py.truthy (category src) = true ->
  fetch_rss w src n = (Py.Ok items, n') ->
  Forall (fun it => item_category it = category src) items.
Proof.
  intros Hc. unfold fetch_rss, Py.io_bind, Py.lift.
  destruct (feedparser_parse w (url src)) as [entries | e]; [|discriminate].
  intros H. apply io_mapM_Ok in H.
  induction H as [|e it entries items [k [k' F]] _ IH]; constructor;
    [|exact IH].
  destruct (fetch_rss_entry_fields _ _ _ _ _ _ F) as [_ [_ [_ [_ [Hg _]]]]].
  rewrite Hg. unfold guess_category. now rewrite Hc.
Qed.

Lemma source_category_on_every_item_witness :
  let src := {| name := Py.VStr "A"; url := Py.VStr "http://a.example/rss";
                category := Py.VStr "world" |} in
  exists items,
    fetch_rss Sample.w src 0 = (Py.Ok items, 2%nat) /\
    Forall (fun it => item_category it = Py.VStr "world") items /\
    length items = 2%nat /\
    map item_category (Sample.items_of "A" "http://a.example/rss" 0)
    = [Py.VStr "economy"; Py.VStr "politics"].
Proof.
  intros src.
  destruct (fetch_rss Sample.w src 0) as [[items | e] k] eqn:F;
    [|vm_compute in F; discriminate].
  exists items.
  pose proof (source_category_on_every_item Sample.w src 0 k items eq_refl F)
    as Hall.
  vm_compute in F. injection F as <- <-.
  split; [reflexivity|]. split; [exact Hall|]. split; reflexivity.
Defined.

(* ================================================================== *)
(** * Further properties: keeping, merging, saving *)
(* ================================================================== *)

Section Merging.

Lemma StronglySorted_app_cross {A : Type} (R : A -> A -> Prop)
    (l1 l2 : list A) :
  StronglySorted R (l1 ++ l2) ->
  forall x y, In x l1 -> In y l2 -> R x y.
Proof.
  induction l1 as [|a l1 IH]; simpl; [tauto|].
  intros H x y Hx Hy. apply StronglySorted_inv in H as [Hs Ha].
  destruct Hx as [<- | Hx]; [|now apply IH].
  rewrite Forall_forall in Ha. apply Ha. apply in_or_app. now right.
Qed.

Lemma sorted_of_sorted {A : Type} (key : A -> string) (reverse : bool)
    (l : list A) :
  StronglySorted (Py.in_order key reverse) l -> Py.sorted key reverse l = l.
Proof.
  induction 1 as [|a l Hs IH Ha]; simpl; [reflexivity|].
  rewrite IH. destruct l as [|y l]; [reflexivity|]. simpl.
  inversion Ha as [|? ? Hy _]; subst.
  unfold Py.in_order, Py.str_le in Hy. unfold Py.goes_first.
  destruct reverse; now rewrite Hy.
Qed.

Lemma find_and {A : Type} (p q : A -> bool) (l : list A) :
  find (fun y => p y && q y) l = find p (filter q l).
Proof.
  induction l as [|a l IH]; simpl; [reflexivity|].
  destruct (q a); simpl.
  - destruct (p a); [reflexivity|exact IH].
  - rewrite andb_false_r. exact IH.
Qed.

Lemma find_also {A : Type} (p q : A -> bool) (l : list A) (r : A) :
  find p l = Some r -> q r = true -> find (fun y => p y && q y) l = Some r.
Proof.
  induction l as [|a l IH]; simpl; [discriminate|].
  destruct (p a) eqn:Pa; simpl.
  - intros H Hq. injection H as ->. now rewrite Hq.
  - auto.
Qed.

Lemma first_per_id_find (l : list item) :
  forall seen r, In r (first_per_id seen l) ->
  find (fun y => id y =? id r) l = Some r.
Proof.
  induction l as [|a l IH]; intros seen r; simpl; [tauto|].
  destruct (existsb _ seen) eqn:E.
  - intros H. pose proof (first_per_id_In _ _ _ H) as [_ Hr].
    destruct (String.eqb_spec (id a) (id r)) as [Eid | _]; [|eauto].
    apply seen_spec in E. congruence.
  - intros [<- | H]; [now rewrite String.eqb_refl|].
    pose proof (first_per_id_In _ _ _ H) as [_ Hr].
    destruct (String.eqb_spec (id a) (id r)) as [Eid | _]; [|eauto].
    exfalso. apply Hr. now left.
Qed.

Lemma firstn_idem {A : Type} (k : nat) (l : list A) :
  firstn k (firstn k l) = firstn k l.
Proof. rewrite firstn_firstn. now rewrite Nat.min_id. Qed.

End Merging.

(** X9.  Of the items fetched from a source the ones that enter
    [all_items] are none older than the ones left out: the fetched items
    are, up to their order, the kept ones and the others, and every kept
    item has a [published_at] at least that of every other.  For a limit
    that is not negative the kept items are [min(per_source_limit,
    number fetched)]. *)
Theorem kept_are_the_newest (per_source_limit : Z) (items : list item) :
  exists others,
    Permutation items (kept per_source_limit (Py.Ok items) ++ others)
    /\ (forall x y, In x (kept per_source_limit (Py.Ok items)) ->
          In y others ->
          Py.str_le (published_at y) (published_at x))
    /\ ((0 <= per_source_limit)%Z ->
        length (kept per_source_limit (Py.Ok items))
        = Nat.min (Z.to_nat per_source_limit) (length items)).
Proof.
  unfold kept.
  destruct (slice_to_prefix per_source_limit
              (Py.sorted by_published_at true items)) as [others E].
  exists others. split; [|split].
  - rewrite <- E. symmetry. apply sorted_perm.
  - intros x y Hx Hy.
    pose proof (sorted_sorted by_published_at true items) as Hs.
    rewrite E in Hs.
    exact (StronglySorted_app_cross _ _ _ Hs x y Hx Hy).
  - intros H. rewrite slice_to_length by exact H.
    now rewrite sorted_length.
Qed.

(** X10.  Which item an id keeps when several items of that id are
    equally recent: the one that stands first in [all_items], so the one
    of the source that comes first in the configuration.  The item an id
    keeps is the first item of [all_items] among those of that id with
    the greatest [published_at]. *)
Theorem merge_keeps_first_of_most_recent
    (total_limit : Z) (all_items : list item) (r : item) :
  In r (merge total_limit all_items) ->
  find (fun y => (id y =? id r) && (published_at y =? published_at r))
       all_items = Some r
  /\ (forall x, In x all_items -> id x = id r ->
        Py.str_le (published_at x) (published_at r)).
Proof.
  rewrite merge_spec. intros H. apply slice_to_In in H. split.
  - assert (filter (fun y => published_at y =? published_at r)
              (Py.sorted by_published_at true all_items)
            = filter (fun y => published_at y =? published_at r) all_items)
      as Hstable
      by exact (sorted_stable by_published_at true (published_at r) all_items).
    rewrite find_and, <- Hstable, <- find_and.
    apply find_also; [|apply String.eqb_refl].
    eapply first_per_id_find. exact H.
  - intros x Hx Ex.
    apply (first_per_id_first (Py.in_order by_published_at true)
             (Py.sorted by_published_at true all_items)
             (fun y => str_le_refl _) (sorted_sorted _ _ _) [] r x H).
    + now apply sorted_In.
    + exact Ex.
Qed.

Lemma merge_keeps_first_of_most_recent_witness :
  let a := {| id := "1"; source_name := Py.VStr "A"; source_url := Py.VNone;
              item_url := "u"; title := "t"; summary := "from A";
              published_at := "2024-05-01T09:00:00+09:00";
              fetched_at := ""; language := "ko";
              item_category := Py.VStr "general"; tags := [];
              content := None |} in
  let b := {| id := "1"; source_name := Py.VStr "B"; source_url := Py.VNone;
              item_url := "u"; title := "t"; summary := "from B";
              published_at := "2024-05-01T09:00:00+09:00";
              fetched_at := ""; language := "ko";
              item_category := Py.VStr "general"; tags := [];
              content := None |} in
  merge 200 [a; b] = [a] /\ merge 200 [b; a] = [b] /\
  In a (merge 200 [a; b]) /\
  find (fun y => (id y =? id a) && (published_at y =? published_at a)) [a; b]
  = Some a.
Proof.
  intros a b.
  assert (In a (merge 200 [a; b])) as Hin by (vm_compute; now left).
  destruct (merge_keeps_first_of_most_recent 200 [a; b] a Hin) as [Hfind _].
  split; [reflexivity|]. split; [reflexivity|]. split; [exact Hin|exact Hfind].
Defined.

(** X11.  Merging what a merge returned changes nothing, for a total
    limit that is not negative. *)
Theorem merge_idempotent (total_limit : Z) (all_items : list item) :
  (0 <= total_limit)%Z ->
  merge total_limit (merge total_limit all_items)
  = merge total_limit all_items.
Proof.
  intros H.
  rewrite (merge_spec total_limit (merge total_limit all_items)).
  rewrite sorted_of_sorted by apply merge_newest_first.
  rewrite first_per_id_id; [|apply merge_NoDup|intros x _ []].
  rewrite merge_spec. unfold Py.slice_to.
  destruct (0 <=? total_limit)%Z eqn:E; [apply firstn_idem|].
  apply Z.leb_gt in E. lia.
Qed.

Lemma merge_idempotent_witness :
  let l := Sample.items_of "A" "http://a.example/rss" 0
           ++ Sample.items_of "B" "http://b.example/rss" 2 in
  length l = 3%nat /\ length (merge 1 l) = 1%nat /\
  merge 1 (merge 1 l) = merge 1 l /\
  (* a negative limit drops one more item at every pass *)
  length (merge (-1) l) = 1%nat /\ merge (-1) (merge (-1) l) = [].
Proof.
  intros l.
  split; [vm_compute; reflexivity|]. split; [vm_compute; reflexivity|].
  split; [apply (merge_idempotent 1 l); lia|].
  split; vm_compute; reflexivity.
Defined.

Section Saving.
Variable w : world.

Lemma count_id_first_per_id (l : list item) (x : item) :
  In x l -> count_id (id x) (first_per_id [] l) = 1%nat.
Proof.
  intros Hx.
  destruct (first_per_id_complete l [] x Hx) as [r [Hr Er]]; [intros []|].
  pose proof (count_id_NoDup (id x) (first_per_id [] l)
                (first_per_id_NoDup l [])) as Hle.
  assert (count_id (id x) (first_per_id [] l) <> 0)%nat; [|lia].
  unfold count_id. intros H0. apply length_zero_iff_nil in H0.
  assert (In r (filter (fun y => id y =? id x) (first_per_id [] l))) as Hf.
  { apply filter_In. split; [exact Hr|]. now apply String.eqb_eq. }
  rewrite H0 in Hf. exact Hf.
Qed.

Lemma fetch_rss_items (src : source) (n n' : nat) (items : list item) :
  fetch_rss w src n = (Py.Ok items, n') ->
  exists entries,
    feedparser_parse w (url src) = Py.Ok entries
    /\ Forall2 (fun e it =>
                  exists k k', fetch_rss_entry w src e k = (Py.Ok it, k'))
               entries items.
Proof.
  unfold fetch_rss, Py.io_bind, Py.lift.
  destruct (feedparser_parse w (url src)) as [entries | e]; [|discriminate].
  intros H. exists entries. split; [reflexivity|].
  eapply io_mapM_Ok. exact H.
Qed.

Lemma fetch_rss_no_content (src : source) (n n' : nat) (items : list item) :
  fetch_rss w src n = (Py.Ok items, n') ->
  Forall (fun it => content it = None) items.
Proof.
  intros H. destruct (fetch_rss_items _ _ _ _ H) as [entries [_ F]].
  clear H. induction F as [|e it entries items [k [k' Fe]] _ IH]; [constructor|].
  constructor; [|exact IH].
  now destruct (fetch_rss_entry_fields w _ _ _ _ _ Fe) as [_ [_ [_ [Hc _]]]].
Qed.

Lemma kept_all_no_content (per_source_limit : Z) (sources : list source)
    (n : nat) (it : item) :
  In it (kept_all per_source_limit (fetch_all w sources n)) ->
  content it = None.
Proof.
  intros H. apply kept_all_In in H as [src [items [Hin Hit]]].
  apply fetch_all_In in Hin as [k [k' F]].
  pose proof (fetch_rss_no_content _ _ _ _ F) as Hall.
  rewrite Forall_forall in Hall. now apply Hall.
Qed.

Lemma merge_In (total_limit : Z) (all_items : list item) (x : item) :
  In x (merge total_limit all_items) -> In x all_items.
Proof.
  rewrite merge_spec. intros H. apply slice_to_In in H.
  apply first_per_id_In in H as [H _]. now apply sorted_In in H.
Qed.

Lemma fetch_fulltext_some (enable : bool) (i : nat) (u body : string) :
  fetch_fulltext w enable i u = Some body -> enable = true /\ body <> "".
Proof.
  unfold fetch_fulltext. destruct enable; [|discriminate]. simpl.
  destruct (trafilatura_fetch_url w i u) as [d | e]; [|discriminate]. simpl.
  destruct (Py.truthy d); simpl; [|discriminate].
  destruct (trafilatura_extract w d) as [t | e]; [|discriminate]. simpl.
  destruct (or_empty_strip t) as [b | e]; [|discriminate]. simpl.
  destruct (String.eqb_spec b "") as [-> | Hb]; [discriminate|].
  intros H. injection H as <-. now split.
Qed.

Lemma enrich_from_beyond (enable : bool) (limit : Z) (items : list item) :
  forall j i, (limit <= Z.of_nat (j + i))%Z ->
  nth_error (enrich_from w enable limit j items) i = nth_error items i.
Proof.
  induction items as [|it rest IH]; intros j i H; simpl; [reflexivity|].
  destruct (limit <=? Z.of_nat j)%Z eqn:E; [reflexivity|].
  apply Z.leb_gt in E. destruct i as [|i]; [lia|]. simpl.
  apply IH. lia.
Qed.

Lemma enrich_from_no_url (enable : bool) (limit : Z) (items : list item) :
  forall j i it, nth_error items i = Some it -> item_url it = "" ->
  nth_error (enrich_from w enable limit j items) i = Some it.
Proof.
  induction items as [|a rest IH]; intros j i it; simpl;
    [now destruct i|].
  destruct (limit <=? Z.of_nat j)%Z; [auto|].
  destruct i as [|i]; simpl; [|apply IH].
  intros H Hu. injection H as ->. now rewrite Hu.
Qed.

Lemma enrich_from_disabled (limit : Z) (items : list item) :
  forall j, enrich_from w false limit j items = items.
Proof.
  induction items as [|it rest IH]; intros j; simpl; [reflexivity|].
  destruct (limit <=? Z.of_nat j)%Z; [reflexivity|].
  rewrite IH. now destruct (negb (item_url it =? "")).
Qed.

(** Where enrichment put a content. *)
Lemma enrich_from_content (enable : bool) (limit : Z) (items : list item) :
  Forall (fun it => content it = None) items ->
  forall j i row body,
  nth_error (enrich_from w enable limit j items) i = Some row ->
  content row = Some body ->
  enable = true /\ body <> "" /\ (Z.of_nat (j + i) < limit)%Z
  /\ item_url row <> "".
Proof.
  induction 1 as [|it rest Hit Hrest IH]; intros j i row body; simpl;
    [now destruct i|].
  destruct (limit <=? Z.of_nat j)%Z eqn:E.
  - intros Hn Hc. apply nth_error_In in Hn.
    assert (content row = None) as Hnone.
    { destruct Hn as [<- | Hn]; [exact Hit|].
      rewrite Forall_forall in Hrest. now apply Hrest. }
    congruence.
  - apply Z.leb_gt in E. destruct i as [|i]; simpl.
    + intros Hn Hc. injection Hn as <-.
      destruct (String.eqb_spec (item_url it) "") as [Hu | Hu]; simpl in Hc;
        [congruence|].
      destruct (fetch_fulltext w enable j (item_url it)) as [b|] eqn:F;
        [|congruence].
      simpl in Hc. injection Hc as ->.
      apply fetch_fulltext_some in F as [-> Hb].
      repeat split; [exact Hb|lia|exact Hu].
    + intros Hn Hc. destruct (IH (S j) i row body Hn Hc) as [? [? [? ?]]].
      repeat split; try assumption. lia.
Qed.

End Saving.

(** X12.  When the total limit is not reached (it is at least the number
    of collected items), no id is lost: every collected item has exactly
    one saved row of its id. *)
Theorem every_id_saved_below_limit
    (w : world) (cfg : config) (file : option Py.value) (n : nat)
    (sources : list source) :
  load_sources file = Py.Ok sources -> sources <> [] ->
  let all_items := kept_all (PER_SOURCE_LIMIT cfg) (fetch_all w sources n) in
  (Z.of_nat (length all_items) <= TOTAL_LIMIT cfg)%Z ->
  forall x, In x all_items ->
  count_id (id x) (rows_of (main w cfg file n)) = 1%nat.
Proof.
  intros Hload Hne all_items Hlim x Hx.
  unfold rows_of. rewrite (main_with_sources w cfg file n sources Hload Hne).
  cbn [outcome]. rewrite saved_rows.
  rewrite (count_id_map _ _ (merge (TOTAL_LIMIT cfg) all_items))
    by apply enriched_id.
  rewrite merge_spec, slice_to_all.
  - apply count_id_first_per_id. now apply sorted_In.
  - pose proof (first_per_id_length
                  (Py.sorted by_published_at true all_items) []) as L.
    rewrite sorted_length in L. lia.
Qed.

Lemma every_id_saved_below_limit_witness :
  let file := Sample.sources_yaml
                [("A", "http://a.example/rss"); ("B", "http://b.example/rss")] in
  let sources := [Sample.src "A" "http://a.example/rss";
                  Sample.src "B" "http://b.example/rss"] in
  let cfg := Sample.with_limits 5 3 in
  load_sources file = Py.Ok sources /\
  map id (kept_all 5 (fetch_all Sample.w sources 0))
  = ["ce1a6f5764b52288"; "211993299179bf20"; "ce1a6f5764b52288"] /\
  (forall x, In x (kept_all 5 (fetch_all Sample.w sources 0)) ->
     count_id (id x) (rows_of (main Sample.w cfg file 0)) = 1%nat) /\
  length (rows_of (main Sample.w cfg file 0)) = 2%nat.
Proof.
  intros file sources cfg.
  assert (load_sources file = Py.Ok sources) as Hl by (vm_compute; reflexivity).
  split; [exact Hl|]. split; [vm_compute; reflexivity|].
  split; [|vm_compute; reflexivity].
  apply (every_id_saved_below_limit Sample.w cfg file 0 sources Hl);
    [discriminate|].
  vm_compute. discriminate.
Defined.

(** X13.  Every saved row is an item that a source of the run handed
    back: it agrees with that item on every field but [content], and it
    is that very item when [FETCH_FULLTEXT] is off. *)
Theorem rows_come_from_the_sources
    (w : world) (cfg : config) (file : option Py.value) (n : nat)
    (sources : list source) (row : item) :
  load_sources file = Py.Ok sources ->
  In row (rows_of (main w cfg file n)) ->
  exists src items it,
    In (src, Py.Ok items) (fetch_all w sources n) /\ In it items
    /\ but_content it = but_content row
    /\ (FETCH_FULLTEXT cfg = false -> row = it).
Proof.
  intros Hload Hrow.
  destruct sources as [|s sources].
  { unfold main, rows_of in Hrow. rewrite Hload in Hrow. destruct Hrow. }
  unfold rows_of in Hrow.
  rewrite (main_with_sources w cfg file n (s :: sources)) in Hrow
    by (exact Hload || discriminate).
  cbn [outcome] in Hrow. rewrite saved_rows in Hrow.
  assert (exists it,
            In it (merge (TOTAL_LIMIT cfg)
                     (kept_all (PER_SOURCE_LIMIT cfg)
                        (fetch_all w (s :: sources) n)))
            /\ but_content it = but_content row
            /\ (FETCH_FULLTEXT cfg = false -> row = it)) as [it [Hit [Hb He]]].
  { unfold enriched in Hrow. destruct (FETCH_FULLTEXT cfg).
    - apply (in_map but_content) in Hrow.
      unfold enrich_fulltext in Hrow.
      rewrite enrich_from_map in Hrow by reflexivity.
      apply in_map_iff in Hrow as [it [Hb Hit]].
      exists it. split; [exact Hit|]. split; [exact Hb|discriminate].
    - exists row. split; [exact Hrow|]. split; [reflexivity|].
      intros _. reflexivity. }
  apply merge_In in Hit. apply kept_all_In in Hit as [src [items [H1 H2]]].
  exists src, items, it. auto.
Qed.

Lemma rows_come_from_the_sources_witness :
  let file := Sample.sources_yaml
                [("A", "http://a.example/rss"); ("B", "http://b.example/rss")] in
  let sources := [Sample.src "A" "http://a.example/rss";
                  Sample.src "B" "http://b.example/rss"] in
  load_sources file = Py.Ok sources /\
  length (rows_of (main Sample.w Sample.defaults file 0)) = 2%nat /\
  forall row, In row (rows_of (main Sample.w Sample.defaults file 0)) ->
  exists src items,
    In (src, Py.Ok items) (fetch_all Sample.w sources 0) /\ In row items.
Proof.
  intros file sources.
  assert (load_sources file = Py.Ok sources) as Hl by (vm_compute; reflexivity).
  split; [exact Hl|]. split; [vm_compute; reflexivity|].
  intros row Hrow.
  destruct (rows_come_from_the_sources Sample.w Sample.defaults file 0
              sources row Hl Hrow) as [src [items [it [H1 [H2 [_ He]]]]]].
  exists src, items. split; [exact H1|].
  assert (row = it) as -> by exact (He eq_refl). exact H2.
Defined.

(** X14.  A saved row has a content only when [FETCH_FULLTEXT] is on,
    and then the content is not empty, the row stands before position
    [FULLTEXT_LIMIT] and its url is not empty.  With [FETCH_FULLTEXT] off
    no row has a content. *)
Theorem content_only_from_enrichment
    (w : world) (cfg : config) (file : option Py.value) (n : nat) :
  (forall i row body,
     nth_error (rows_of (main w cfg file n)) i = Some row ->
     content row = Some body ->
     FETCH_FULLTEXT cfg = true /\ body <> ""
     /\ (Z.of_nat i < FULLTEXT_LIMIT cfg)%Z /\ item_url row <> "")
  /\ (FETCH_FULLTEXT cfg = false ->
      forall row, In row (rows_of (main w cfg file n)) ->
      content row = None).
Proof.
  assert (forall i row body,
     nth_error (rows_of (main w cfg file n)) i = Some row ->
     content row = Some body ->
     FETCH_FULLTEXT cfg = true /\ body <> ""
     /\ (Z.of_nat i < FULLTEXT_LIMIT cfg)%Z /\ item_url row <> "") as Hmain.
  { intros i row body Hn Hc.
    destruct (load_sources file) as [[|s sources] | e] eqn:Hload;
      try (unfold main, rows_of in Hn; rewrite Hload in Hn; simpl in Hn;
           destruct i; discriminate).
    unfold rows_of in Hn.
    rewrite (main_with_sources w cfg file n (s :: sources)) in Hn
      by (exact Hload || discriminate).
    cbn [outcome] in Hn. rewrite saved_rows in Hn.
    assert (Forall (fun it => content it = None)
              (merge (TOTAL_LIMIT cfg)
                 (kept_all (PER_SOURCE_LIMIT cfg)
                    (fetch_all w (s :: sources) n)))) as Hnone.
    { apply Forall_forall. intros x Hx. apply merge_In in Hx.
      eapply kept_all_no_content. exact Hx. }
    unfold enriched in Hn. destruct (FETCH_FULLTEXT cfg).
    - destruct (enrich_from_content w true _ _ Hnone 0 i row body Hn Hc)
        as [_ [Hb [Hi Hu]]].
      repeat split; assumption.
    - apply nth_error_In in Hn. rewrite Forall_forall in Hnone.
      rewrite (Hnone row Hn) in Hc. discriminate. }
  split; [exact Hmain|].
  intros Hoff row Hrow. apply In_nth_error in Hrow as [i Hi].
  destruct (content row) as [body|] eqn:Hc; [|reflexivity].
  destruct (Hmain i row body Hi Hc) as [Hon _]. congruence.
Qed.

Lemma content_only_from_enrichment_witness :
  let file := Sample.sources_yaml
                [("A", "http://a.example/rss"); ("B", "http://b.example/rss")] in
  map item_url (rows_of (main Fulltext.w (Fulltext.reading 40) file 0))
  = ["http://news.example/1"; "http://news.example/2"] /\
  map content (rows_of (main Fulltext.w (Fulltext.reading 40) file 0))
  = [Some "본문 전체"; None] /\
  map content (rows_of (main Fulltext.w (Fulltext.reading 0) file 0))
  = [None; None] /\
  (forall row,
     In row (rows_of (main Fulltext.w Sample.defaults file 0)) ->
     content row = None).
Proof.
  intros file.
  split; [vm_compute; reflexivity|]. split; [vm_compute; reflexivity|].
  split; [vm_compute; reflexivity|].
  exact (proj2 (content_only_from_enrichment Fulltext.w Sample.defaults
                  file 0) eq_refl).
Defined.


(** X15.  [enrich_fulltext] changes no field but [content]; it leaves as
    they are the items from position [FULLTEXT_LIMIT] on and the items
    whose url is empty; with a limit of 0 or less, or when disabled, it
    changes nothing. *)
Theorem enrich_fulltext_bounds
    (w : world) (enable : bool) (limit : Z) (items : list item) :
  map but_content (enrich_fulltext w enable limit items)
  = map but_content items
  /\ (forall i, (limit <= Z.of_nat i)%Z ->
        nth_error (enrich_fulltext w enable limit items) i
        = nth_error items i)
  /\ (forall i it, nth_error items i = Some it -> item_url it = "" ->
        nth_error (enrich_fulltext w enable limit items) i = Some it)
  /\ ((limit <= 0)%Z -> enrich_fulltext w enable limit items = items)
  /\ (enable = false -> enrich_fulltext w enable limit items = items).
Proof.
  unfold enrich_fulltext. split; [now apply enrich_from_map|].
  split; [intros i H; now apply enrich_from_beyond|].
  split; [intros i it; apply enrich_from_no_url|].
  split.
  - intros H. destruct items as [|it rest]; [reflexivity|]. simpl.
    destruct (limit <=? 0)%Z eqn:E; [reflexivity|].
    apply Z.leb_gt in E. lia.
  - intros ->. apply enrich_from_disabled.
Qed.

(** X16.  [to_frame] keeps of the rows of one id the first: the ids of
    its rows are pairwise distinct, every id of the input is still there,
    a row kept is the first of its id in the input, a second pass changes
    nothing, and a list without repeated id comes back as it is. *)
Theorem to_frame_keeps_first_rows (items : list item) :
  NoDup (map id (to_frame items))
  /\ (forall x, In x items -> exists y, In y (to_frame items) /\ id y = id x)
  /\ (forall y, In y (to_frame items) ->
        find (fun x => id x =? id y) items = Some y)
  /\ to_frame (to_frame items) = to_frame items
  /\ (NoDup (map id items) -> to_frame items = items).
Proof.
  unfold to_frame. rewrite !drop_duplicates_first_per_id.
  split; [apply first_per_id_NoDup|].
  split; [intros x Hx; apply first_per_id_complete; [exact Hx|intros []]|].
  split; [intros y; apply first_per_id_find|].
  split.
  - apply first_per_id_id; [apply first_per_id_NoDup|intros x _ []].
  - intros H. apply first_per_id_id; [exact H|intros x _ []].
Qed.

(* ================================================================== *)
(** * Further properties: labels and tags *)
(* ================================================================== *)

(** X17.  Without an override the category is one of the seven labels
    [politics], [economy], [society], [culture], [it_science], [sports],
    [general]; and it is [general] only if no keyword of any group is in
    the text. *)
Theorem inferred_category_is_a_label
    (title summary : string) (src_category : Py.value) :
  Py.truthy src_category = false ->
  exists label,
    guess_category title summary src_category = Py.VStr label
    /\ In label LABELS
    /\ (label = "general" ->
        forall g, In g GROUPS ->
        Py.any_in (fst g) (title ++ " " ++ summary) = false).
Proof.
  intros Hc. unfold guess_category. rewrite Hc.
  cbv zeta.
  destruct (Py.any_in POLITICS_KW _) eqn:H1;
    [exists "politics"; split; [reflexivity|split; [in_tags|discriminate]]|].
  destruct (Py.any_in ECONOMY_KW _) eqn:H2;
    [exists "economy"; split; [reflexivity|split; [in_tags|discriminate]]|].
  destruct (Py.any_in SOCIETY_KW _) eqn:H3;
    [exists "society"; split; [reflexivity|split; [in_tags|discriminate]]|].
  destruct (Py.any_in CULTURE_KW _) eqn:H4;
    [exists "culture"; split; [reflexivity|split; [in_tags|discriminate]]|].
  destruct (Py.any_in ITSCI_KW _) eqn:H5;
    [exists "it_science"; split;
       [reflexivity|split; [in_tags|discriminate]]|].
  destruct (Py.any_in SPORTS_KW _) eqn:H6;
    [exists "sports"; split; [reflexivity|split; [in_tags|discriminate]]|].
  exists "general". split; [reflexivity|]. split; [in_tags|].
  intros _ g Hg. unfold GROUPS in Hg.
  repeat (destruct Hg as [<- | Hg]; [assumption|]). destruct Hg.
Qed.

Lemma inferred_category_is_a_label_witness :
  Py.truthy (Py.VStr "") = false /\
  guess_category "KBO 개막전" "야구 시즌이 시작됐다" (Py.VStr "")
  = Py.VStr "sports" /\
  exists label,
    guess_category "오늘의 날씨" "맑음" Py.VNone = Py.VStr label
    /\ In label LABELS.
Proof.
  split; [reflexivity|]. split; [vm_compute; reflexivity|].
  destruct (inferred_category_is_a_label "오늘의 날씨" "맑음" Py.VNone eq_refl)
    as [label [H1 [H2 _]]].
  exists label. now split.
Defined.

Lemma make_tags_tests (title summary : string) :
  let t := (title ++ " " ++ summary)%string in
  (forall tag, In tag (make_tags title summary) -> In tag TAGS)
  /\ (In "breaking" (make_tags title summary)
      <-> Py.any_in ["속보"; "단독"; "긴급"] t = true)
  /\ (In "analysis" (make_tags title summary)
      <-> Py.any_in ["해설"; "분석"; "심층"] t = true)
  /\ (In "opinion" (make_tags title summary)
      <-> Py.any_in ["사설"; "칼럼"; "오피니언"] t = true).
Proof.
  intros t. unfold make_tags. fold t.
  destruct (Py.any_in ["속보"; "단독"; "긴급"] t),
    (Py.any_in ["해설"; "분석"; "심층"] t),
    (Py.any_in ["사설"; "칼럼"; "오피니언"] t),
    (Py.len title <=? 25)%nat; cbn;
    (split; [intros tag H; unfold TAGS;
             repeat (destruct H as [<- | H]; [in_tags|]); destruct H|]);
    (split; [split; [intros H; first [reflexivity | not_in_tags H]
                    |intros H; first [discriminate H | in_tags]]|]);
    (split; [split; [intros H; first [reflexivity | not_in_tags H]
                    |intros H; first [discriminate H | in_tags]]|]);
    (split; [intros H; first [reflexivity | not_in_tags H]
            |intros H; first [discriminate H | in_tags]]).
Qed.

(** X18.  The tags are taken from [analysis], [breaking], [opinion],
    [short_title]; [breaking] is there exactly when 속보, 단독 or 긴급 is a
    substring of [title + " " + summary], [analysis] exactly when 해설,
    분석 or 심층 is one, [opinion] exactly when 사설, 칼럼 or 오피니언 is
    one. *)
Theorem make_tags_vocabulary (title summary : string) :
  let t := (title ++ " " ++ summary)%string in
  (forall tag, In tag (make_tags title summary) ->
     In tag ["analysis"; "breaking"; "opinion"; "short_title"])
  /\ (In "breaking" (make_tags title summary)
      <-> exists kw, In kw ["속보"; "단독"; "긴급"] /\ occurs kw t)
  /\ (In "analysis" (make_tags title summary)
      <-> exists kw, In kw ["해설"; "분석"; "심층"] /\ occurs kw t)
  /\ (In "opinion" (make_tags title summary)
      <-> exists kw, In kw ["사설"; "칼럼"; "오피니언"] /\ occurs kw t).
Proof.
  intros t. destruct (make_tags_tests title summary) as [H0 [H1 [H2 H3]]].
  fold t in H1, H2, H3.
  split; [exact H0|].
  split; [now rewrite H1, any_in_occurs|].
  split; [now rewrite H2, any_in_occurs|].
  now rewrite H3, any_in_occurs.
Qed.

Lemma make_tags_vocabulary_witness :
  let title := "일본 총리 단독 인터뷰: 한일 관계와 동북아 안보의 미래를 묻다" in
  let summary := "심층 대담" in
  make_tags title summary = ["analysis"; "breaking"] /\
  In "breaking" (make_tags title summary) /\
  ~ In "opinion" (make_tags title summary) /\
  make_tags "칼럼" "" = ["opinion"; "short_title"] /\
  make_tags "오늘의 날씨는 맑음, 낮 최고 기온 25도 안팎으로 포근" "" = [].
Proof.
  intros title summary.
  destruct (make_tags_vocabulary title summary) as [_ [Hb [_ Ho]]].
  split; [vm_compute; reflexivity|]. split; [|split].
  - apply Hb. exists "단독". split; [cbn; tauto|].
    exists "일본 총리 ",
      " 인터뷰: 한일 관계와 동북아 안보의 미래를 묻다 심층 대담".
    reflexivity.
  - intros H. apply Ho in H as [kw [Hkw Hocc]]. revert kw Hkw Hocc.
    apply any_in_none. vm_compute. reflexivity.
  - split; vm_compute; reflexivity.
Defined.

(* ================================================================== *)
(** * Further properties: text *)
(* ================================================================== *)

Section Characters.

Lemma append_assoc (a b c : string) : ((a ++ b) ++ c = a ++ (b ++ c))%string.
Proof. induction a as [|x a IH]; simpl; [reflexivity|now rewrite IH]. Qed.

Lemma append_nil_r (a : string) : (a ++ "" = a)%string.
Proof. induction a as [|x a IH]; simpl; [reflexivity|now rewrite IH]. Qed.

Lemma join_chars_app (a b : list string) :
  Py.join_chars (a ++ b) = (Py.join_chars a ++ Py.join_chars b)%string.
Proof.
  induction a as [|x a IH]; simpl; [reflexivity|].
  now rewrite IH, append_assoc.
Qed.

Lemma join_chars_from (s : string) :
  forall cur, Py.join_chars (Py.chars_from cur s) = (cur ++ s)%string.
Proof.
  induction s as [|c s IH]; intros cur; simpl.
  - destruct cur; simpl; [reflexivity|]. now rewrite !append_nil_r.
  - destruct (Py.continuation c).
    + rewrite IH, append_assoc. reflexivity.
    + destruct cur as [|x cur]; simpl; rewrite IH; reflexivity.
Qed.

(** Putting the characters of a text together gives the text. *)
Lemma join_chars_chars (s : string) : Py.join_chars (Py.chars s) = s.
Proof. unfold Py.chars. now rewrite join_chars_from. Qed.

Lemma all_continuation_app (a b : string) :
  all_continuation (a ++ b) = all_continuation a && all_continuation b.
Proof.
  unfold all_continuation. induction a as [|x a IH]; simpl; [reflexivity|].
  now rewrite IH, andb_assoc.
Qed.

Lemma chars_from_continuation (r : string) :
  forall cur rest, all_continuation r = true ->
  Py.chars_from cur (r ++ rest) = Py.chars_from (cur ++ r) rest.
Proof.
  unfold all_continuation.
  induction r as [|c r IH]; intros cur rest; simpl.
  - now rewrite append_nil_r.
  - intros H. apply andb_prop in H as [Hc Hr]. rewrite Hc.
    rewrite IH by exact Hr. now rewrite append_assoc.
Qed.

Lemma chars_from_chars (l : list string) :
  forallb is_char l = true ->
  forall cur,
  Py.chars_from cur (Py.join_chars l)
  = match cur with EmptyString => l | _ => cur :: l end.
Proof.
  induction l as [|c l IH]; intros Hl cur; simpl.
  - now destruct cur.
  - simpl in Hl. apply andb_prop in Hl as [Hc Hl].
    destruct c as [|b r]; [discriminate|]. simpl in Hc.
    apply andb_prop in Hc as [Hb Hr]. apply negb_true_iff in Hb.
    simpl. rewrite Hb.
    assert (Py.chars_from (String b EmptyString) (r ++ Py.join_chars l)
            = String b r :: l) as E.
    { rewrite chars_from_continuation by exact Hr. simpl.
      now rewrite (IH Hl (String b r)). }
    destruct cur; now rewrite E.
Qed.

Lemma all_chars_char_list (l : list string) :
  forallb is_char l = true -> char_list l = true.
Proof.
  destruct l as [|c l]; [reflexivity|]. simpl.
  intros H. apply andb_prop in H as [Hc Hl]. rewrite Hl, andb_true_r.
  destruct c as [|b r]; [discriminate|]. simpl in *.
  now apply andb_prop in Hc as [_ Hr].
Qed.

(** Cutting into characters what was put together from characters gives
    the characters back. *)
Lemma chars_join_chars (l : list string) :
  char_list l = true -> Py.chars (Py.join_chars l) = l.
Proof.
  destruct l as [|c l]; [reflexivity|]. simpl.
  intros H. apply andb_prop in H as [Hc Hl].
  destruct c as [|b r]; [discriminate|]. simpl in Hc.
  unfold Py.chars. simpl.
  assert (Py.chars_from (String b EmptyString) (r ++ Py.join_chars l)
          = String b r :: l) as E.
  { rewrite chars_from_continuation by exact Hc. simpl.
    now rewrite (chars_from_chars l Hl (String b r)). }
  destruct (Py.continuation b); exact E.
Qed.

Lemma is_char_snoc (cur : string) (c : ascii) :
  is_char cur = true -> Py.continuation c = true ->
  is_char (cur ++ String c EmptyString) = true.
Proof.
  destruct cur as [|b r]; [discriminate|]. simpl.
  intros H Hc. apply andb_prop in H as [Hb Hr].
  rewrite Hb, all_continuation_app, Hr. simpl.
  unfold all_continuation. simpl. now rewrite Hc.
Qed.

Lemma is_head_char_snoc (cur : string) (c : ascii) :
  cur = EmptyString \/ is_head_char cur = true ->
  Py.continuation c = true ->
  is_head_char (cur ++ String c EmptyString) = true.
Proof.
  intros [-> | H] Hc; [reflexivity|].
  destruct cur as [|b r]; [discriminate|]. simpl in *.
  rewrite all_continuation_app, H. unfold all_continuation. simpl.
  now rewrite Hc.
Qed.

Lemma chars_from_is_char (s : string) :
  forall cur, is_char cur = true ->
  forallb is_char (Py.chars_from cur s) = true.
Proof.
  induction s as [|c s IH]; intros cur Hcur; cbn [Py.chars_from].
  - destruct cur; [discriminate|]. cbn [forallb]. now rewrite Hcur.
  - destruct (Py.continuation c) eqn:Hc.
    + apply IH. now apply is_char_snoc.
    + destruct cur as [|b r]; [discriminate|].
      cbn [forallb]. rewrite Hcur. apply IH. simpl. now rewrite Hc.
Qed.

Lemma chars_from_char_list (s : string) :
  forall cur, cur = EmptyString \/ is_head_char cur = true ->
  char_list (Py.chars_from cur s) = true.
Proof.
  induction s as [|c s IH]; intros cur Hcur; cbn [Py.chars_from].
  - destruct cur; [reflexivity|]. cbn [char_list forallb].
    destruct Hcur as [H | H]; [discriminate|]. now rewrite H.
  - destruct (Py.continuation c) eqn:Hc.
    + apply IH. right. now apply is_head_char_snoc.
    + assert (is_char (String c EmptyString) = true) as H1
        by (simpl; now rewrite Hc).
      destruct cur as [|b r].
      * apply all_chars_char_list. now apply chars_from_is_char.
      * destruct Hcur as [H | H]; [discriminate|].
        cbn [char_list]. rewrite H. now apply chars_from_is_char.
Qed.

Lemma chars_char_list (s : string) : char_list (Py.chars s) = true.
Proof. apply chars_from_char_list. now left. Qed.

Lemma isspace_is_char (c : string) :
  Py.isspace c = true -> is_char c = true.
Proof.
  unfold Py.isspace. rewrite existsb_exists. intros [cp [Hin E]].
  apply String.eqb_eq in E. subst c.
  assert (forallb (fun cp => is_char (Py.utf8 cp)) Py.whitespace = true) as H
    by (vm_compute; reflexivity).
  rewrite forallb_forall in H. now apply H.
Qed.

Lemma char_list_app (a b : list string) :
  char_list (a ++ b) = true -> char_list a = true /\ char_list b = true.
Proof.
  destruct a as [|c a]; simpl; [auto|].
  rewrite forallb_app. intros H.
  apply andb_prop in H as [Hc H]. apply andb_prop in H as [Ha Hb].
  rewrite Hc, Ha. split; [reflexivity|]. now apply all_chars_char_list.
Qed.

Lemma char_list_tail (a b : list string) :
  char_list (a ++ b) = true -> a <> [] -> forallb is_char b = true.
Proof.
  destruct a as [|c a]; [congruence|]. simpl. rewrite forallb_app.
  intros H _. apply andb_prop in H as [_ H]. now apply andb_prop in H.
Qed.

Lemma char_list_app_chars (a b : list string) :
  char_list a = true -> a <> [] -> forallb is_char b = true ->
  char_list (a ++ b) = true.
Proof.
  destruct a as [|c a]; [congruence|]. simpl. rewrite forallb_app.
  intros H _ Hb. apply andb_prop in H as [Hc Ha]. now rewrite Hc, Ha, Hb.
Qed.

Lemma dropwhile_suffix {A : Type} (p : A -> bool) (l : list A) :
  exists l1, l = l1 ++ Py.dropwhile p l.
Proof.
  induction l as [|a l [l1 IH]]; simpl; [now exists []|].
  destruct (p a); [|now exists []].
  exists (a :: l1). simpl. now rewrite <- IH.
Qed.

Lemma dropwhile_hd {A : Type} (p : A -> bool) (l : list A) (c : A) :
  hd_error (Py.dropwhile p l) = Some c -> p c = false.
Proof.
  induction l as [|a l IH]; simpl; [discriminate|].
  destruct (p a) eqn:E; [exact IH|]. simpl. intros H. now injection H as <-.
Qed.

Lemma dropwhile_id {A : Type} (p : A -> bool) (l : list A) :
  (forall c, hd_error l = Some c -> p c = false) -> Py.dropwhile p l = l.
Proof.
  destruct l as [|a l]; simpl; [reflexivity|].
  intros H. now rewrite (H a eq_refl).
Qed.

(** [trim l] is a stretch of [l]. *)
Lemma trim_stretch (l : list string) :
  exists l1 l2, l = l1 ++ trim l ++ l2
                /\ Py.dropwhile Py.isspace l = trim l ++ l2.
Proof.
  unfold trim.
  destruct (dropwhile_suffix Py.isspace l) as [l1 E1].
  destruct (dropwhile_suffix Py.isspace (rev (Py.dropwhile Py.isspace l)))
    as [l2 E2].
  exists l1, (rev l2).
  assert (Py.dropwhile Py.isspace l
          = rev (Py.dropwhile Py.isspace (rev (Py.dropwhile Py.isspace l)))
            ++ rev l2) as E.
  { rewrite <- rev_app_distr, <- E2. now rewrite rev_involutive. }
  split; [|exact E]. now rewrite <- E.
Qed.

Lemma trim_clean_ends (l : list string) : clean_ends (trim l).
Proof.
  split.
  - intros c Hc. destruct (trim_stretch l) as [l1 [l2 [_ E]]].
    apply (dropwhile_hd Py.isspace l). rewrite E.
    destruct (trim l); [discriminate|exact Hc].
  - intros c. unfold trim. rewrite rev_involutive. apply dropwhile_hd.
Qed.

Lemma trim_char_list (l : list string) :
  char_list l = true -> char_list (trim l) = true.
Proof.
  intros H. destruct (trim_stretch l) as [l1 [l2 [E _]]].
  rewrite E in H. apply char_list_app in H as [_ H].
  now apply char_list_app in H as [H _].
Qed.

Lemma trim_In (l : list string) (c : string) : In c (trim l) -> In c l.
Proof.
  intros H. destruct (trim_stretch l) as [l1 [l2 [E _]]]. rewrite E.
  apply in_or_app. right. apply in_or_app. now left.
Qed.

(** The characters of a stripped text are those of the text, without the
    white space at the two ends. *)
Lemma chars_strip (s : string) : Py.chars (Py.strip s) = trim (Py.chars s).
Proof.
  unfold Py.strip. fold (trim (Py.chars s)).
  apply chars_join_chars, trim_char_list, chars_char_list.
Qed.

End Characters.

Section Cleaning.

Lemma sub_tags_is_char (l : list string) :
  forall open, forallb is_char (held_of open ++ l) = true ->
  forallb is_char (sub_tags open l) = true.
Proof.
  induction l as [|c l IH]; intros open; cbn [sub_tags].
  - destruct open; simpl; [now rewrite app_nil_r|reflexivity].
  - destruct open as [held|]; cbn [held_of].
    + rewrite forallb_app. cbn [forallb]. intros H.
      apply andb_prop in H as [Hh H]. apply andb_prop in H as [Hc Hl].
      destruct (c =? ">"); [now apply (IH None)|].
      destruct (c =? newline).
      * rewrite forallb_app. cbn [forallb].
        rewrite Hh, Hc. now apply (IH None).
      * apply (IH (Some (held ++ [c]))). cbn [held_of].
        rewrite <- app_assoc, forallb_app. cbn [app forallb].
        now rewrite Hh, Hc, Hl.
    + cbn [app forallb]. intros H. apply andb_prop in H as [Hc Hl].
      destruct (c =? "<").
      * apply (IH (Some [c])). cbn. now rewrite Hc, Hl.
      * cbn [forallb]. rewrite Hc. now apply (IH None).
Qed.

Lemma sub_tags_char_list (l : list string) :
  forall open, char_list (held_of open ++ l) = true ->
  char_list (sub_tags open l) = true.
Proof.
  induction l as [|c l IH]; intros open; cbn [sub_tags].
  - destruct open; simpl; [now rewrite app_nil_r|reflexivity].
  - destruct open as [held|]; cbn [held_of].
    + intros H.
      destruct (c =? ">").
      { apply (IH None). cbn [held_of app].
        apply char_list_app in H as [_ H].
        change (c :: l) with ([c] ++ l) in H.
        now apply char_list_app in H as [_ H]. }
      assert (forallb is_char l = true) as Hl.
      { apply (char_list_tail (held ++ [c]) l);
          [now rewrite <- app_assoc|now destruct held]. }
      assert (char_list (held ++ [c]) = true) as Hp.
      { replace (held ++ c :: l) with ((held ++ [c]) ++ l) in H
          by now rewrite <- app_assoc.
        now apply char_list_app in H as [H _]. }
      destruct (c =? newline).
      * replace (held ++ c :: sub_tags None l)
          with ((held ++ [c]) ++ sub_tags None l)
          by now rewrite <- app_assoc.
        apply char_list_app_chars; [exact Hp|now destruct held|].
        now apply (sub_tags_is_char l None).
      * apply (IH (Some (held ++ [c]))). cbn [held_of].
        now rewrite <- app_assoc.
    + cbn [app]. intros H.
      destruct (c =? "<"); [now apply (IH (Some [c]))|].
      cbn [char_list] in *. apply andb_prop in H as [Hc Hl].
      rewrite Hc. now apply (sub_tags_is_char l None).
Qed.

(** Text without ["<"] goes through the first substitution as it is. *)
Lemma sub_tags_none (l : list string) :
  ~ In "<" l -> sub_tags None l = l.
Proof.
  induction l as [|c l IH]; cbn [sub_tags]; [reflexivity|].
  intros H. destruct (String.eqb_spec c "<") as [-> | _].
  - exfalso. apply H. now left.
  - f_equal. apply IH. intros Hin. apply H. now right.
Qed.

Lemma space_is_space : Py.isspace " " = true.
Proof. vm_compute. reflexivity. Qed.

Lemma sub_spaces_is_char (l : list string) :
  forall b, forallb is_char l = true ->
  forallb is_char (sub_spaces b l) = true.
Proof.
  induction l as [|c l IH]; intros b; cbn [sub_spaces forallb];
    [reflexivity|].
  intros H. apply andb_prop in H as [Hc Hl].
  destruct (Py.isspace c).
  - destruct b; [now apply IH|]. cbn [forallb]. now rewrite IH.
  - cbn [forallb]. now rewrite Hc, IH.
Qed.

Lemma sub_spaces_char_list (l : list string) :
  forall b, char_list l = true -> char_list (sub_spaces b l) = true.
Proof.
  destruct l as [|c l]; intros b; [reflexivity|].
  cbn [char_list sub_spaces]. intros H. apply andb_prop in H as [Hc Hl].
  destruct (Py.isspace c).
  - apply all_chars_char_list.
    destruct b; [now apply sub_spaces_is_char|].
    cbn [forallb]. now rewrite sub_spaces_is_char.
  - cbn [char_list]. now rewrite Hc, sub_spaces_is_char.
Qed.

(** After the second substitution the only white space is [" "]. *)
Lemma sub_spaces_only_space (l : list string) :
  forall b c, In c (sub_spaces b l) -> Py.isspace c = true -> c = " ".
Proof.
  induction l as [|a l IH]; intros b c; cbn [sub_spaces]; [intros []|].
  destruct (Py.isspace a) eqn:Ha.
  - destruct b; [apply IH|].
    intros [<- | H]; [reflexivity|exact (IH _ _ H)].
  - intros [<- | H]; [congruence|exact (IH _ _ H)].
Qed.

(** ... and never twice in a row. *)
Lemma sub_spaces_single_spaced (l : list string) :
  forall b,
  single_spaced (sub_spaces b l)
  /\ (b = true ->
      forall c, hd_error (sub_spaces b l) = Some c -> Py.isspace c = false).
Proof.
  induction l as [|a l IH]; intros b; cbn [sub_spaces].
  - split; [exact I|]. intros _ c H. discriminate.
  - destruct (Py.isspace a) eqn:Ha.
    + destruct b; [apply IH|].
      split; [|discriminate].
      destruct (IH true) as [Hs Hh].
      destruct (sub_spaces true l) as [|c2 rest] eqn:E; [exact I|].
      split; [|exact Hs].
      intros [_ H2]. rewrite (Hh eq_refl c2 eq_refl) in H2. discriminate.
    + split.
      * destruct (IH false) as [Hs _].
        destruct (sub_spaces false l) as [|c2 rest] eqn:E; [exact I|].
        split; [|exact Hs]. intros [H1 _]. congruence.
      * intros _ c H. simpl in H. injection H as <-. exact Ha.
Qed.

Lemma single_spaced_app (a b : list string) :
  single_spaced (a ++ b) -> single_spaced a /\ single_spaced b.
Proof.
  induction a as [|x a IH]; [simpl; auto|].
  destruct a as [|y a].
  - simpl. destruct b; [auto|]. intros [_ H]. auto.
  - cbn [app single_spaced]. intros [Hxy H].
    destruct (IH H) as [Ha Hb]. auto.
Qed.

Lemma trim_single_spaced (l : list string) :
  single_spaced l -> single_spaced (trim l).
Proof.
  intros H. destruct (trim_stretch l) as [l1 [l2 [E _]]].
  rewrite E in H. apply single_spaced_app in H as [_ H].
  now apply single_spaced_app in H as [H _].
Qed.

(** What [clean_text] returns for a string, in characters. *)
Lemma clean_text_chars (s : string) :
  exists r,
    clean_text (Py.VStr s) = Py.Ok r
    /\ Py.chars r
       = trim (sub_spaces false (sub_tags None (Py.chars s))).
Proof.
  unfold clean_text. cbn [Py.truthy].
  destruct (String.eqb_spec s "") as [-> | Hs]; cbn [negb].
  - exists "". split; reflexivity.
  - eexists. split; [reflexivity|].
    assert (char_list (sub_tags None (Py.chars s)) = true) as H1
      by (apply (sub_tags_char_list _ None), chars_char_list).
    rewrite (chars_join_chars _ H1).
    assert (char_list (sub_spaces false (sub_tags None (Py.chars s))) = true)
      as H2 by now apply sub_spaces_char_list.
    rewrite chars_strip. now rewrite (chars_join_chars _ H2).
Qed.

Lemma or_empty_strip_stripped (v : Py.value) (t : string) :
  or_empty_strip v = Py.Ok t -> exists s, t = Py.strip s.
Proof.
  unfold or_empty_strip. destruct (Py.or_else v (Py.VStr "")); try discriminate.
  intros H. injection H as <-. eauto.
Qed.

End Cleaning.

Lemma clean_text_normal (s r : string) :
  clean_text (Py.VStr s) = Py.Ok r ->
  (forall c, In c (Py.chars r) -> Py.isspace c = true -> c = " ")
  /\ single_spaced (Py.chars r)
  /\ clean_ends (Py.chars r).
Proof.
  destruct (clean_text_chars s) as [r' [Hr Hc]]. rewrite Hr.
  intros H. injection H as <-. rewrite Hc.
  split; [|split].
  - intros c H. apply trim_In in H.
    exact (sub_spaces_only_space _ _ _ H).
  - apply trim_single_spaced. apply sub_spaces_single_spaced.
  - apply trim_clean_ends.
Qed.

Section Plain.

Lemma isspace_utf8 (cp : N) :
  In cp Py.whitespace -> Py.isspace (Py.utf8 cp) = true.
Proof.
  intros H. unfold Py.isspace. apply existsb_exists.
  exists cp. split; [exact H|apply String.eqb_refl].
Qed.

Lemma not_isspace (c : string) :
  (forall cp, In cp Py.whitespace -> c <> Py.utf8 cp) ->
  Py.isspace c = false.
Proof.
  intros H. destruct (Py.isspace c) eqn:E; [|reflexivity].
  unfold Py.isspace in E. apply existsb_exists in E as [cp [Hin Heq]].
  apply String.eqb_eq in Heq. exfalso. now apply (H cp Hin).
Qed.

Lemma utf8_space (cp : N) :
  In cp Py.whitespace -> Py.utf8 cp = " " -> cp = 32%N.
Proof.
  intros Hin Heq.
  assert (forallb (fun cp => negb (Py.utf8 cp =? " ") || (cp =? 32)%N)
            Py.whitespace = true) as H by (vm_compute; reflexivity).
  rewrite forallb_forall in H. specialize (H cp Hin).
  rewrite Heq, String.eqb_refl in H. simpl in H. now apply N.eqb_eq.
Qed.

Lemma single_spaced_no_pair (l1 l2 : list string) (a b : string) :
  single_spaced (l1 ++ a :: b :: l2) ->
  ~ (Py.isspace a = true /\ Py.isspace b = true).
Proof.
  intros H. apply single_spaced_app in H as [_ H]. now destruct H.
Qed.

Lemma sub_spaces_none (l : list string) :
  (forall c, In c l -> Py.isspace c = false) ->
  forall b, sub_spaces b l = l.
Proof.
  induction l as [|c l IH]; intros H b; cbn [sub_spaces]; [reflexivity|].
  rewrite (H c (or_introl eq_refl)). f_equal.
  apply IH. intros x Hx. apply H. now right.
Qed.

Lemma trim_none (l : list string) :
  (forall c, In c l -> Py.isspace c = false) -> trim l = l.
Proof.
  intros H. unfold trim.
  rewrite (dropwhile_id Py.isspace l).
  - rewrite dropwhile_id; [apply rev_involutive|].
    intros c Hc. apply H. apply in_rev.
    destruct (rev l); [discriminate|]. injection Hc as <-. now left.
  - intros c Hc. apply H. destruct l; [discriminate|].
    injection Hc as <-. now left.
Qed.

End Plain.

(** X19.  [clean_text] returns for every string, and raises for none, a
    text in which no white-space character but the space is left, no two
    spaces stand in a row and no space stands at either end; a text
    without ["<"] and without white space comes back as it is. *)
Theorem clean_text_normal_form (s : string) :
  let white :=
    [9; 10; 11; 12; 13; 28; 29; 30; 31; 32; 133; 160; 5760;
     8192; 8193; 8194; 8195; 8196; 8197; 8198; 8199; 8200; 8201; 8202;
     8232; 8233; 8239; 8287; 12288]%N in
  exists r,
    clean_text (Py.VStr s) = Py.Ok r
    /\ (forall cp, In cp white -> cp <> 32%N ->
          ~ In (Py.utf8 cp) (Py.chars r))
    /\ (forall l1 l2, Py.chars r <> l1 ++ " " :: " " :: l2)
    /\ hd_error (Py.chars r) <> Some " "
    /\ hd_error (rev (Py.chars r)) <> Some " "
    /\ ((forall c, In c (Py.chars s) ->
           c <> "<" /\ forall cp, In cp white -> c <> Py.utf8 cp) ->
        r = s).
Proof.
  intros white. change white with Py.whitespace.
  destruct (clean_text_chars s) as [r [Hr Hc]].
  exists r. split; [exact Hr|].
  destruct (clean_text_normal s r Hr) as [H1 [H2 [H3 H4]]].
  split; [|split; [|split; [|split]]].
  - intros cp Hcp Hne Hin. apply Hne. apply utf8_space; [exact Hcp|].
    apply H1; [exact Hin|]. now apply isspace_utf8.
  - intros l1 l2 E. rewrite E in H2.
    apply (single_spaced_no_pair _ _ _ _ H2).
    split; apply space_is_space.
  - intros E. pose proof (H3 _ E) as H. rewrite space_is_space in H.
    discriminate.
  - intros E. pose proof (H4 _ E) as H. rewrite space_is_space in H.
    discriminate.
  - intros Hplain.
    assert (forall c, In c (Py.chars s) -> Py.isspace c = false) as Hns.
    { intros c Hin. apply not_isspace. now apply Hplain. }
    rewrite sub_tags_none in Hc.
    + rewrite sub_spaces_none, trim_none in Hc by exact Hns.
      rewrite <- (join_chars_chars r), Hc. apply join_chars_chars.
    + intros Hin. now destruct (Hplain _ Hin) as [Hlt _].
Qed.

Lemma clean_text_normal_form_witness :
  let tab := Py.utf8 9 in
  let wide := Py.utf8 12288 in
  let s := (" <p>속보:" ++ tab ++ "<b>국회</b>" ++ newline ++ wide
            ++ "  연설 3 > 2 </p> ")%string in
  clean_text (Py.VStr s) = Py.Ok "속보: 국회 연설 3 > 2" /\
  ~ In tab (Py.chars "속보: 국회 연설 3 > 2") /\
  hd_error (Py.chars "속보: 국회 연설 3 > 2") <> Some " " /\
  clean_text (Py.VStr "국회") = Py.Ok "국회".
Proof.
  intros tab wide s.
  destruct (clean_text_normal_form s) as [r [Hr [H1 [_ [H3 _]]]]].
  assert (clean_text (Py.VStr s) = Py.Ok "속보: 국회 연설 3 > 2") as E
    by (vm_compute; reflexivity).
  rewrite E in Hr. injection Hr as <-.
  split; [exact E|]. split; [|split; [exact H3|]].
  - apply (H1 9%N); [cbn; tauto|discriminate].
  - destruct (clean_text_normal_form "국회") as [r [Hr [_ [_ [_ [_ H]]]]]].
    rewrite Hr. f_equal. apply H. intros c Hc.
    assert (c = "국" \/ c = "회") as Hcs.
    { vm_compute in Hc. destruct Hc as [<- | [<- | []]]; [now left|now right]. }
    split.
    + destruct Hcs as [-> | ->]; discriminate.
    + apply Forall_forall.
      destruct Hcs as [-> | ->]; repeat constructor; vm_compute; discriminate.
Defined.

(** X20.  The title and the url of every item that [fetch_rss] builds
    have no white space at either end, and its summary is in the normal
    form of [clean_text]. *)
Theorem item_texts_are_normalised
    (w : world) (src : source) (e : entry) (n n' : nat) (it : item) :
  fetch_rss_entry w src e n = (Py.Ok it, n') ->
  clean_ends (Py.chars (title it))
  /\ clean_ends (Py.chars (item_url it))
  /\ clean_ends (Py.chars (summary it))
  /\ single_spaced (Py.chars (summary it))
  /\ (forall c, In c (Py.chars (summary it)) ->
        Py.isspace c = true -> c = " ").
Proof.
  intros F.
  destruct (fetch_rss_entry_id _ _ _ _ _ _ F) as [_ [Ht Hl]].
  destruct (fetch_rss_entry_fields _ _ _ _ _ _ F)
    as [_ [_ [_ [_ [_ [_ [Hs _]]]]]]].
  apply or_empty_strip_stripped in Ht as [t ->].
  apply or_empty_strip_stripped in Hl as [l ->].
  rewrite !chars_strip.
  split; [apply trim_clean_ends|]. split; [apply trim_clean_ends|].
  assert (exists s, clean_text (Py.VStr s) = Py.Ok (summary it)) as [s Hr].
  { revert Hs. generalize (Py.or_else (Py.dict_get e "summary")
              (Py.or_else (Py.dict_get e "description") (Py.VStr ""))).
    intros v Hs. destruct v as [|b|z|s|l0|d].
    - exists "". exact Hs.
    - destruct b; [discriminate Hs|exists ""; exact Hs].
    - unfold clean_text in Hs. cbn [Py.truthy] in Hs.
      destruct (z =? 0)%Z; [exists ""; exact Hs|discriminate Hs].
    - exists s. exact Hs.
    - destruct l0; [exists ""; exact Hs|discriminate Hs].
    - destruct d; [exists ""; exact Hs|discriminate Hs]. }
  destruct (clean_text_normal s _ Hr) as [H1 [H2 H3]]. auto.
Qed.

Lemma item_texts_are_normalised_witness :
  let e := Sample.entry_of " 대통령,  국회 연설 " " http://news.example/1 "
             "<p>속보:   <b>국회</b>
 연설</p> " "2024-05-02T09:00:00+09:00" in
  exists it,
    fetch_rss_entry Sample.w (Sample.src "A" "http://a.example/rss") e 0
    = (Py.Ok it, 1%nat) /\
    title it = "대통령,  국회 연설" /\
    item_url it = "http://news.example/1" /\
    summary it = "속보: 국회 연설" /\
    clean_ends (Py.chars (title it)) /\
    single_spaced (Py.chars (summary it)).
Proof.
  intros e.
  destruct (fetch_rss_entry Sample.w (Sample.src "A" "http://a.example/rss")
              e 0) as [[it | err] k] eqn:F; [|vm_compute in F; discriminate].
  exists it.
  destruct (item_texts_are_normalised _ _ _ _ _ _ F)
    as [Ht [_ [_ [Hs _]]]].
  vm_compute in F. injection F as <- <-.
  split; [reflexivity|]. split; [reflexivity|]. split; [reflexivity|].
  split; [reflexivity|]. split; [exact Ht|exact Hs].
Defined.
